(** * Daikin Skyport integration: a Rocq model of [daikinskyport.py] and
    [climate.py]

    The development follows the two source files.  [Module Py] holds the
    fragment of Python the code relies on (scalar values, [==], truthiness,
    [round], literal dictionaries), [Module DaikinSkyport] the vendor client
    with its normaliser and mutation calls, [Module Climate] the entity layer
    (capability discovery, state resolution, temperature commands).  Device
    records are finite maps from field names to scalar values; the client's
    list of records holds references into an object store, because the entity
    keeps a reference to the very dictionary the client mutates. *)

From Stdlib Require Import ZArith QArith Qabs Lia Lqa.
From stdpp Require Import gmap strings list pretty sorting.

Open Scope Z_scope.

(* ===================================================================== *)
(** * Python values and the operations the code applies to them *)
(* ===================================================================== *)

Module Py.

(** A field of a device record is a JSON scalar.  A float stands for the
    rational number it denotes (finite floats only). *)
Inductive value : Type :=
| VNone
| VBool (b : bool)
| VInt (n : Z)
| VFloat (q : Q)
| VStr (s : string).

(** The numeric tower: [bool] is a subclass of [int], and ints compare
    with floats by value. *)
Definition num_of (v : value) : option Q :=
  match v with
  | VBool b => Some (inject_Z (Z.b2z b))
  | VInt n => Some (inject_Z n)
  | VFloat q => Some q
  | VNone | VStr _ => None
  end.

(** [a == b] *)
Definition py_eq (a b : value) : bool :=
  match num_of a, num_of b with
  | Some x, Some y => Qeq_bool x y
  | None, None =>
      match a, b with
      | VNone, VNone => true
      | VStr s, VStr t => String.eqb s t
      | _, _ => false
      end
  | _, _ => false
  end.

(** [bool(v)] *)
Definition truthy (v : value) : bool :=
  match v with
  | VNone => false
  | VBool b => b
  | VInt n => negb (n =? 0)
  | VFloat q => negb (Qeq_bool q 0)
  | VStr s => negb (String.eqb s "")
  end.

(** [v is False], [v is True], [v is None] *)
Definition is_False (v : value) : bool :=
  match v with VBool false => true | _ => false end.
Definition is_True (v : value) : bool :=
  match v with VBool true => true | _ => false end.
Definition is_None (v : value) : bool :=
  match v with VNone => true | _ => false end.

(** [isinstance(v, (int, float))] *)
Definition is_number (v : value) : bool :=
  match v with VBool _ | VInt _ | VFloat _ => true | _ => false end.

(** [isinstance(v, int)] *)
Definition is_int (v : value) : bool :=
  match v with VBool _ | VInt _ => true | _ => false end.

(** [v in seq] for a sequence of integer constants. *)
Definition py_in (v : value) (seq : list Z) : bool :=
  existsb (fun k => py_eq v (VInt k)) seq.

(** ** Device records: [dict] objects with string keys *)

Abbreviation dict := (gmap string value).

(** [d.get(k)] and [d.get(k, dflt)] *)
Definition get (d : dict) (k : string) : value := default VNone (d !! k).
Definition get_or (d : dict) (k : string) (dflt : value) : value :=
  default dflt (d !! k).

(** [k in d] *)
Definition contains (k : string) (d : dict) : bool :=
  match d !! k with Some _ => true | None => false end.

(** [d.setdefault(k, v)], as a map update *)
Definition setdefault (k : string) (v : value) (d : dict) : dict :=
  if contains k d then d else <[k := v]> d.

(** [not d] for a dictionary *)
Definition is_empty (d : dict) : bool := Nat.eqb (size d) 0.

(** ** Statements that update a dictionary in place

    A statement is the change it makes to the contents of the dictionary;
    a block runs its statements in order. *)
Definition stmt : Type := dict -> dict.

(** [d[k] = e] *)
Definition assign (k : string) (e : dict -> value) : stmt :=
  fun d => <[k := e d]> d.

(** [d.setdefault(k, e)] *)
Definition set_default (k : string) (e : dict -> value) : stmt :=
  fun d => setdefault k (e d) d.

(** [if c: s] *)
Definition when (c : dict -> bool) (s : stmt) : stmt :=
  fun d => if c d then s d else d.

(** [if c: s1] [else: s2] *)
Definition if_else (c : dict -> bool) (s1 s2 : stmt) : stmt :=
  fun d => if c d then s1 d else s2 d.

Definition block (statements : list stmt) : stmt :=
  fun d => fold_left (fun acc s => s acc) statements d.

(** ** Literal dictionaries whose keys are arbitrary scalars

    A display [{k1: a1, k2: a2, ...}] (or an [OrderedDict] built from a
    list of pairs) inserts left to right; a key equal to an earlier one
    keeps the earlier position and takes the later value. *)
Fixpoint pydict_set {A} (k : value) (a : A) (l : list (value * A))
  : list (value * A) :=
  match l with
  | [] => [(k, a)]
  | (k', a') :: r =>
      if py_eq k k' then (k', a) :: r else (k', a') :: pydict_set k a r
  end.

Definition pydict_of {A} (pairs : list (value * A)) : list (value * A) :=
  fold_left (fun acc p => pydict_set (fst p) (snd p) acc) pairs [].

Fixpoint pydict_get {A} (l : list (value * A)) (k : value) : option A :=
  match l with
  | [] => None
  | (k', a) :: r => if py_eq k k' then Some a else pydict_get r k
  end.

(** ** Exceptions and results *)
Inductive exn : Type :=
| TypeError
| KeyError (k : string)
| IndexError
| AttributeError (attr : string)
| UnboundLocalError (name : string)
| RecursionError
| JSONDecodeError
| RequestException
| ExpiredTokenError.

Inductive outcome (A : Type) : Type :=
| Ret (a : A)
| Raise (e : exn).
Arguments Ret {A} a.
Arguments Raise {A} e.

(** ** Rounding *)

(** [round(x)] of a float: nearest integer, ties to the even one. *)
Definition round_half_even (q : Q) : Z :=
  let n := Qnum q in
  let d := Z.pos (Qden q) in
  let f := n / d in
  let r := n mod d in
  match 2 * r ?= d with
  | Lt => f
  | Gt => f + 1
  | Eq => if Z.even f then f else f + 1
  end.

(** [v * k] for an integer literal [k] *)
Fixpoint str_repeat (n : nat) (s : string) : string :=
  match n with O => "" | S m => s +:+ str_repeat m s end.

Definition py_mul_int (v : value) (k : Z) : outcome value :=
  match v with
  | VBool b => Ret (VInt (Z.b2z b * k))
  | VInt n => Ret (VInt (n * k))
  | VFloat q => Ret (VFloat (Qred (q * inject_Z k)))
  | VStr s => Ret (VStr (str_repeat (Z.to_nat k) s))
  | VNone => Raise TypeError
  end.

(** [round(v)] *)
Definition py_round (v : value) : outcome value :=
  match v with
  | VBool b => Ret (VInt (Z.b2z b))
  | VInt n => Ret (VInt n)
  | VFloat q => Ret (VInt (round_half_even q))
  | VNone | VStr _ => Raise TypeError
  end.

(** [v / k] for a non-zero integer literal [k]: true division, a float *)
Definition py_truediv_int (v : value) (k : Z) : outcome value :=
  match num_of v with
  | Some q => Ret (VFloat (Qred (q / inject_Z k)))
  | None => Raise TypeError
  end.

(** [round(v, 1)]: an int stays an int, a float is rounded to one decimal *)
Definition py_round1 (v : value) : outcome value :=
  match v with
  | VBool b => Ret (VInt (Z.b2z b))
  | VInt n => Ret (VInt n)
  | VFloat q =>
      Ret (VFloat (Qred (inject_Z (round_half_even (q * 10)) / 10)))
  | VNone | VStr _ => Raise TypeError
  end.

(** ** Computations: state plus exceptions

    A raised exception keeps the state reached so far, as in Python. *)
Definition M (S A : Type) : Type := S -> outcome A * S.

Definition ret {S A} (a : A) : M S A := fun s => (Ret a, s).
Definition raise {S A} (e : exn) : M S A := fun s => (Raise e, s).
Definition bind {S A B} (m : M S A) (k : A -> M S B) : M S B :=
  fun s => match m s with
           | (Ret a, s') => k a s'
           | (Raise e, s') => (Raise e, s')
           end.
Definition lift_outcome {S A} (o : outcome A) : M S A := fun s => (o, s).
Definition gets {S A} (f : S -> A) : M S A := fun s => (Ret (f s), s).
Definition modify {S} (f : S -> S) : M S unit := fun s => (Ret tt, f s).

Notation "'let!' x ':=' m 'in' k" := (bind m (fun x => k))
  (at level 10, x name, m at level 100, k at level 200).
Notation "'do!' m 'in' k" := (bind m (fun _ => k))
  (at level 10, m at level 100, k at level 200).

Fixpoint for_each {S A} (l : list A) (f : A -> M S unit) : M S unit :=
  match l with
  | [] => ret tt
  | a :: r => do! f a in for_each r f
  end.

End Py.

Import Py.

(* ===================================================================== *)
(** * Names imported from the home-automation platform *)
(* ===================================================================== *)

Module HA.

(** [homeassistant.components.climate.HVACMode]; [hvac_value] is the
    [.value] of a member. *)
Inductive HVACMode : Type :=
| OFF | HEAT | COOL | HEAT_COOL | AUTO | DRY | FAN_ONLY.

Definition HVACMode_eqb (a b : HVACMode) : bool :=
  match a, b with
  | OFF, OFF | HEAT, HEAT | COOL, COOL | HEAT_COOL, HEAT_COOL
  | AUTO, AUTO | DRY, DRY | FAN_ONLY, FAN_ONLY => true
  | _, _ => false
  end.

Definition hvac_value (m : HVACMode) : string :=
  match m with
  | OFF => "off" | HEAT => "heat" | COOL => "cool"
  | HEAT_COOL => "heat_cool" | AUTO => "auto" | DRY => "dry"
  | FAN_ONLY => "fan_only"
  end.

(** [ClimateEntityFeature], an [IntFlag]. *)
Definition TARGET_TEMPERATURE : Z := 1.
Definition TARGET_TEMPERATURE_RANGE : Z := 2.
Definition FAN_MODE : Z := 8.
Definition PRESET_MODE : Z := 16.
Definition TURN_OFF : Z := 128.
Definition TURN_ON : Z := 256.

Definition FAN_AUTO : string := "auto".
Definition FAN_ON : string := "on".
Definition FAN_LOW : string := "low".
Definition FAN_MEDIUM : string := "medium".
Definition FAN_HIGH : string := "high".
Definition PRESET_NONE : string := "none".

Definition ATTR_TEMPERATURE : string := "temperature".
Definition ATTR_TARGET_TEMP_LOW : string := "target_temp_low".
Definition ATTR_TARGET_TEMP_HIGH : string := "target_temp_high".

End HA.

(* ===================================================================== *)
(** * const.py *)
(* ===================================================================== *)

(** Modelled from the spec: [const.py], which defines the vendor mode codes
    and the wall-unit fan-only codes, is not among the sources.  Its names
    are kept as the fields of a record, every definition below takes the
    record as a parameter, and the statements hold for all values of the
    constants unless they say otherwise. *)
Record const_py : Type := {
  DAIKIN_HVAC_MODE_OFF : Z;
  DAIKIN_HVAC_MODE_HEAT : Z;
  DAIKIN_HVAC_MODE_COOL : Z;
  DAIKIN_HVAC_MODE_AUTO : Z;
  DAIKIN_HVAC_MODE_AUXHEAT : Z;
  DAIKIN_HVAC_MODE_DRY : Z;
  WALL_UNIT_FAN_MODE_VALUES : list Z;
  WALL_UNIT_FAN_MODE_DEFAULT : Z
}.

(** Modelled from the spec: the code table of its data model (0 = off,
    1 = heat, 2 = cool, 3 = auto, 5 = dry), with 4 for auxiliary heat and 6
    as the single fan-only code.  Used for concrete runs only. *)
Definition example_const : const_py := {|
  DAIKIN_HVAC_MODE_OFF := 0;
  DAIKIN_HVAC_MODE_HEAT := 1;
  DAIKIN_HVAC_MODE_COOL := 2;
  DAIKIN_HVAC_MODE_AUTO := 3;
  DAIKIN_HVAC_MODE_AUXHEAT := 4;
  DAIKIN_HVAC_MODE_DRY := 5;
  WALL_UNIT_FAN_MODE_VALUES := [6];
  WALL_UNIT_FAN_MODE_DEFAULT := 6
|}.

(* ===================================================================== *)
(** * daikinskyport.py: classification and normalisation *)
(* ===================================================================== *)

Module DaikinSkyport.

Section Normalizer.
Context (K : const_py).

(** [DaikinSkyport._is_wall_unit] *)
Definition _is_wall_unit (device_info : dict) : bool :=
  py_eq (get device_info "adptSupportedEquipment") (VStr "RA")
  || contains "iduOperatingMode" device_info.

(** [DaikinSkyport._wall_unit_mode] *)
Definition _wall_unit_mode (device_info : dict) : Z :=
  let op_mode := get device_info "iduOperatingMode" in
  if is_False (get device_info "iduOnOff")
     || py_eq op_mode (VInt (DAIKIN_HVAC_MODE_OFF K))
  then DAIKIN_HVAC_MODE_OFF K
  else if py_in op_mode (WALL_UNIT_FAN_MODE_VALUES K)
  then WALL_UNIT_FAN_MODE_DEFAULT K
  else default (DAIKIN_HVAC_MODE_OFF K)
         (pydict_get
            (pydict_of [ (VInt 1, DAIKIN_HVAC_MODE_HEAT K);
                         (VInt 2, DAIKIN_HVAC_MODE_COOL K);
                         (VInt 3, DAIKIN_HVAC_MODE_AUTO K);
                         (VInt 5, DAIKIN_HVAC_MODE_DRY K) ])
            op_mode).

(** [DaikinSkyport._wall_unit_fan_speed_key] *)
Definition _wall_unit_fan_speed_key (hvac_mode : value) : option string :=
  pydict_get
    (pydict_of [ (VInt (DAIKIN_HVAC_MODE_HEAT K), "iduHeatFanSpeed"%string);
                 (VInt (DAIKIN_HVAC_MODE_COOL K), "iduCoolFanSpeed"%string);
                 (VInt (DAIKIN_HVAC_MODE_AUTO K), "iduAutoFanSpeed"%string);
                 (VInt (DAIKIN_HVAC_MODE_DRY K), "iduDryFanSpeed"%string);
                 (VInt (WALL_UNIT_FAN_MODE_DEFAULT K),
                   "iduFanModeFanSpeed"%string) ])
    hvac_mode.

(** [DaikinSkyport._normalize_device_info].  The source updates the
    dictionary in place and returns it; the function gives the contents
    after the call.  [op_mode] is read where the source reads it: no
    statement before its use writes [iduOperatingMode]. *)
Definition _normalize_device_info (device_info : dict) : dict :=
  if is_empty device_info then device_info
  else if _is_wall_unit device_info then
    block
      [ assign "device_type" (fun _ => VStr "wall_unit");
        when (fun d => negb (contains "mode" d))
          (assign "mode" (fun d => VInt (_wall_unit_mode d)));
        if_else
          (fun d => is_True (get d "iduOnOff")
                    && py_in (get d "iduOperatingMode")
                         (WALL_UNIT_FAN_MODE_VALUES K))
          (assign "wallUnitFanModeValue" (fun d => get d "iduOperatingMode"))
          (set_default "wallUnitFanModeValue"
             (fun _ => VInt (WALL_UNIT_FAN_MODE_DEFAULT K)));
        when (fun d => negb (contains "tempIndoor" d)
                       && contains "iduRoomTemp" d)
          (assign "tempIndoor" (fun d => get d "iduRoomTemp"));
        when (fun d => negb (contains "cspActive" d)
                       && contains "iduCoolSetpoint" d)
          (assign "cspActive" (fun d => get d "iduCoolSetpoint"));
        when (fun d => negb (contains "hspActive" d)
                       && contains "iduHeatSetpoint" d)
          (assign "hspActive" (fun d => get d "iduHeatSetpoint"));
        when (fun d => negb (contains "cspHome" d) && contains "cspActive" d)
          (assign "cspHome" (fun d => get d "cspActive"));
        when (fun d => negb (contains "hspHome" d) && contains "hspActive" d)
          (assign "hspHome" (fun d => get d "hspActive"));
        set_default "geofencingAway" (fun _ => VBool false);
        set_default "schedOverride" (fun _ => VInt 0);
        set_default "schedEnabled" (fun _ => VBool false);
        set_default "fanCirculate" (fun _ => VInt 0);
        set_default "fanCirculateSpeed" (fun _ => VInt 0);
        set_default "nightModeActive" (fun _ => VBool false);
        set_default "nightModeEnabled" (fun _ => VBool false);
        set_default "displayLockPIN" (fun _ => VInt 0);
        set_default "alertMediaAirFilterDays" (fun _ => VInt 0);
        set_default "statFirmware" (fun d => get d "adptSWversion") ]
      device_info
  else device_info.

(** The wall-unit test written inline in [get_sensors] (it gates the two
    outdoor-unit power sensors). *)
Definition get_sensors_wall_unit_test (thermostat : dict) : bool :=
  py_eq (get thermostat "device_type") (VStr "wall_unit")
  || py_eq (get thermostat "adptSupportedEquipment") (VStr "RA").

End Normalizer.

(** ** The client object, the object store and the network *)

(** A reference to a device-record dictionary. *)
Definition loc : Type := nat.

(** What [response.json()] finds in a response body. *)
Inductive json : Type :=
| JInvalid
| JObj (d : dict)
| JList (l : list dict).

Record response : Type := { status_code : Z; resp_json : json }.

(** What one HTTP exchange gives back: a response, or a
    [RequestException] once the transport's own retries are used up. *)
Inductive http_reply : Type :=
| Reply (r : response)
| NoReply.

(** A positional argument of [make_request]: Python does not check that
    [index] is an integer and [body] a dictionary. *)
Inductive pyobj : Type :=
| OVal (v : value)
| ODict (d : dict).

(** The action label passed for logging; [set_wall_unit_temperature]
    formats the request body into it. *)
Inductive log_msg : Type :=
| Msg (text : string)
| FMsg (formatted : dict) (text : string).

Record http_call : Type := {
  method : string;
  url : string;
  bearer : option string;
  payload : pyobj
}.

(** The attributes of a [DaikinSkyport] instance.  [user_email],
    [user_password] and [config_filename] are assigned on some paths of
    [__init__] only ([config_filename] on none): [None] is an attribute that
    does not exist. *)
Record client : Type := {
  thermostats : list loc;
  thermostatlist : json;
  authenticated : bool;
  skip_next : bool;
  file_based_config : bool;
  user_email : option value;
  user_password : option value;
  access_token : value;
  refresh_token : value;
  config_filename : option string;
  config : option dict
}.

Definition with_thermostats (x : list loc) (c : client) : client :=
  {| thermostats := x; thermostatlist := thermostatlist c;
     authenticated := authenticated c; skip_next := skip_next c;
     file_based_config := file_based_config c; user_email := user_email c;
     user_password := user_password c; access_token := access_token c;
     refresh_token := refresh_token c; config_filename := config_filename c;
     config := config c |}.

Definition with_thermostatlist (x : json) (c : client) : client :=
  {| thermostats := thermostats c; thermostatlist := x;
     authenticated := authenticated c; skip_next := skip_next c;
     file_based_config := file_based_config c; user_email := user_email c;
     user_password := user_password c; access_token := access_token c;
     refresh_token := refresh_token c; config_filename := config_filename c;
     config := config c |}.

Definition with_authenticated (x : bool) (c : client) : client :=
  {| thermostats := thermostats c; thermostatlist := thermostatlist c;
     authenticated := x; skip_next := skip_next c;
     file_based_config := file_based_config c; user_email := user_email c;
     user_password := user_password c; access_token := access_token c;
     refresh_token := refresh_token c; config_filename := config_filename c;
     config := config c |}.

Definition with_skip_next (x : bool) (c : client) : client :=
  {| thermostats := thermostats c; thermostatlist := thermostatlist c;
     authenticated := authenticated c; skip_next := x;
     file_based_config := file_based_config c; user_email := user_email c;
     user_password := user_password c; access_token := access_token c;
     refresh_token := refresh_token c; config_filename := config_filename c;
     config := config c |}.

Definition with_access_token (x : value) (c : client) : client :=
  {| thermostats := thermostats c; thermostatlist := thermostatlist c;
     authenticated := authenticated c; skip_next := skip_next c;
     file_based_config := file_based_config c; user_email := user_email c;
     user_password := user_password c; access_token := x;
     refresh_token := refresh_token c; config_filename := config_filename c;
     config := config c |}.

Definition with_refresh_token (x : value) (c : client) : client :=
  {| thermostats := thermostats c; thermostatlist := thermostatlist c;
     authenticated := authenticated c; skip_next := skip_next c;
     file_based_config := file_based_config c; user_email := user_email c;
     user_password := user_password c; access_token := access_token c;
     refresh_token := x; config_filename := config_filename c;
     config := config c |}.

Definition with_config (x : option dict) (c : client) : client :=
  {| thermostats := thermostats c; thermostatlist := thermostatlist c;
     authenticated := authenticated c; skip_next := skip_next c;
     file_based_config := file_based_config c; user_email := user_email c;
     user_password := user_password c; access_token := access_token c;
     refresh_token := refresh_token c; config_filename := config_filename c;
     config := x |}.

(** The state a call runs in: the object store of record dictionaries, the
    client, the replies the vendor API will give to the coming HTTP
    exchanges (oldest first) and the exchanges made so far (oldest
    first). *)
Record world : Type := {
  heap : loc -> dict;
  next_loc : loc;
  self : client;
  net : list http_reply;
  sent : list http_call
}.

Definition with_heap (h : loc -> dict) (w : world) : world :=
  {| heap := h; next_loc := next_loc w; self := self w; net := net w;
     sent := sent w |}.

Definition with_self (c : client) (w : world) : world :=
  {| heap := heap w; next_loc := next_loc w; self := c; net := net w;
     sent := sent w |}.

(** Attribute access on [self]; a missing attribute raises. *)
Definition attr {A} (name : string) (f : client -> option A) : M world A :=
  fun w => match f (self w) with
           | Some a => (Ret a, w)
           | None => (Raise (AttributeError name), w)
           end.

Definition set_attr (f : client -> client) : M world unit :=
  modify (fun w => with_self (f (self w)) w).

(** One HTTP exchange: it is recorded and consumes the next reply; with
    no reply left the transport fails. *)
Definition http (c : http_call) : M world http_reply :=
  fun w =>
    let w' r n := {| heap := heap w; next_loc := next_loc w; self := self w;
                     net := n; sent := sent w ++ [c] |} in
    match net w with
    | r :: n => (Ret r, w' r n)
    | [] => (Ret NoReply, w' NoReply [])
    end.

(** [lst[i]] for a Python list of length [len]: the position the index
    [i] denotes.  An index that is not an integer is a [TypeError], whatever
    the list; negative indices count from the end. *)
Definition int_of_index (i : pyobj) : outcome Z :=
  match i with
  | OVal (VInt z) => Ret z
  | OVal (VBool b) => Ret (Z.b2z b)
  | _ => Raise TypeError
  end.

Definition py_index (len : nat) (i : pyobj) : outcome nat :=
  match int_of_index i with
  | Raise e => Raise e
  | Ret z =>
      if (0 <=? z) && (z <? Z.of_nat len) then Ret (Z.to_nat z)
      else if (- Z.of_nat len <=? z) && (z <? 0)
      then Ret (Z.to_nat (Z.of_nat len + z))
      else Raise IndexError
  end.

Definition getitem (d : dict) (k : string) : outcome value :=
  match d !! k with
  | Some v => Ret v
  | None => Raise (KeyError k)
  end.

(** [response.json()[k]] *)
Definition json_item (j : json) (k : string) : outcome value :=
  match j with
  | JInvalid => Raise JSONDecodeError
  | JList _ => Raise TypeError
  | JObj d => getitem d k
  end.

(** ['literal' + v] *)
Definition str_add (s : string) (v : value) : outcome string :=
  match v with
  | VStr t => Ret (s +:+ t)
  | _ => Raise TypeError
  end.

(** [thermostats[index]] for the client's list *)
Definition locate (ths : list loc) (index : pyobj) : outcome loc :=
  match py_index (length ths) index with
  | Raise e => Raise e
  | Ret n =>
      match ths !! n with
      | Some l => Ret l
      | None => Raise IndexError
      end
  end.

(** [self.thermostats[index]] *)
Definition thermostat_at (index : pyobj) : M world loc :=
  fun w => (locate (thermostats (self w)) index, w).

Definition deref (l : loc) : M world dict := gets (fun w => heap w l).

(** [obj[key] = v] on the dictionary at [l] *)
Definition store (l : loc) (key : string) (v : value) : M world unit :=
  modify (fun w =>
    with_heap (fun l' => if Nat.eqb l' l then <[key := v]> (heap w l)
                         else heap w l') w).

(** A new dictionary object. *)
Definition alloc (d : dict) : M world loc :=
  fun w =>
    (Ret (next_loc w),
     {| heap := fun l' => if Nat.eqb l' (next_loc w) then d else heap w l';
        next_loc := S (next_loc w); self := self w; net := net w;
        sent := sent w |}).

(** [self.thermostats[index]], read as a dictionary *)
Definition thermostat_dict (index : value) : M world dict :=
  let! l := thermostat_at (OVal index) in deref l.

(** [self.thermostats[index][key]] *)
Definition thermostat_item (index : value) (key : string) : M world value :=
  let! d := thermostat_dict index in lift_outcome (getitem d key).

(** [self.thermostats[index][key] = v] *)
Definition thermostat_setitem (index : value) (key : string) (v : value)
  : M world unit :=
  let! l := thermostat_at (OVal index) in store l key v.

Section Client.
Context (K : const_py).

(** ** Tokens *)

(** [DaikinSkyport.write_tokens_to_file].  [config_from_file] writes the
    file and changes nothing in the client; the file system is outside the
    model. *)
Definition write_tokens_to_file : M world unit :=
  let! a := gets (fun w => access_token (self w)) in
  let! r := gets (fun w => refresh_token (self w)) in
  let! email := attr "user_email" user_email in
  let config : dict :=
    <["EMAIL" := email]> (<["REFRESH_TOKEN" := r]> (<["ACCESS_TOKEN" := a]> ∅)) in
  let! fb := gets (fun w => file_based_config (self w)) in
  if fb then
    let! filename := attr "config_filename" config_filename in ret tt
  else set_attr (with_config (Some config)).

(** What [request_tokens] returns: [False], [None] (it falls off the end
    when the login gave no refresh token) or the decoded response. *)
Inductive tokens_result : Type :=
| TokFalse
| TokNone
| TokJson (json_data : dict).

(** [DaikinSkyport.request_tokens] *)
Definition request_tokens : M world tokens_result :=
  let! email := attr "user_email" user_email in
  let! password := attr "user_password" user_password in
  let data : dict := <["password" := password]> (<["email" := email]> ∅) in
  let! reply := http {| method := "POST";
                        url := "https://api.daikinskyport.com/users/auth/login";
                        bearer := None; payload := ODict data |} in
  match reply with
  | NoReply => ret TokFalse
  | Reply request =>
      if status_code request =? 200 then
        match resp_json request with
        | JInvalid => raise JSONDecodeError
        | JList _ => raise TypeError
        | JObj json_data =>
            let! a := lift_outcome (getitem json_data "accessToken") in
            do! set_attr (with_access_token a) in
            let! r := lift_outcome (getitem json_data "refreshToken") in
            do! set_attr (with_refresh_token r) in
            if is_None r then ret TokNone
            else
              let! fb := gets (fun w => file_based_config (self w)) in
              do! (if fb then write_tokens_to_file else ret tt) in
              ret (TokJson json_data)
        end
      else ret TokFalse
  end.

(** [DaikinSkyport.refresh_tokens] *)
Definition refresh_tokens : M world bool :=
  let! email := attr "user_email" user_email in
  let! r := gets (fun w => refresh_token (self w)) in
  let data : dict := <["refreshToken" := r]> (<["email" := email]> ∅) in
  let! reply := http {| method := "POST";
                        url := "https://api.daikinskyport.com/users/auth/token";
                        bearer := None; payload := ODict data |} in
  match reply with
  | NoReply => raise RequestException
  | Reply request =>
      if status_code request =? 200 then
        let! a := lift_outcome (json_item (resp_json request) "accessToken") in
        do! set_attr (with_access_token a) in
        let! fb := gets (fun w => file_based_config (self w)) in
        do! (if fb then write_tokens_to_file else ret tt) in
        ret true
      else
        let! result := request_tokens in
        match result with
        | TokNone => ret false
        | TokFalse | TokJson _ => ret true
        end
  end.

(** ** Polling *)

(** [DaikinSkyport.get_thermostat_info].  The result is [None] for a
    device that is offline, else what [_normalize_device_info] returned. *)
Definition get_thermostat_info (deviceid : value) : M world (option json) :=
  let! url := lift_outcome
                (str_add "https://api.daikinskyport.com/deviceData/" deviceid) in
  let! token := gets (fun w => access_token (self w)) in
  let! auth := lift_outcome (str_add "Bearer " token) in
  let! reply := http {| method := "GET"; url := url; bearer := Some auth;
                        payload := OVal VNone |} in
  match reply with
  | NoReply => raise RequestException
  | Reply request =>
      let st := status_code request in
      if (400 <=? st) && (st <? 600) then
        let! offline :=
          (if st =? 400 then
             match resp_json request with
             | JInvalid => raise JSONDecodeError
             | JList _ => raise (AttributeError "get")
             | JObj d =>
                 ret (py_eq (get d "message") (VStr "DeviceOfflineException"))
             end
           else ret false) in
        if offline then
          do! set_attr (with_authenticated true) in ret None
        else
          do! set_attr (with_authenticated false) in raise ExpiredTokenError
      else if st =? 200 then
        do! set_attr (with_authenticated true) in
        match resp_json request with
        | JInvalid => raise JSONDecodeError
        | JObj d => ret (Some (JObj (_normalize_device_info K d)))
        | JList [] => ret (Some (JList []))
        | JList (_ :: _) => raise (AttributeError "get")
        end
      else
        do! set_attr (with_authenticated false) in raise ExpiredTokenError
  end.

(** The inner loop of [get_thermostats]: every stored record with the
    same id is replaced by the new one. *)
Fixpoint overwrite_matching (id : value) (thermostat_info : loc)
    (indices : list nat) (overwrite : bool) : M world bool :=
  match indices with
  | [] => ret overwrite
  | index :: rest =>
      let! d := thermostat_dict (VInt (Z.of_nat index)) in
      let! other := lift_outcome (getitem d "id") in
      if py_eq id other then
        do! set_attr (fun c =>
              with_thermostats (<[index := thermostat_info]> (thermostats c)) c) in
        overwrite_matching id thermostat_info rest true
      else overwrite_matching id thermostat_info rest overwrite
  end.

(** The body of the outer loop of [get_thermostats]. *)
Definition get_thermostats_step (thermostat : dict) : M world unit :=
  let! id := lift_outcome (getitem thermostat "id") in
  let! thermostat_info := get_thermostat_info id in
  match thermostat_info with
  | None => ret tt
  | Some (JObj d) =>
      let! name := lift_outcome (getitem thermostat "name") in
      let d := <["name" := name]> d in
      let d := <["id" := id]> d in
      let! model := lift_outcome (getitem thermostat "model") in
      let d := <["model" := model]> d in
      let! l := alloc d in
      let! n := gets (fun w => length (thermostats (self w))) in
      let! overwrite := overwrite_matching id l (seq 0 n) false in
      if overwrite then ret tt
      else set_attr (fun c => with_thermostats (thermostats c ++ [l]) c)
  | Some _ =>
      let! name := lift_outcome (getitem thermostat "name") in
      raise TypeError
  end.

(** [DaikinSkyport.get_thermostats] *)
Definition get_thermostats : M world (option (list loc)) :=
  let! token := gets (fun w => access_token (self w)) in
  let! auth := lift_outcome (str_add "Bearer " token) in
  let! reply := http {| method := "GET";
                        url := "https://api.daikinskyport.com/devices";
                        bearer := Some auth; payload := OVal VNone |} in
  match reply with
  | NoReply => ret None
  | Reply request =>
      if status_code request =? 200 then
        do! set_attr (with_authenticated true) in
        match resp_json request with
        | JInvalid => raise JSONDecodeError
        | JList l =>
            do! set_attr (with_thermostatlist (JList l)) in
            do! for_each l get_thermostats_step in
            let! ts := gets (fun w => thermostats (self w)) in ret (Some ts)
        | JObj d =>
            do! set_attr (with_thermostatlist (JObj d)) in
            if is_empty d then
              let! ts := gets (fun w => thermostats (self w)) in ret (Some ts)
            else raise TypeError
        end
      else
        do! set_attr (with_authenticated false) in raise ExpiredTokenError
  end.

(** [DaikinSkyport.update] *)
Definition update : M world (option (list loc)) :=
  let! skip := gets (fun w => skip_next (self w)) in
  if skip then
    do! set_attr (with_skip_next false) in ret None
  else get_thermostats.

(** ** The request behind every mutation *)

(** The body of [DaikinSkyport.make_request], with the method it calls on
    itself as a parameter. *)
Definition make_request_body
    (make_request : pyobj -> pyobj -> log_msg -> Z -> M world (option response))
    (index body : pyobj) (log_msg_action : log_msg) (retry_count : Z)
  : M world (option response) :=
  do! set_attr (with_skip_next true) in
  let! l := thermostat_at index in
  let! d := deref l in
  let! deviceID := lift_outcome (getitem d "id") in
  let! url := lift_outcome
                (str_add "https://api.daikinskyport.com/deviceData/" deviceID) in
  let! token := gets (fun w => access_token (self w)) in
  let! auth := lift_outcome (str_add "Bearer " token) in
  let! reply := http {| method := "PUT"; url := url; bearer := Some auth;
                        payload := body |} in
  match reply with
  | NoReply => ret None
  | Reply request =>
      let warn_and_return : M world (option response) :=
        match resp_json request with
        | JInvalid => raise JSONDecodeError
        | _ => ret None
        end in
      if status_code request =? 200 then ret (Some request)
      else if (status_code request =? 401) && (retry_count =? 0) then
        let! error := lift_outcome (json_item (resp_json request) "error") in
        if py_eq error (VStr "authorization_expired") then
          let! refreshed := refresh_tokens in
          if refreshed then
            make_request body (OVal deviceID) log_msg_action (retry_count + 1)
          else ret None
        else warn_and_return
      else warn_and_return
  end.

(** [DaikinSkyport.make_request] with a bound on the depth of its calls
    on itself; at depth zero Python's own limit is reached. *)
Fixpoint make_request_depth (depth : nat)
    (index body : pyobj) (log_msg_action : log_msg) (retry_count : Z)
  : M world (option response) :=
  match depth with
  | O => raise RecursionError
  | S n =>
      make_request_body (make_request_depth n)
        index body log_msg_action retry_count
  end.

(** [make_request(index, body, log_msg_action)], as the mutation calls
    invoke it: [retry_count] takes its default.  A call with
    [retry_count = 0] nests at most one further call, which has
    [retry_count = 1] and makes none. *)
Definition make_request (index body : pyobj) (log_msg_action : log_msg)
  : M world (option response) :=
  make_request_depth 2 index body log_msg_action 0.

(** ** Mutation calls *)

(** [DaikinSkyport.set_hvac_mode] *)
Definition set_hvac_mode (index hvac_mode : value)
  : M world (option response) :=
  let body : dict := {[ "mode"%string := hvac_mode ]} in
  let log_msg_action := Msg "set HVAC mode" in
  do! thermostat_setitem index "mode" hvac_mode in
  make_request (OVal index) (ODict body) log_msg_action.

(** [DaikinSkyport.set_thermostat_schedule] *)
Definition set_thermostat_schedule (index : value) (prefix : string)
    (start enable label heating cooling : value)
  : M world (option response) :=
  let body : dict :=
    <[prefix +:+ "csp" := cooling]>
      (<[prefix +:+ "hsp" := heating]>
         (<[prefix +:+ "Label" := label]>
            (<[prefix +:+ "Enabled" := enable]>
               (<[prefix +:+ "Time" := start]> ∅)))) in
  let log_msg_action := Msg "set thermostat schedule" in
  make_request (OVal index) (ODict body) log_msg_action.

(** [DaikinSkyport.set_fan_mode] *)
Definition set_fan_mode (index fan_mode : value)
  : M world (option response) :=
  let body : dict := {[ "fanCirculate"%string := fan_mode ]} in
  let log_msg_action := Msg "set fan mode" in
  do! thermostat_setitem index "fanCirculate" fan_mode in
  make_request (OVal index) (ODict body) log_msg_action.

(** [DaikinSkyport.set_fan_speed] *)
Definition set_fan_speed (index fan_speed : value)
  : M world (option response) :=
  let body : dict := {[ "fanCirculateSpeed"%string := fan_speed ]} in
  let log_msg_action := Msg "set fan speed" in
  do! thermostat_setitem index "fanCirculateSpeed" fan_speed in
  make_request (OVal index) (ODict body) log_msg_action.

(** [DaikinSkyport.set_fan_clean] *)
Definition set_fan_clean (index active : value)
  : M world (option response) :=
  let body : dict := {[ "oneCleanFanActive"%string := active ]} in
  let log_msg_action := Msg "set fan clean mode" in
  make_request (OVal index) (ODict body) log_msg_action.

(** [DaikinSkyport.set_dual_fuel_efficiency] *)
Definition set_dual_fuel_efficiency (index active : value)
  : M world (option response) :=
  let body : dict := {[ "ctDualFuelFurnaceLockoutEnable"%string := active ]} in
  let log_msg_action := Msg "set dual fuel efficiency mode" in
  make_request (OVal index) (ODict body) log_msg_action.

(** [DaikinSkyport.set_temp_hold]; an omitted argument is [VNone]. *)
Definition set_temp_hold (index cool_temp heat_temp hold_duration : value)
  : M world (option response) :=
  let! hold_duration :=
    (if is_None hold_duration
     then thermostat_item index "schedOverrideDuration"
     else ret hold_duration) in
  let! cool_temp :=
    (if is_None cool_temp then thermostat_item index "cspHome"
     else ret cool_temp) in
  let! heat_temp :=
    (if is_None heat_temp then thermostat_item index "hspHome"
     else ret heat_temp) in
  let! heat := lift_outcome (py_round1 heat_temp) in
  let! cool := lift_outcome (py_round1 cool_temp) in
  let body : dict :=
    <["schedOverrideDuration" := hold_duration]>
      (<["schedOverride" := VInt 1]>
         (<["cspHome" := cool]> (<["hspHome" := heat]> ∅))) in
  let log_msg_action := Msg "set hold temp" in
  do! thermostat_setitem index "hspHome" heat in
  do! thermostat_setitem index "cspHome" cool in
  do! thermostat_setitem index "schedOverride" (VInt 1) in
  do! thermostat_setitem index "schedOverrideDuration" hold_duration in
  make_request (OVal index) (ODict body) log_msg_action.

(** [DaikinSkyport.set_permanent_hold] *)
Definition set_permanent_hold (index cool_temp heat_temp : value)
  : M world (option response) :=
  let! cool_temp :=
    (if is_None cool_temp then thermostat_item index "cspHome"
     else ret cool_temp) in
  let! heat_temp :=
    (if is_None heat_temp then thermostat_item index "hspHome"
     else ret heat_temp) in
  let! heat := lift_outcome (py_round1 heat_temp) in
  let! cool := lift_outcome (py_round1 cool_temp) in
  let body : dict :=
    <["schedEnabled" := VBool false]>
      (<["schedOverride" := VInt 0]>
         (<["cspHome" := cool]> (<["hspHome" := heat]> ∅))) in
  let log_msg_action := Msg "set permanent hold" in
  do! thermostat_setitem index "hspHome" heat in
  do! thermostat_setitem index "cspHome" cool in
  do! thermostat_setitem index "schedOverride" (VInt 0) in
  do! thermostat_setitem index "schedEnabled" (VBool false) in
  make_request (OVal index) (ODict body) log_msg_action.

(** [DaikinSkyport.set_away] *)
Definition set_away (index mode heat_temp cool_temp : value)
  : M world (option response) :=
  let! heat_temp :=
    (if is_None heat_temp then
       let! stored := thermostat_item index "hspAway" in
       lift_outcome (py_round1 stored)
     else ret heat_temp) in
  let! cool_temp :=
    (if is_None cool_temp then
       let! stored := thermostat_item index "cspAway" in
       lift_outcome (py_round1 stored)
     else ret cool_temp) in
  let body : dict :=
    <["cspAway" := cool_temp]>
      (<["hspAway" := heat_temp]> (<["geofencingAway" := mode]> ∅)) in
  let log_msg_action := Msg "set away mode" in
  do! thermostat_setitem index "geofencingAway" mode in
  do! thermostat_setitem index "hspAway" heat_temp in
  do! thermostat_setitem index "cspAway" cool_temp in
  make_request (OVal index) (ODict body) log_msg_action.

(** [DaikinSkyport.resume_program] *)
Definition resume_program (index : value) : M world (option response) :=
  let body : dict :=
    <["geofencingAway" := VBool false]>
      (<["schedOverride" := VInt 0]> (<["schedEnabled" := VBool true]> ∅)) in
  let log_msg_action := Msg "resume program" in
  make_request (OVal index) (ODict body) log_msg_action.

(** [DaikinSkyport.set_fan_schedule] *)
Definition set_fan_schedule (index start stop interval speed : value)
  : M world (option response) :=
  let body : dict :=
    <["fanCirculateSpeed" := speed]>
      (<["fanCirculateDuration" := interval]>
         (<["fanCirculateStop" := stop]>
            (<["fanCirculateStart" := start]> ∅))) in
  let log_msg_action := Msg "set fan schedule" in
  make_request (OVal index) (ODict body) log_msg_action.

(** [DaikinSkyport.set_night_mode] *)
Definition set_night_mode (index start stop enable : value)
  : M world (option response) :=
  let body : dict :=
    <["nightModeEnabled" := enable]>
      (<["nightModeStop" := stop]> (<["nightModeStart" := start]> ∅)) in
  let log_msg_action := Msg "set night mode" in
  make_request (OVal index) (ODict body) log_msg_action.

(** [DaikinSkyport.set_econo_mode] *)
Definition set_econo_mode (index active : value)
  : M world (option response) :=
  let body : dict := {[ "iduEconoModeSetting"%string := active ]} in
  let log_msg_action := Msg "set econo mode" in
  do! thermostat_setitem index "iduEconoModeSetting" active in
  make_request (OVal index) (ODict body) log_msg_action.

(** [DaikinSkyport.set_boost_mode] *)
Definition set_boost_mode (index active : value)
  : M world (option response) :=
  let body : dict := {[ "oduPowerfulOperationRequest"%string := active ]} in
  let log_msg_action := Msg "set boost mode" in
  do! thermostat_setitem index "oduPowerfulOperationRequest" active in
  make_request (OVal index) (ODict body) log_msg_action.

(** [DaikinSkyport.set_humidity] *)
Definition set_humidity (index humidity_low humidity_high : value)
  : M world (option response) :=
  let! humidity_low :=
    (if is_None humidity_low then thermostat_item index "humSP"
     else ret humidity_low) in
  let! humidity_high :=
    (if is_None humidity_high then thermostat_item index "dehumSP"
     else ret humidity_high) in
  let body : dict :=
    <["humSP" := humidity_low]> (<["dehumSP" := humidity_high]> ∅) in
  let log_msg_action := Msg "set humidity level" in
  make_request (OVal index) (ODict body) log_msg_action.

(** The [hvac_mode] argument of [set_wall_unit_mode]: the entity passes a
    member of [HVACMode], which has a [value] attribute; other callers may
    pass a vendor code or a string. *)
Inductive mode_arg : Type :=
| ModeEnum (m : HA.HVACMode)
| ModeVal (v : value).

(** [DaikinSkyport.set_wall_unit_mode] *)
Definition set_wall_unit_mode (index : value) (hvac_mode : mode_arg)
  : M world (option response) :=
  let hvac_mode :=
    match hvac_mode with
    | ModeEnum m => VStr (HA.hvac_value m)
    | ModeVal v => v
    end in
  let body : dict := ∅ in
  let! body :=
    (if py_eq hvac_mode (VInt (DAIKIN_HVAC_MODE_OFF K))
        || py_eq hvac_mode (VStr "off")
     then ret (<["iduOnOff" := VBool false]> body)
     else
       let body := <["iduOnOff" := VBool true]> body in
       let mode_map :=
         pydict_of
           [ (VInt (DAIKIN_HVAC_MODE_HEAT K), 1);
             (VStr "heat", 1);
             (VInt (DAIKIN_HVAC_MODE_COOL K), 2);
             (VStr "cool", 2);
             (VInt (DAIKIN_HVAC_MODE_AUTO K), 3);
             (VStr "auto", 3);
             (VInt (DAIKIN_HVAC_MODE_DRY K), 5);
             (VStr "dry", 5);
             (VStr "fan_only", WALL_UNIT_FAN_MODE_DEFAULT K);
             (VInt (WALL_UNIT_FAN_MODE_DEFAULT K),
               WALL_UNIT_FAN_MODE_DEFAULT K) ] in
       let! d := thermostat_dict index in
       let fallback :=
         get_or d "iduOperatingMode" (VInt (DAIKIN_HVAC_MODE_AUTO K)) in
       let op_mode :=
         match pydict_get mode_map hvac_mode with
         | Some code => VInt code
         | None => fallback
         end in
       let body := <["iduOperatingMode" := op_mode]> body in
       do! thermostat_setitem index "iduOperatingMode" op_mode in
       do! (if py_in op_mode (WALL_UNIT_FAN_MODE_VALUES K)
            then thermostat_setitem index "wallUnitFanModeValue" op_mode
            else ret tt) in
       match _wall_unit_fan_speed_key K op_mode with
       | None => ret body
       | Some fan_key =>
           let! d := thermostat_dict index in
           if contains fan_key d then
             let! speed := thermostat_item index fan_key in
             ret (<[fan_key := speed]> body)
           else ret body
       end) in
  do! thermostat_setitem index "iduOnOff"
        (get_or body "iduOnOff" (VBool true)) in
  let! d := thermostat_dict index in
  do! thermostat_setitem index "mode" (VInt (_wall_unit_mode K d)) in
  let log_msg_action := Msg "set wall unit mode" in
  make_request (OVal index) (ODict body) log_msg_action.

(** [DaikinSkyport.set_wall_unit_fan_speed] *)
Definition set_wall_unit_fan_speed (index fan_speed hvac_mode : value)
  : M world (option response) :=
  if is_None fan_speed then ret None
  else
    let! d := thermostat_dict index in
    let is_on := negb (is_False (get d "iduOnOff")) in
    let! hvac_mode :=
      (if is_None hvac_mode then
         let! d := thermostat_dict index in ret (get d "iduOperatingMode")
       else ret hvac_mode) in
    if py_eq hvac_mode (VInt (DAIKIN_HVAC_MODE_OFF K)) && negb is_on
    then ret None
    else
      match _wall_unit_fan_speed_key K hvac_mode with
      | None => ret None
      | Some fan_key =>
          let body : dict := {[ fan_key := fan_speed ]} in
          do! thermostat_setitem index fan_key fan_speed in
          let log_msg_action := Msg "set wall unit fan speed" in
          make_request (OVal index) (ODict body) log_msg_action
      end.

(** The rounding at the head of [set_wall_unit_temperature]:
    [round(temperature * 2) / 2], then [round(_, 1)]. *)
Definition round_to_half (temperature : value) : outcome value :=
  match py_mul_int temperature 2 with
  | Raise e => Raise e
  | Ret doubled =>
      match py_round doubled with
      | Raise e => Raise e
      | Ret whole =>
          match py_truediv_int whole 2 with
          | Raise e => Raise e
          | Ret half => py_round1 half
          end
      end
  end.

(** [DaikinSkyport.set_wall_unit_temperature] *)
Definition set_wall_unit_temperature (index temperature hvac_mode : value)
  : M world (option response) :=
  if is_None temperature then ret None
  else
    let! temperature := lift_outcome (round_to_half temperature) in
    let! hvac_mode :=
      (if is_None hvac_mode then
         let! d := thermostat_dict index in ret (get d "mode")
       else ret hvac_mode) in
    let body : dict := ∅ in
    let! d := thermostat_dict index in
    let! body :=
      (if contains "oduPowerfulOperationRequest" d then
         let! d := thermostat_dict index in
         ret (<["oduPowerfulOperationRequest" :=
                  VBool (truthy (get d "oduPowerfulOperationRequest"))]> body)
       else ret body) in
    let! branch :=
      (if py_eq hvac_mode (VInt (DAIKIN_HVAC_MODE_COOL K)) then
         do! thermostat_setitem index "iduCoolSetpoint" temperature in
         ret (Some (<["iduCoolSetpoint" := temperature]> body))
       else if py_eq hvac_mode (VInt (DAIKIN_HVAC_MODE_HEAT K)) then
         do! thermostat_setitem index "iduHeatSetpoint" temperature in
         ret (Some (<["iduHeatSetpoint" := temperature]> body))
       else if py_eq hvac_mode (VInt (DAIKIN_HVAC_MODE_AUTO K)) then
         do! thermostat_setitem index "iduAutoSetpoint" temperature in
         ret (Some (<["iduAutoSetpoint" := temperature]> body))
       else if py_eq hvac_mode (VInt (DAIKIN_HVAC_MODE_DRY K)) then ret None
       else ret (Some body)) in
    match branch with
    | None => ret None
    | Some body =>
        do! (if negb (is_None hvac_mode)
             then thermostat_setitem index "mode" hvac_mode
             else ret tt) in
        let log_msg_action := FMsg body "set wall unit temperature" in
        make_request (OVal index) (ODict body) log_msg_action
    end.

(** ** Every mutation call of the client, as one type *)
Inductive mutation : Type :=
| SetHvacMode (index hvac_mode : value)
| SetThermostatSchedule (index : value) (prefix : string)
    (start enable label heating cooling : value)
| SetFanMode (index fan_mode : value)
| SetFanSpeed (index fan_speed : value)
| SetFanClean (index active : value)
| SetDualFuelEfficiency (index active : value)
| SetTempHold (index cool_temp heat_temp hold_duration : value)
| SetPermanentHold (index cool_temp heat_temp : value)
| SetAway (index mode heat_temp cool_temp : value)
| ResumeProgram (index : value)
| SetFanSchedule (index start stop interval speed : value)
| SetNightMode (index start stop enable : value)
| SetEconoMode (index active : value)
| SetBoostMode (index active : value)
| SetHumidity (index humidity_low humidity_high : value)
| SetWallUnitMode (index : value) (hvac_mode : mode_arg)
| SetWallUnitFanSpeed (index fan_speed hvac_mode : value)
| SetWallUnitTemperature (index temperature hvac_mode : value).

Definition call (m : mutation) : M world (option response) :=
  match m with
  | SetHvacMode i x => set_hvac_mode i x
  | SetThermostatSchedule i p a b c d e => set_thermostat_schedule i p a b c d e
  | SetFanMode i x => set_fan_mode i x
  | SetFanSpeed i x => set_fan_speed i x
  | SetFanClean i x => set_fan_clean i x
  | SetDualFuelEfficiency i x => set_dual_fuel_efficiency i x
  | SetTempHold i c h d => set_temp_hold i c h d
  | SetPermanentHold i c h => set_permanent_hold i c h
  | SetAway i m h c => set_away i m h c
  | ResumeProgram i => resume_program i
  | SetFanSchedule i a b c d => set_fan_schedule i a b c d
  | SetNightMode i a b c => set_night_mode i a b c
  | SetEconoMode i x => set_econo_mode i x
  | SetBoostMode i x => set_boost_mode i x
  | SetHumidity i a b => set_humidity i a b
  | SetWallUnitMode i m => set_wall_unit_mode i m
  | SetWallUnitFanSpeed i f m => set_wall_unit_fan_speed i f m
  | SetWallUnitTemperature i t m => set_wall_unit_temperature i t m
  end.

(** The device index a mutation call is given. *)
Definition index_of (m : mutation) : value :=
  match m with
  | SetHvacMode i _ | SetThermostatSchedule i _ _ _ _ _ _ | SetFanMode i _
  | SetFanSpeed i _ | SetFanClean i _ | SetDualFuelEfficiency i _
  | SetTempHold i _ _ _ | SetPermanentHold i _ _ | SetAway i _ _ _
  | ResumeProgram i | SetFanSchedule i _ _ _ _ | SetNightMode i _ _ _
  | SetEconoMode i _ | SetBoostMode i _ | SetHumidity i _ _
  | SetWallUnitMode i _ | SetWallUnitFanSpeed i _ _
  | SetWallUnitTemperature i _ _ => i
  end.

End Client.

End DaikinSkyport.

(* ===================================================================== *)
(** * climate.py *)
(* ===================================================================== *)

Module Climate.

Import HA.
Import DaikinSkyport.

(** Hold settings and preset names *)
Definition HOLD_NEXT_TRANSITION : Z := 0.
Definition PRESET_AWAY : string := "Away".
Definition PRESET_SCHEDULE : string := "Schedule".
Definition PRESET_MANUAL : string := "Manual".
Definition PRESET_TEMP_HOLD : string := "Temp Hold".
Definition PRESET_ECONO : string := "Econo".
Definition PRESET_BOOST : string := "Boost".
Definition FAN_SCHEDULE : string := "Schedule".

Definition PRECISION_HALVES : Q := 1 # 2.
Definition PRECISION_TENTHS : Q := 1 # 10.

Definition DAIKIN_FAN_TO_HASS : list (value * string) :=
  pydict_of [ (VInt 0, FAN_AUTO); (VInt 1, FAN_ON); (VInt 2, FAN_SCHEDULE);
              (VInt 3, FAN_LOW); (VInt 4, FAN_MEDIUM); (VInt 5, FAN_HIGH) ].

Definition DAIKIN_FAN_SPEED_TO_HASS : list (value * string) :=
  pydict_of [ (VInt 0, FAN_LOW); (VInt 1, FAN_MEDIUM); (VInt 2, FAN_HIGH) ].

Definition SUPPORT_FLAGS : Z :=
  Z.lor TARGET_TEMPERATURE
    (Z.lor PRESET_MODE
       (Z.lor TARGET_TEMPERATURE_RANGE
          (Z.lor FAN_MODE (Z.lor TURN_ON TURN_OFF)))).

Definition WALL_UNIT_FAN_SPEED_TO_HASS : list (value * string) :=
  pydict_of [ (VInt 10, "auto"%string); (VInt 11, "quiet"%string);
              (VInt 3, "low"%string); (VInt 4, "medium_low"%string);
              (VInt 5, "medium"%string); (VInt 6, "medium_high"%string);
              (VInt 7, "high"%string) ].

Definition WALL_UNIT_FAN_SPEED_ORDER : list Z := [10; 11; 3; 4; 5; 6; 7].

(** The module-level [_is_wall_unit] of [climate.py] *)
Definition _is_wall_unit (thermostat : dict) : bool :=
  py_eq (get thermostat "device_type") (VStr "wall_unit")
  || py_eq (get thermostat "adptSupportedEquipment") (VStr "RA")
  || contains "iduOperatingMode" thermostat.

(** The attributes of a [Thermostat] entity.  [thermostat] is a reference
    to the record dictionary the client holds; [_preset_mode] is assigned
    for the first time by [_apply_thermostat_state] ([None] before). *)
Record Thermostat : Type := {
  thermostat_index : value;
  thermostat : DaikinSkyport.loc;
  self_is_wall_unit : bool;
  _cool_setpoint : value;
  _heat_setpoint : value;
  _target_temp : value;
  _hvac_mode : HVACMode;
  _fan_mode : value;
  _fan_speed : value;
  _preset_mode : option string;
  _base_supported_features : Z;
  _supported_features : Z;
  _attr_precision : Q;
  _operation_list : list HVACMode;
  _preset_modes : gset string;
  _fan_modes : list string;
  update_without_throttle : bool
}.

Definition upd_self_is_wall_unit (x : bool) (e : Thermostat) : Thermostat :=
  {| thermostat_index := thermostat_index e; thermostat := thermostat e;
     self_is_wall_unit := x;
     _cool_setpoint := _cool_setpoint e; _heat_setpoint := _heat_setpoint e;
     _target_temp := _target_temp e; _hvac_mode := _hvac_mode e;
     _fan_mode := _fan_mode e; _fan_speed := _fan_speed e;
     _preset_mode := _preset_mode e;
     _base_supported_features := _base_supported_features e;
     _supported_features := _supported_features e;
     _attr_precision := _attr_precision e;
     _operation_list := _operation_list e; _preset_modes := _preset_modes e;
     _fan_modes := _fan_modes e;
     update_without_throttle := update_without_throttle e |}.

Definition upd_cool_setpoint (x : value) (e : Thermostat) : Thermostat :=
  {| thermostat_index := thermostat_index e; thermostat := thermostat e;
     self_is_wall_unit := self_is_wall_unit e; _cool_setpoint := x;
     _heat_setpoint := _heat_setpoint e; _target_temp := _target_temp e;
     _hvac_mode := _hvac_mode e; _fan_mode := _fan_mode e;
     _fan_speed := _fan_speed e; _preset_mode := _preset_mode e;
     _base_supported_features := _base_supported_features e;
     _supported_features := _supported_features e;
     _attr_precision := _attr_precision e;
     _operation_list := _operation_list e; _preset_modes := _preset_modes e;
     _fan_modes := _fan_modes e;
     update_without_throttle := update_without_throttle e |}.

Definition upd_heat_setpoint (x : value) (e : Thermostat) : Thermostat :=
  {| thermostat_index := thermostat_index e; thermostat := thermostat e;
     self_is_wall_unit := self_is_wall_unit e;
     _cool_setpoint := _cool_setpoint e; _heat_setpoint := x;
     _target_temp := _target_temp e; _hvac_mode := _hvac_mode e;
     _fan_mode := _fan_mode e; _fan_speed := _fan_speed e;
     _preset_mode := _preset_mode e;
     _base_supported_features := _base_supported_features e;
     _supported_features := _supported_features e;
     _attr_precision := _attr_precision e;
     _operation_list := _operation_list e; _preset_modes := _preset_modes e;
     _fan_modes := _fan_modes e;
     update_without_throttle := update_without_throttle e |}.

Definition upd_target_temp (x : value) (e : Thermostat) : Thermostat :=
  {| thermostat_index := thermostat_index e; thermostat := thermostat e;
     self_is_wall_unit := self_is_wall_unit e;
     _cool_setpoint := _cool_setpoint e; _heat_setpoint := _heat_setpoint e;
     _target_temp := x; _hvac_mode := _hvac_mode e; _fan_mode := _fan_mode e;
     _fan_speed := _fan_speed e; _preset_mode := _preset_mode e;
     _base_supported_features := _base_supported_features e;
     _supported_features := _supported_features e;
     _attr_precision := _attr_precision e;
     _operation_list := _operation_list e; _preset_modes := _preset_modes e;
     _fan_modes := _fan_modes e;
     update_without_throttle := update_without_throttle e |}.

Definition upd_hvac_mode (x : HVACMode) (e : Thermostat) : Thermostat :=
  {| thermostat_index := thermostat_index e; thermostat := thermostat e;
     self_is_wall_unit := self_is_wall_unit e;
     _cool_setpoint := _cool_setpoint e; _heat_setpoint := _heat_setpoint e;
     _target_temp := _target_temp e; _hvac_mode := x;
     _fan_mode := _fan_mode e; _fan_speed := _fan_speed e;
     _preset_mode := _preset_mode e;
     _base_supported_features := _base_supported_features e;
     _supported_features := _supported_features e;
     _attr_precision := _attr_precision e;
     _operation_list := _operation_list e; _preset_modes := _preset_modes e;
     _fan_modes := _fan_modes e;
     update_without_throttle := update_without_throttle e |}.

Definition upd_fan_mode (x : value) (e : Thermostat) : Thermostat :=
  {| thermostat_index := thermostat_index e; thermostat := thermostat e;
     self_is_wall_unit := self_is_wall_unit e;
     _cool_setpoint := _cool_setpoint e; _heat_setpoint := _heat_setpoint e;
     _target_temp := _target_temp e; _hvac_mode := _hvac_mode e;
     _fan_mode := x; _fan_speed := _fan_speed e;
     _preset_mode := _preset_mode e;
     _base_supported_features := _base_supported_features e;
     _supported_features := _supported_features e;
     _attr_precision := _attr_precision e;
     _operation_list := _operation_list e; _preset_modes := _preset_modes e;
     _fan_modes := _fan_modes e;
     update_without_throttle := update_without_throttle e |}.

Definition upd_fan_speed (x : value) (e : Thermostat) : Thermostat :=
  {| thermostat_index := thermostat_index e; thermostat := thermostat e;
     self_is_wall_unit := self_is_wall_unit e;
     _cool_setpoint := _cool_setpoint e; _heat_setpoint := _heat_setpoint e;
     _target_temp := _target_temp e; _hvac_mode := _hvac_mode e;
     _fan_mode := _fan_mode e; _fan_speed := x;
     _preset_mode := _preset_mode e;
     _base_supported_features := _base_supported_features e;
     _supported_features := _supported_features e;
     _attr_precision := _attr_precision e;
     _operation_list := _operation_list e; _preset_modes := _preset_modes e;
     _fan_modes := _fan_modes e;
     update_without_throttle := update_without_throttle e |}.

Definition upd_preset_mode (x : option string) (e : Thermostat) : Thermostat :=
  {| thermostat_index := thermostat_index e; thermostat := thermostat e;
     self_is_wall_unit := self_is_wall_unit e;
     _cool_setpoint := _cool_setpoint e; _heat_setpoint := _heat_setpoint e;
     _target_temp := _target_temp e; _hvac_mode := _hvac_mode e;
     _fan_mode := _fan_mode e; _fan_speed := _fan_speed e; _preset_mode := x;
     _base_supported_features := _base_supported_features e;
     _supported_features := _supported_features e;
     _attr_precision := _attr_precision e;
     _operation_list := _operation_list e; _preset_modes := _preset_modes e;
     _fan_modes := _fan_modes e;
     update_without_throttle := update_without_throttle e |}.

Definition upd_base_supported_features (x : Z) (e : Thermostat) : Thermostat :=
  {| thermostat_index := thermostat_index e; thermostat := thermostat e;
     self_is_wall_unit := self_is_wall_unit e;
     _cool_setpoint := _cool_setpoint e; _heat_setpoint := _heat_setpoint e;
     _target_temp := _target_temp e; _hvac_mode := _hvac_mode e;
     _fan_mode := _fan_mode e; _fan_speed := _fan_speed e;
     _preset_mode := _preset_mode e; _base_supported_features := x;
     _supported_features := _supported_features e;
     _attr_precision := _attr_precision e;
     _operation_list := _operation_list e; _preset_modes := _preset_modes e;
     _fan_modes := _fan_modes e;
     update_without_throttle := update_without_throttle e |}.

Definition upd_supported_features (x : Z) (e : Thermostat) : Thermostat :=
  {| thermostat_index := thermostat_index e; thermostat := thermostat e;
     self_is_wall_unit := self_is_wall_unit e;
     _cool_setpoint := _cool_setpoint e; _heat_setpoint := _heat_setpoint e;
     _target_temp := _target_temp e; _hvac_mode := _hvac_mode e;
     _fan_mode := _fan_mode e; _fan_speed := _fan_speed e;
     _preset_mode := _preset_mode e;
     _base_supported_features := _base_supported_features e;
     _supported_features := x; _attr_precision := _attr_precision e;
     _operation_list := _operation_list e; _preset_modes := _preset_modes e;
     _fan_modes := _fan_modes e;
     update_without_throttle := update_without_throttle e |}.

Definition upd_attr_precision (x : Q) (e : Thermostat) : Thermostat :=
  {| thermostat_index := thermostat_index e; thermostat := thermostat e;
     self_is_wall_unit := self_is_wall_unit e;
     _cool_setpoint := _cool_setpoint e; _heat_setpoint := _heat_setpoint e;
     _target_temp := _target_temp e; _hvac_mode := _hvac_mode e;
     _fan_mode := _fan_mode e; _fan_speed := _fan_speed e;
     _preset_mode := _preset_mode e;
     _base_supported_features := _base_supported_features e;
     _supported_features := _supported_features e; _attr_precision := x;
     _operation_list := _operation_list e; _preset_modes := _preset_modes e;
     _fan_modes := _fan_modes e;
     update_without_throttle := update_without_throttle e |}.

Definition upd_operation_list (x : list HVACMode) (e : Thermostat) : Thermostat :=
  {| thermostat_index := thermostat_index e; thermostat := thermostat e;
     self_is_wall_unit := self_is_wall_unit e;
     _cool_setpoint := _cool_setpoint e; _heat_setpoint := _heat_setpoint e;
     _target_temp := _target_temp e; _hvac_mode := _hvac_mode e;
     _fan_mode := _fan_mode e; _fan_speed := _fan_speed e;
     _preset_mode := _preset_mode e;
     _base_supported_features := _base_supported_features e;
     _supported_features := _supported_features e;
     _attr_precision := _attr_precision e; _operation_list := x;
     _preset_modes := _preset_modes e; _fan_modes := _fan_modes e;
     update_without_throttle := update_without_throttle e |}.

Definition upd_preset_modes (x : gset string) (e : Thermostat) : Thermostat :=
  {| thermostat_index := thermostat_index e; thermostat := thermostat e;
     self_is_wall_unit := self_is_wall_unit e;
     _cool_setpoint := _cool_setpoint e; _heat_setpoint := _heat_setpoint e;
     _target_temp := _target_temp e; _hvac_mode := _hvac_mode e;
     _fan_mode := _fan_mode e; _fan_speed := _fan_speed e;
     _preset_mode := _preset_mode e;
     _base_supported_features := _base_supported_features e;
     _supported_features := _supported_features e;
     _attr_precision := _attr_precision e;
     _operation_list := _operation_list e; _preset_modes := x;
     _fan_modes := _fan_modes e;
     update_without_throttle := update_without_throttle e |}.

Definition upd_fan_modes (x : list string) (e : Thermostat) : Thermostat :=
  {| thermostat_index := thermostat_index e; thermostat := thermostat e;
     self_is_wall_unit := self_is_wall_unit e;
     _cool_setpoint := _cool_setpoint e; _heat_setpoint := _heat_setpoint e;
     _target_temp := _target_temp e; _hvac_mode := _hvac_mode e;
     _fan_mode := _fan_mode e; _fan_speed := _fan_speed e;
     _preset_mode := _preset_mode e;
     _base_supported_features := _base_supported_features e;
     _supported_features := _supported_features e;
     _attr_precision := _attr_precision e;
     _operation_list := _operation_list e; _preset_modes := _preset_modes e;
     _fan_modes := x;
     update_without_throttle := update_without_throttle e |}.

Definition upd_update_without_throttle (x : bool) (e : Thermostat) : Thermostat :=
  {| thermostat_index := thermostat_index e; thermostat := thermostat e;
     self_is_wall_unit := self_is_wall_unit e;
     _cool_setpoint := _cool_setpoint e; _heat_setpoint := _heat_setpoint e;
     _target_temp := _target_temp e; _hvac_mode := _hvac_mode e;
     _fan_mode := _fan_mode e; _fan_speed := _fan_speed e;
     _preset_mode := _preset_mode e;
     _base_supported_features := _base_supported_features e;
     _supported_features := _supported_features e;
     _attr_precision := _attr_precision e;
     _operation_list := _operation_list e; _preset_modes := _preset_modes e;
     _fan_modes := _fan_modes e; update_without_throttle := x |}.

Definition upd_thermostat (x : DaikinSkyport.loc) (e : Thermostat) : Thermostat :=
  {| thermostat_index := thermostat_index e; thermostat := x;
     self_is_wall_unit := self_is_wall_unit e;
     _cool_setpoint := _cool_setpoint e; _heat_setpoint := _heat_setpoint e;
     _target_temp := _target_temp e; _hvac_mode := _hvac_mode e;
     _fan_mode := _fan_mode e; _fan_speed := _fan_speed e;
     _preset_mode := _preset_mode e;
     _base_supported_features := _base_supported_features e;
     _supported_features := _supported_features e;
     _attr_precision := _attr_precision e;
     _operation_list := _operation_list e; _preset_modes := _preset_modes e;
     _fan_modes := _fan_modes e;
     update_without_throttle := update_without_throttle e |}.
(** The values [Thermostat.__init__] gives the attributes before it calls
    [_configure_capabilities] and [_apply_thermostat_state]. *)
Definition new_Thermostat (thermostat_index : value) (l : loc)
    (record : dict) : Thermostat :=
  {| thermostat_index := thermostat_index; thermostat := l;
     self_is_wall_unit := _is_wall_unit record;
     _cool_setpoint := VNone; _heat_setpoint := VNone;
     _target_temp := VNone; _hvac_mode := OFF; _fan_mode := VNone;
     _fan_speed := VNone; _preset_mode := None;
     _base_supported_features := SUPPORT_FLAGS;
     _supported_features := SUPPORT_FLAGS;
     _attr_precision := PRECISION_TENTHS; _operation_list := [];
     _preset_modes := ∅; _fan_modes := [];
     update_without_throttle := false |}.

(** A command runs on the client's world and on the entity. *)
Definition on_client {A} (m : M world A) : M (world * Thermostat) A :=
  fun s => let (o, w') := m (fst s) in (o, (w', snd s)).
Definition on_entity {A} (m : M Thermostat A) : M (world * Thermostat) A :=
  fun s => let (o, e') := m (snd s) in (o, (fst s, e')).

(** [v > 0] *)
Definition py_gt0 (v : value) : outcome bool :=
  match num_of v with
  | Some q => Ret (match 0 ?= q with Lt => true | _ => false end)%Q
  | None => Raise TypeError
  end.

(** [v + k] for an integer literal [k] *)
Definition py_add_int (v : value) (k : Z) : outcome value :=
  match v with
  | VBool b => Ret (VInt (Z.b2z b + k))
  | VInt n => Ret (VInt (n + k))
  | VFloat q => Ret (VFloat (Qred (q + inject_Z k)))
  | VNone | VStr _ => Raise TypeError
  end.

(** [int(v)] of a number: a float is truncated towards zero *)
Definition py_int (v : value) : Z :=
  match v with
  | VBool b => Z.b2z b
  | VInt n => n
  | VFloat q => Z.quot (Qnum q) (Z.pos (Qden q))
  | VNone | VStr _ => 0
  end.

(** [a or b] *)
Definition py_or (a b : value) : value := if truthy a then a else b.

(** [bool(l)] for a list *)
Definition list_truthy {A} (l : list A) : bool :=
  match l with [] => false | _ :: _ => true end.

Section Entity.
Context (K : const_py).
(** [repr] of a float, which [str] uses; a function of the Python runtime. *)
Context (repr_float : Q -> string).

(** [str(v)] *)
Definition py_str (v : value) : string :=
  match v with
  | VNone => "None"
  | VBool true => "True"
  | VBool false => "False"
  | VInt n => pretty n
  | VFloat q => repr_float q
  | VStr s => s
  end.

(** Order matters: the reverse mapping takes the first key. *)
Definition DAIKIN_HVAC_TO_HASS : list (value * HVACMode) :=
  pydict_of [ (VInt (DAIKIN_HVAC_MODE_HEAT K), HEAT);
              (VInt (DAIKIN_HVAC_MODE_COOL K), COOL);
              (VInt (DAIKIN_HVAC_MODE_AUTO K), AUTO);
              (VInt (DAIKIN_HVAC_MODE_DRY K), DRY);
              (VInt (DAIKIN_HVAC_MODE_OFF K), OFF);
              (VInt (DAIKIN_HVAC_MODE_AUXHEAT K), HEAT) ].

(** ** Capability discovery *)

(** [Thermostat._build_wall_unit_operation_list] *)
Definition _build_wall_unit_operation_list (t : dict) : list HVACMode :=
  let modes : list HVACMode := [] in
  let modes := if contains "iduHeatSetpoint" t then modes ++ [HEAT]
               else modes in
  let modes := if contains "iduCoolSetpoint" t then modes ++ [COOL]
               else modes in
  let modes := if contains "iduAutoSetpoint" t then AUTO :: modes
               else modes in
  let modes := if contains "iduDryFanSpeed" t
                  || py_eq (get t "iduOperatingMode") (VInt 5)
               then modes ++ [DRY] else modes in
  let modes := if contains "iduFanModeFanSpeed" t
                  || py_in (get t "iduOperatingMode")
                       (WALL_UNIT_FAN_MODE_VALUES K)
               then modes ++ [FAN_ONLY] else modes in
  let modes := if negb (existsb (HVACMode_eqb OFF) modes)
               then modes ++ [OFF] else modes in
  modes.

(** [Thermostat._configure_capabilities]; [t] is the dictionary
    [self.thermostat] refers to. *)
Definition _configure_capabilities (t : dict) : M Thermostat unit :=
  let! wall := gets self_is_wall_unit in
  if wall then
    do! modify (upd_base_supported_features
                  (Z.lor TARGET_TEMPERATURE (Z.lor FAN_MODE PRESET_MODE))) in
    do! modify (fun e =>
                  upd_supported_features (_base_supported_features e) e) in
    do! modify (upd_attr_precision PRECISION_HALVES) in
    do! modify (upd_operation_list (_build_wall_unit_operation_list t)) in
    do! modify (upd_preset_modes {[ PRESET_ECONO; PRESET_NONE ]}) in
    do! (if contains "oduPowerfulOperationRequest" t
         then modify (fun e =>
                upd_preset_modes ({[ PRESET_BOOST ]} ∪ _preset_modes e) e)
         else ret tt) in
    modify (upd_fan_modes [])
  else
    do! modify (upd_base_supported_features SUPPORT_FLAGS) in
    do! modify (fun e =>
                  upd_supported_features (_base_supported_features e) e) in
    do! modify (upd_attr_precision PRECISION_TENTHS) in
    do! modify (upd_operation_list []) in
    do! (if truthy (get t "ctSystemCapHeat")
         then modify (fun e =>
                upd_operation_list (_operation_list e ++ [HEAT]) e)
         else ret tt) in
    let! stages :=
      (if contains "ctOutdoorNoofCoolStages" t
       then lift_outcome (py_gt0 (get t "ctOutdoorNoofCoolStages"))
       else ret false) in
    let can_cool :=
      stages
      || (contains "P1P2S21CoolingCapability" t
          && is_True (get t "P1P2S21CoolingCapability")) in
    do! (if can_cool
         then modify (fun e =>
                upd_operation_list (_operation_list e ++ [COOL]) e)
         else ret tt) in
    do! modify (fun e =>
          if Nat.eqb (length (_operation_list e)) 2
          then upd_operation_list (AUTO :: _operation_list e) e else e) in
    do! modify (fun e =>
          upd_operation_list (_operation_list e ++ [OFF]) e) in
    do! modify (upd_preset_modes
          {[ PRESET_SCHEDULE; PRESET_MANUAL; PRESET_TEMP_HOLD; PRESET_AWAY ]}) in
    modify (upd_fan_modes
          [FAN_AUTO; FAN_ON; FAN_LOW; FAN_MEDIUM; FAN_HIGH; FAN_SCHEDULE]).

(** [Thermostat._is_dry_mode] *)
Definition _is_dry_mode (e : Thermostat) : bool :=
  HVACMode_eqb (_hvac_mode e) DRY.

(** [Thermostat._refresh_supported_features_for_mode] *)
Definition _refresh_supported_features_for_mode (e : Thermostat)
  : Thermostat :=
  let e := upd_supported_features (_base_supported_features e) e in
  let e := if negb (list_truthy (_fan_modes e))
           then upd_supported_features
                  (Z.land (_supported_features e) (Z.lnot FAN_MODE)) e
           else e in
  if self_is_wall_unit e && _is_dry_mode e then
    let e := upd_supported_features
               (Z.land (_supported_features e) (Z.lnot TARGET_TEMPERATURE)) e in
    let e := upd_supported_features
               (Z.land (_supported_features e)
                  (Z.lnot TARGET_TEMPERATURE_RANGE)) e in
    upd_supported_features
      (Z.land (_supported_features e) (Z.lnot FAN_MODE)) e
  else e.

(** ** Current state *)

(** [Thermostat._wall_unit_hvac_mode] *)
Definition _wall_unit_hvac_mode (t : dict) : HVACMode :=
  let daikin_mode := get t "mode" in
  let daikin_mode := if is_None daikin_mode then get t "iduOperatingMode"
                     else daikin_mode in
  if is_False (get t "iduOnOff") then OFF
  else if py_in daikin_mode (WALL_UNIT_FAN_MODE_VALUES K) then FAN_ONLY
  else default OFF (pydict_get DAIKIN_HVAC_TO_HASS daikin_mode).

(** [Thermostat._wall_unit_operating_mode] *)
Definition _wall_unit_operating_mode (t : dict) : option HVACMode :=
  let op_mode := get t "iduOperatingMode" in
  if py_in op_mode (WALL_UNIT_FAN_MODE_VALUES K) then Some FAN_ONLY
  else if py_eq op_mode (VInt 1) then Some HEAT
  else if py_eq op_mode (VInt 2) then Some COOL
  else if py_eq op_mode (VInt 3) then Some AUTO
  else if py_eq op_mode (VInt 5) then Some DRY
  else None.

(** [Thermostat._wall_unit_fan_speed_key] *)
Definition _wall_unit_fan_speed_key (hvac_mode : HVACMode) : option string :=
  match hvac_mode with
  | HEAT => Some "iduHeatFanSpeed"%string
  | COOL => Some "iduCoolFanSpeed"%string
  | AUTO => Some "iduAutoFanSpeed"%string
  | DRY => Some "iduDryFanSpeed"%string
  | FAN_ONLY => Some "iduFanModeFanSpeed"%string
  | OFF | HEAT_COOL => None
  end.

(** [Thermostat._wall_unit_fan_speed] *)
Definition _wall_unit_fan_speed (t : dict) (e : Thermostat) : value :=
  let hvac_mode := Some (_hvac_mode e) in
  let hvac_mode := if HVACMode_eqb (_hvac_mode e) OFF
                   then _wall_unit_operating_mode t else hvac_mode in
  match hvac_mode with
  | None => VNone
  | Some hvac_mode =>
      match _wall_unit_fan_speed_key hvac_mode with
      | None => VNone
      | Some fan_key => get t fan_key
      end
  end.

(** The fan-mode choices [_apply_thermostat_state] builds for a wall unit
    (before the dry-mode override). *)
Definition wall_unit_fan_modes (t : dict) : list string :=
  let fan_values :=
    filter (fun v => is_number v = true)
      (get t <$> [ "iduHeatFanSpeed"; "iduCoolFanSpeed"; "iduAutoFanSpeed";
                   "iduDryFanSpeed"; "iduFanModeFanSpeed" ]%string) in
  let fan_values_set : list Z := remove_dups (py_int <$> fan_values) in
  let label (v : Z) : string :=
    default (pretty v) (pydict_get WALL_UNIT_FAN_SPEED_TO_HASS (VInt v)) in
  let fan_modes :=
    if contains "iduFanModeFanSpeed" t
    then label <$> WALL_UNIT_FAN_SPEED_ORDER
    else label <$> filter (fun v => v ∈ fan_values_set)
                     WALL_UNIT_FAN_SPEED_ORDER in
  let unknown_values :=
    merge_sort Z.le
      (filter (fun v => pydict_get WALL_UNIT_FAN_SPEED_TO_HASS (VInt v) = None)
         fan_values_set) in
  fan_modes ++ (pretty <$> unknown_values).

(** [Thermostat._apply_thermostat_state] *)
Definition _apply_thermostat_state (t : dict) : M Thermostat unit :=
  let! wall := gets self_is_wall_unit in
  if wall then
    do! modify (upd_hvac_mode (_wall_unit_hvac_mode t)) in
    do! modify (upd_cool_setpoint
                  (get_or t "iduCoolSetpoint" (get t "cspActive"))) in
    do! modify (upd_heat_setpoint
                  (get_or t "iduHeatSetpoint" (get t "hspActive"))) in
    do! modify (upd_target_temp (get t "iduTargetTemp")) in
    do! modify (fun e =>
          if is_None (_target_temp e) then
            if HVACMode_eqb (_hvac_mode e) HEAT
            then upd_target_temp (_heat_setpoint e) e
            else if HVACMode_eqb (_hvac_mode e) COOL
            then upd_target_temp (_cool_setpoint e) e
            else upd_target_temp
                   (get_or t "iduAutoSetpoint"
                      (py_or (_cool_setpoint e) (_heat_setpoint e))) e
          else e) in
    do! modify (upd_preset_mode
          (Some (if truthy (get t "oduPowerfulOperationRequest")
                 then PRESET_BOOST
                 else if truthy (get t "iduEconoModeSetting")
                 then PRESET_ECONO
                 else PRESET_NONE))) in
    let! fan_speed := gets (_wall_unit_fan_speed t) in
    do! modify (upd_fan_mode
          (if negb (is_None fan_speed)
           then VStr (default (py_str fan_speed)
                        (pydict_get WALL_UNIT_FAN_SPEED_TO_HASS fan_speed))
           else VNone)) in
    do! modify (upd_fan_modes (wall_unit_fan_modes t)) in
    do! modify (fun e =>
          if _is_dry_mode e then upd_fan_mode VNone (upd_fan_modes [] e)
          else e) in
    do! modify _refresh_supported_features_for_mode in
    modify (upd_fan_speed VNone)
  else
    do! modify (upd_cool_setpoint (get t "cspActive")) in
    do! modify (upd_heat_setpoint (get t "hspActive")) in
    let daikin_mode := get_or t "mode" (VInt (DAIKIN_HVAC_MODE_OFF K)) in
    do! modify (upd_hvac_mode
          (default OFF (pydict_get DAIKIN_HVAC_TO_HASS daikin_mode))) in
    let fan_circulate := get_or t "fanCirculate" (VInt 0) in
    let fan_speed := get_or t "fanCirculateSpeed" (VInt 0) in
    do! (if bool_decide (pydict_get DAIKIN_FAN_TO_HASS fan_circulate
                         = Some FAN_ON)
         then
           let! code := lift_outcome (py_add_int fan_speed 3) in
           modify (upd_fan_mode
             (VStr (default FAN_ON (pydict_get DAIKIN_FAN_TO_HASS code))))
         else
           modify (upd_fan_mode
             (VStr (default FAN_AUTO
                      (pydict_get DAIKIN_FAN_TO_HASS fan_circulate))))) in
    do! modify (upd_fan_speed
          (VStr (default FAN_LOW
                   (pydict_get DAIKIN_FAN_SPEED_TO_HASS fan_speed)))) in
    do! modify (upd_preset_mode
          (Some (if truthy (get t "geofencingAway") then PRESET_AWAY
                 else if py_eq (get t "schedOverride") (VInt 1)
                 then PRESET_TEMP_HOLD
                 else if truthy (get t "schedEnabled") then PRESET_SCHEDULE
                 else PRESET_MANUAL))) in
    do! modify (fun e =>
          if self_is_wall_unit e && _is_dry_mode e
          then upd_fan_speed VNone (upd_fan_mode VNone e) else e) in
    modify _refresh_supported_features_for_mode.

(** What [__init__] and [async_update] do once they hold the record:
    classify, discover capabilities, resolve the state. *)
Definition resolve (t : dict) : M Thermostat unit :=
  do! modify (upd_self_is_wall_unit (_is_wall_unit t)) in
  do! _configure_capabilities t in
  _apply_thermostat_state t.

(** [Thermostat._daikin_mode_from_hass] *)
Definition _daikin_mode_from_hass (hvac_mode : HVACMode) : value :=
  match filter (fun kv => HVACMode_eqb (snd kv) hvac_mode = true)
          DAIKIN_HVAC_TO_HASS with
  | (k, _) :: _ => k
  | [] => VInt (DAIKIN_HVAC_MODE_OFF K)
  end.

(** The property [Thermostat.target_temperature] *)
Definition target_temperature (e : Thermostat) : value :=
  if self_is_wall_unit e then
    if _is_dry_mode e then VNone else _target_temp e
  else if HVACMode_eqb (_hvac_mode e) AUTO then VNone
  else if HVACMode_eqb (_hvac_mode e) HEAT then _heat_setpoint e
  else if HVACMode_eqb (_hvac_mode e) COOL then _cool_setpoint e
  else VNone.

(** The properties [target_temperature_low] and [target_temperature_high] *)
Definition target_temperature_low (e : Thermostat) : value :=
  if self_is_wall_unit e then VNone
  else if HVACMode_eqb (_hvac_mode e) AUTO then _heat_setpoint e
  else VNone.

Definition target_temperature_high (e : Thermostat) : value :=
  if self_is_wall_unit e then VNone
  else if HVACMode_eqb (_hvac_mode e) AUTO then _cool_setpoint e
  else VNone.

(** ** Temperature commands *)

(** [self.thermostat[key]] *)
Definition entity_item (key : string) : M (world * Thermostat) value :=
  fun s => (getitem (heap (fst s) (thermostat (snd s))) key, s).

(** [Thermostat.hold_preference] *)
Definition hold_preference (t : dict) : value :=
  let default_ := get_or t "schedOverrideDuration"
                    (VInt HOLD_NEXT_TRANSITION) in
  if is_int default_ then default_ else VInt HOLD_NEXT_TRANSITION.

(** [Thermostat.set_auto_temp_hold] *)
Definition set_auto_temp_hold (heat_temp cool_temp : value)
  : M (world * Thermostat) unit :=
  let! cool_temp_setpoint :=
    (if negb (is_None cool_temp) then ret cool_temp
     else entity_item "cspHome") in
  let! heat_temp_setpoint :=
    (if negb (is_None heat_temp) then ret heat_temp
     else entity_item "hspHome") in
  let! preset := on_entity (fun e =>
                   match _preset_mode e with
                   | Some p => (Ret p, e)
                   | None => (Raise (AttributeError "_preset_mode"), e)
                   end) in
  let! index := gets (fun s => thermostat_index (snd s)) in
  do! (if String.eqb preset PRESET_MANUAL then
         let! r := on_client (set_permanent_hold index
                      cool_temp_setpoint heat_temp_setpoint) in ret tt
       else
         let! t := gets (fun s => heap (fst s) (thermostat (snd s))) in
         let! r := on_client (set_temp_hold index
                      cool_temp_setpoint heat_temp_setpoint
                      (hold_preference t)) in ret tt) in
  do! on_entity (modify (upd_cool_setpoint cool_temp_setpoint)) in
  do! on_entity (modify (upd_heat_setpoint heat_temp_setpoint)) in
  on_entity (modify (upd_update_without_throttle true)).

(** A local variable that is read: unbound, it raises. *)
Definition local {S} (name : string) (v : option value) : M S value :=
  match v with
  | Some x => ret x
  | None => raise (UnboundLocalError name)
  end.

(** [Thermostat.set_temp_hold].  The locals [heat_temp] and [cool_temp]
    are bound in the two branches only. *)
Definition set_temp_hold (temp : value) : M (world * Thermostat) unit :=
  let! hvac_mode := gets (fun s => _hvac_mode (snd s)) in
  let! locals :=
    (if HVACMode_eqb hvac_mode HEAT then
       let heat_temp := temp in
       let! cool_temp := entity_item "cspHome" in
       ret (Some heat_temp, Some cool_temp)
     else if HVACMode_eqb hvac_mode COOL then
       let cool_temp := temp in
       let! heat_temp := entity_item "hspHome" in
       ret (Some heat_temp, Some cool_temp)
     else ret (None, None)) in
  let! heat_temp := local "heat_temp" (fst locals) in
  let! cool_temp := local "cool_temp" (snd locals) in
  do! set_auto_temp_hold heat_temp cool_temp in
  do! on_entity (modify (upd_cool_setpoint cool_temp)) in
  on_entity (modify (upd_heat_setpoint heat_temp)).

(** [Thermostat.set_temperature]; [kwargs] is the keyword dictionary. *)
Definition set_temperature (kwargs : dict) : M (world * Thermostat) unit :=
  let! e := gets snd in
  if self_is_wall_unit e && _is_dry_mode e then ret tt
  else if self_is_wall_unit e then
    let temp := get kwargs ATTR_TEMPERATURE in
    let temp := if is_None temp
                then py_or (get kwargs ATTR_TARGET_TEMP_HIGH)
                       (get kwargs ATTR_TARGET_TEMP_LOW)
                else temp in
    if is_None temp then ret tt
    else
      let daikin_mode := _daikin_mode_from_hass (_hvac_mode e) in
      let! r := on_client (set_wall_unit_temperature K
                   (thermostat_index e) temp daikin_mode) in
      do! on_entity (modify (upd_target_temp temp)) in
      do! on_entity (modify (fun e =>
            if HVACMode_eqb (_hvac_mode e) HEAT then upd_heat_setpoint temp e
            else if HVACMode_eqb (_hvac_mode e) COOL
            then upd_cool_setpoint temp e
            else e)) in
      on_entity (modify (upd_update_without_throttle true))
  else
    let low_temp := get kwargs ATTR_TARGET_TEMP_LOW in
    let high_temp := get kwargs ATTR_TARGET_TEMP_HIGH in
    let temp := get kwargs ATTR_TEMPERATURE in
    do! (if HVACMode_eqb (_hvac_mode e) AUTO
            && (negb (is_None low_temp) || negb (is_None high_temp))
         then set_auto_temp_hold low_temp high_temp
         else if negb (is_None temp) then set_temp_hold temp
         else ret tt) in
    do! on_entity (modify (upd_cool_setpoint high_temp)) in
    on_entity (modify (upd_heat_setpoint low_temp)).

End Entity.

End Climate.


(* ===================================================================== *)
(** * Concrete records and worlds *)
(* ===================================================================== *)

Module Example.

Import DaikinSkyport.

(** A wall unit in dry mode. *)
Definition dry_record : dict :=
  <["iduOperatingMode" := VInt 5]>
    (<["iduOnOff" := VBool true]> (<["iduDryFanSpeed" := VInt 3]> ∅)).

(** A wall unit switched off while its mode code says cooling. *)
Definition switched_off_record : dict :=
  <["iduOperatingMode" := VInt 2]> (<["iduOnOff" := VBool false]> ∅).

(** A central unit that can heat and cool. *)
Definition central_record : dict :=
  <["id" := VStr "dev1"]> (<["ctSystemCapHeat" := VBool true]>
    (<["ctOutdoorNoofCoolStages" := VInt 1]>
       (<["mode" := VInt 1]>
          (<["hspHome" := VFloat (20 # 1)]>
             (<["cspHome" := VFloat (25 # 1)]> ∅))))).

(** A central unit whose cool-stage count is null while the protocol
    flag says it can cool. *)
Definition null_count_record : dict :=
  <["ctSystemCapHeat" := VBool true]>
    (<["ctOutdoorNoofCoolStages" := VNone]>
       (<["P1P2S21CoolingCapability" := VBool true]> ∅)).

(** The cached record of a cooling wall unit, with its id. *)
Definition cooling_record : dict :=
  <["id" := VStr "dev1"]>
    (<["mode" := VInt 2]>
       (<["iduOperatingMode" := VInt 2]>
          (<["iduOnOff" := VBool true]>
             (<["oduPowerfulOperationRequest" := VInt 1]> ∅)))).

Definition example_client : client :=
  {| thermostats := [0%nat]; thermostatlist := JList [];
     authenticated := true; skip_next := false; file_based_config := false;
     user_email := Some (VStr "user@example.org"); user_password := None;
     access_token := VStr "tok"; refresh_token := VStr "ref";
     config_filename := None; config := None |}.

(** One cached device and the replies the API is going to give. *)
Definition example_world (record : dict) (replies : list http_reply)
  : world :=
  {| heap := fun l => if (l =? 0)%nat then record else ∅;
     next_loc := 1%nat; self := example_client; net := replies;
     sent := [] |}.

Definition ok_reply : http_reply :=
  Reply {| status_code := 200; resp_json := JObj ∅ |}.

Definition expired_reply : http_reply :=
  Reply {| status_code := 401;
           resp_json := JObj {[ "error" := VStr "authorization_expired" ]} |}.

Definition token_reply : http_reply :=
  Reply {| status_code := 200;
           resp_json := JObj (<["accessToken" := VStr "new"]>
                                (<["refreshToken" := VStr "ref2"]> ∅)) |}.

(** A decimal rendering of a float with one decimal. *)
Definition example_repr_float (q : Q) : string :=
  pretty (Qnum q / Z.pos (Qden q))
  +:+ "." +:+ pretty ((Qnum q * 10 / Z.pos (Qden q)) mod 10).

(** The entity of the one cached device, as a central unit in a given
    mode with the manual preset. *)
Definition central_entity (hvac_mode : HA.HVACMode) : Climate.Thermostat :=
  Climate.upd_hvac_mode hvac_mode
    (Climate.upd_preset_mode (Some Climate.PRESET_MANUAL)
       (Climate.new_Thermostat (VInt 0) 0%nat central_record)).

(** The calls and worlds of the concrete runs. *)
Definition set_heat : mutation := SetHvacMode (VInt 0) (VInt 1).

Definition resume : mutation := ResumeProgram (VInt 0).


Definition set_dry_temperature : mutation :=
  SetWallUnitTemperature (VInt 0) (VFloat (213 # 10)) (VInt 5).

Definition answered_world : world := example_world cooling_record [ok_reply].

Definition central_world : world := example_world central_record [ok_reply].

Definition expired_world : world :=
  example_world cooling_record [expired_reply; token_reply].

Definition heat_body : dict := {[ "mode" := VInt 1 ]}.

End Example.


(* ===================================================================== *)
(** * Properties of the Python fragment *)
(* ===================================================================== *)

Section PyFacts.

Lemma py_eq_str (v : value) (s : string) :
  py_eq v (VStr s) = true <-> v = VStr s.
Proof.
  destruct v as [| b | n | q | s']; simpl; split; try discriminate.
  - intros H. apply String.eqb_eq in H. congruence.
  - intros [= ->]. apply String.eqb_refl.
Qed.

Lemma get_str (d : dict) (k s : string) :
  py_eq (get d k) (VStr s) = true <-> d !! k = Some (VStr s).
Proof.
  rewrite py_eq_str. unfold get.
  destruct (d !! k) as [v |]; simpl; split; congruence.
Qed.

Lemma contains_true (d : dict) (k : string) :
  contains k d = true <-> is_Some (d !! k).
Proof.
  unfold contains. destruct (d !! k) as [v |]; split; try done.
Qed.

Lemma contains_false (d : dict) (k : string) :
  contains k d = false <-> d !! k = None.
Proof. unfold contains. destruct (d !! k); split; congruence. Qed.

Lemma contains_insert (d : dict) (k k' : string) (v : value) :
  contains k (<[k' := v]> d) = if decide (k' = k) then true else contains k d.
Proof.
  unfold contains. rewrite lookup_insert. by destruct (decide (k' = k)).
Qed.

Lemma get_insert (d : dict) (k k' : string) (v : value) :
  get (<[k' := v]> d) k = if decide (k' = k) then v else get d k.
Proof.
  unfold get. rewrite lookup_insert. by destruct (decide (k' = k)).
Qed.

Lemma is_empty_insert (d : dict) (k : string) (v : value) :
  is_empty (<[k := v]> d) = false.
Proof.
  unfold is_empty. apply Nat.eqb_neq. intros H.
  apply map_size_empty_iff in H.
  by apply insert_non_empty in H.
Qed.

End PyFacts.


(* ===================================================================== *)
(** * Device-family classification *)
(* ===================================================================== *)

(** The heuristic in the words of the specification: the record has
    [device_type == "wall_unit"], or [adptSupportedEquipment == "RA"], or
    it contains the key [iduOperatingMode]. *)
Definition spec_wall_unit (r : dict) : Prop :=
  r !! "device_type" = Some (VStr "wall_unit")
  \/ r !! "adptSupportedEquipment" = Some (VStr "RA")
  \/ is_Some (r !! "iduOperatingMode").

Section Classification.

Lemma climate_is_wall_unit_spec (r : dict) :
  Climate._is_wall_unit r = true <-> spec_wall_unit r.
Proof.
  unfold Climate._is_wall_unit, spec_wall_unit.
  rewrite !orb_true_iff, !get_str, contains_true. tauto.
Qed.

Lemma client_is_wall_unit_spec (r : dict) :
  DaikinSkyport._is_wall_unit r = true <->
  r !! "adptSupportedEquipment" = Some (VStr "RA")
  \/ is_Some (r !! "iduOperatingMode").
Proof.
  unfold DaikinSkyport._is_wall_unit.
  rewrite orb_true_iff, get_str, contains_true. tauto.
Qed.

(** C6, as stated, fails for the client's classifier: a record whose only
    mark is [device_type == "wall_unit"] satisfies the heuristic of the
    specification and [DaikinSkyport._is_wall_unit] answers [False]. *)
Lemma client_classifier_ignores_device_type :
  spec_wall_unit {[ "device_type" := VStr "wall_unit" ]}
  /\ DaikinSkyport._is_wall_unit {[ "device_type" := VStr "wall_unit" ]}
     = false.
Proof. split; [left; apply lookup_singleton_eq | reflexivity]. Qed.

(** C6 (amended).  The entity layer's [_is_wall_unit] classifies a record
    as a wall unit exactly when one of the three conditions holds; the
    client's [_is_wall_unit], which the normaliser uses before it writes
    [device_type] itself, tests the last two conditions only, and the
    inline test of [get_sensors] the first two.  The two classifiers
    agree on every record whose [device_type] is not ["wall_unit"]. *)
Theorem wall_unit_classification (r : dict) :
  (Climate._is_wall_unit r = true <-> spec_wall_unit r)
  /\ (DaikinSkyport._is_wall_unit r = true <->
      r !! "adptSupportedEquipment" = Some (VStr "RA")
      \/ is_Some (r !! "iduOperatingMode"))
  /\ (DaikinSkyport.get_sensors_wall_unit_test r = true <->
      r !! "device_type" = Some (VStr "wall_unit")
      \/ r !! "adptSupportedEquipment" = Some (VStr "RA"))
  /\ (r !! "device_type" <> Some (VStr "wall_unit") ->
      DaikinSkyport._is_wall_unit r = Climate._is_wall_unit r).
Proof.
  split; [apply climate_is_wall_unit_spec |].
  split; [apply client_is_wall_unit_spec |].
  split.
  - unfold DaikinSkyport.get_sensors_wall_unit_test.
    rewrite orb_true_iff, !get_str. tauto.
  - intros Hne. unfold DaikinSkyport._is_wall_unit, Climate._is_wall_unit.
    destruct (py_eq (get r "device_type") (VStr "wall_unit")) eqn:E; [| done].
    apply get_str in E. contradiction.
Qed.

End Classification.


(* ===================================================================== *)
(** * The normaliser *)
(* ===================================================================== *)

(** ** Blocks of statements that settle

    Each statement of the wall-unit branch writes one key and, once run,
    has nothing left to do; whether it has something to do is read off a
    few keys (its footprint), and no later statement writes into the
    footprint of an earlier one. *)

Section Settling.

Definition writes_only (k : string) (s : stmt) : Prop :=
  forall (d : dict) (k' : string), k' <> k -> s d !! k' = d !! k'.

Definition depends_on (F : list string) (P : dict -> Prop) : Prop :=
  forall d d' : dict, (forall k, k ∈ F -> d !! k = d' !! k) -> P d -> P d'.

Record settling : Type := {
  st : stmt;
  key : string;
  foot : list string;
  ok : dict -> Prop;
  st_writes : writes_only key st;
  st_fixed : forall d, ok d -> st d = d;
  st_ok : forall d, ok (st d);
  ok_foot : depends_on foot ok
}.

Definition run (L : list settling) : stmt := block (st <$> L).

Lemma run_cons (x : settling) (L : list settling) (d : dict) :
  run (x :: L) d = run L (st x d).
Proof. reflexivity. Qed.

Fixpoint ordered (L : list settling) : bool :=
  match L with
  | [] => true
  | x :: L' =>
      forallb (fun y => bool_decide (key y ∉ foot x)) L' && ordered L'
  end.

Lemma ok_kept (x y : settling) (d : dict) :
  key y ∉ foot x -> ok x d -> ok x (st y d).
Proof.
  intros Hk Hok. apply (ok_foot x d); [| done].
  intros k Hin. symmetry. apply (st_writes y).
  intros ->. contradiction.
Qed.

Lemma ok_kept_run (x : settling) (L : list settling) :
  forallb (fun y => bool_decide (key y ∉ foot x)) L = true ->
  forall d, ok x d -> ok x (run L d).
Proof.
  induction L as [| y L IH]; intros HL d Hok; [done |].
  simpl in HL. apply andb_true_iff in HL as [Hy HL].
  apply bool_decide_eq_true in Hy.
  rewrite run_cons. apply IH; [done |]. by apply ok_kept.
Qed.

Lemma run_all_ok (L : list settling) :
  ordered L = true -> forall d, Forall (fun x => ok x (run L d)) L.
Proof.
  induction L as [| x L IH]; intros HL d; [constructor |].
  simpl in HL. apply andb_true_iff in HL as [Hx HL].
  constructor; rewrite run_cons.
  - apply ok_kept_run; [done | apply st_ok].
  - by apply IH.
Qed.

Lemma run_fixed (L : list settling) (d : dict) :
  Forall (fun x => ok x d) L -> run L d = d.
Proof.
  induction 1 as [| x L Hx _ IH]; [done |].
  rewrite run_cons, (st_fixed x d Hx). exact IH.
Qed.

Lemma run_idempotent (L : list settling) (d : dict) :
  ordered L = true -> run L (run L d) = run L d.
Proof. intros HL. apply run_fixed. by apply run_all_ok. Qed.

Lemma run_lookup_other (L : list settling) (k : string) :
  forallb (fun x => bool_decide (key x <> k)) L = true ->
  forall d, run L d !! k = d !! k.
Proof.
  induction L as [| x L IH]; intros HL d; [done |].
  simpl in HL. apply andb_true_iff in HL as [Hx HL].
  apply bool_decide_eq_true in Hx.
  rewrite run_cons, IH by done. apply (st_writes x). congruence.
Qed.

(** *** The shapes of statement the branch is made of *)

(** [d[k] = v] *)
Program Definition settle_const (k : string) (v : value) : settling :=
  {| st := assign k (fun _ => v); key := k; foot := [k];
     ok := fun d => d !! k = Some v |}.
Next Obligation.
  intros k v d k' Hne. unfold assign. by rewrite lookup_insert_ne.
Qed.
Next Obligation. intros k v d H. unfold assign. by apply insert_id. Qed.
Next Obligation. intros k v d. unfold assign. apply lookup_insert_eq. Qed.
Next Obligation.
  intros k v d d' Hag H. rewrite <- (Hag k); [done | repeat constructor].
Qed.

(** [if k not in d: d[k] = e] *)
Program Definition settle_missing (k : string) (e : dict -> value)
  : settling :=
  {| st := when (fun d => negb (contains k d)) (assign k e);
     key := k; foot := [k]; ok := fun d => is_Some (d !! k) |}.
Next Obligation.
  intros k e d k' Hne. unfold when, assign.
  destruct (negb (contains k d)); [by rewrite lookup_insert_ne | done].
Qed.
Next Obligation.
  intros k e d H. unfold when. apply contains_true in H. by rewrite H.
Qed.
Next Obligation.
  intros k e d. unfold when, assign, contains.
  destruct (d !! k) eqn:E; simpl; [by rewrite E | by rewrite lookup_insert_eq].
Qed.
Next Obligation.
  intros k e d d' Hag H. rewrite <- (Hag k); [done | repeat constructor].
Qed.

(** [if k not in d and k2 in d: d[k] = d[k2]] *)
Program Definition settle_backfill (k k2 : string) : settling :=
  {| st := when (fun d => negb (contains k d) && contains k2 d)
             (assign k (fun d => get d k2));
     key := k; foot := [k; k2];
     ok := fun d => is_Some (d !! k) \/ d !! k2 = None |}.
Next Obligation.
  intros k k2 d k' Hne. unfold when, assign.
  destruct (negb (contains k d) && contains k2 d);
    [by rewrite lookup_insert_ne | done].
Qed.
Next Obligation.
  intros k k2 d [H | H]; unfold when.
  - apply contains_true in H. by rewrite H.
  - apply contains_false in H. rewrite H. by rewrite andb_false_r.
Qed.
Next Obligation.
  intros k k2 d. unfold when, assign, contains.
  destruct (d !! k) eqn:E; simpl; [left; by rewrite E |].
  destruct (d !! k2) eqn:E2; simpl.
  - left. by rewrite lookup_insert_eq.
  - by right.
Qed.
Next Obligation.
  intros k k2 d d' Hag H.
  rewrite <- (Hag k), <- (Hag k2); [done | repeat constructor | repeat constructor].
Qed.

(** [d.setdefault(k, e)] *)
Program Definition settle_default (k : string) (e : dict -> value)
  : settling :=
  {| st := set_default k e; key := k; foot := [k];
     ok := fun d => is_Some (d !! k) |}.
Next Obligation.
  intros k e d k' Hne. unfold set_default, setdefault.
  destruct (contains k d); [done | by rewrite lookup_insert_ne].
Qed.
Next Obligation.
  intros k e d H. unfold set_default, setdefault.
  apply contains_true in H. by rewrite H.
Qed.
Next Obligation.
  intros k e d. unfold set_default, setdefault, contains.
  destruct (d !! k) eqn:E; simpl; [by rewrite E | by rewrite lookup_insert_eq].
Qed.
Next Obligation.
  intros k e d d' Hag H. rewrite <- (Hag k); [done | repeat constructor].
Qed.

(** [if c: d[k] = e] [else: d.setdefault(k, v)], where [c] and [e] read
    the keys [reads], none of them [k]. *)
Program Definition settle_either (k : string) (c : dict -> bool)
    (e : dict -> value) (v : value) (reads : list string)
    (Hk : k ∉ reads)
    (Hc : forall d d' : dict,
        (forall k', k' ∈ reads -> d !! k' = d' !! k') -> c d = c d')
    (He : forall d d' : dict,
        (forall k', k' ∈ reads -> d !! k' = d' !! k') -> e d = e d')
  : settling :=
  {| st := if_else c (assign k e) (set_default k (fun _ => v));
     key := k; foot := k :: reads;
     ok := fun d => if c d then d !! k = Some (e d) else is_Some (d !! k) |}.
Next Obligation.
  intros k c e v reads Hk Hc He d k' Hne.
  unfold if_else, assign, set_default, setdefault.
  destruct (c d); [by rewrite lookup_insert_ne |].
  destruct (contains k d); [done | by rewrite lookup_insert_ne].
Qed.
Next Obligation.
  intros k c e v reads Hk Hc He d H. cbv beta in H.
  unfold if_else, assign, set_default, setdefault. destruct (c d).
  - by apply insert_id.
  - apply contains_true in H. by rewrite H.
Qed.
Next Obligation.
  intros k c e v reads Hk Hc He d.
  assert (Hsame : forall x, forall k', k' ∈ reads ->
            d !! k' = <[k := x]> d !! k').
  { intros x k' Hin. rewrite lookup_insert_ne; [done |]. intros ->. done. }
  unfold if_else, assign, set_default, setdefault.
  destruct (c d) eqn:Ec.
  - rewrite <- (Hc d _ (Hsame _)), Ec, lookup_insert_eq.
    by rewrite <- (He d _ (Hsame _)).
  - unfold contains. destruct (d !! k) eqn:E.
    + rewrite Ec, E. eauto.
    + rewrite <- (Hc d _ (Hsame _)), Ec, lookup_insert_eq. eauto.
Qed.
Next Obligation.
  intros k c e v reads Hk Hc He d d' Hag H. cbv beta in H |- *.
  assert (Hr : forall k', k' ∈ reads -> d !! k' = d' !! k').
  { intros k' Hin. apply Hag. by constructor. }
  rewrite <- (Hc d d' Hr), <- (He d d' Hr), <- (Hag k); [done | repeat constructor].
Qed.

End Settling.

Section NormalizerFacts.
Context (K : const_py).

(** The guard and the value of the [wallUnitFanModeValue] statement read
    [iduOnOff] and [iduOperatingMode] only. *)
Lemma fan_mode_guard_reads (d d' : dict) :
  (forall k', k' ∈ ["iduOnOff"; "iduOperatingMode"]%string ->
     d !! k' = d' !! k') ->
  is_True (get d "iduOnOff")
  && py_in (get d "iduOperatingMode") (WALL_UNIT_FAN_MODE_VALUES K)
  = is_True (get d' "iduOnOff")
    && py_in (get d' "iduOperatingMode") (WALL_UNIT_FAN_MODE_VALUES K).
Proof.
  intros H. unfold get.
  rewrite (H "iduOnOff"%string), (H "iduOperatingMode"%string);
    [done | repeat constructor | repeat constructor].
Qed.

Lemma fan_mode_value_reads (d d' : dict) :
  (forall k', k' ∈ ["iduOnOff"; "iduOperatingMode"]%string ->
     d !! k' = d' !! k') ->
  get d "iduOperatingMode" = get d' "iduOperatingMode".
Proof.
  intros H. unfold get.
  rewrite (H "iduOperatingMode"%string); [done | repeat constructor].
Qed.

Lemma fan_mode_key_not_read :
  "wallUnitFanModeValue"%string ∉ ["iduOnOff"; "iduOperatingMode"]%string.
Proof. apply (bool_decide_unpack _). vm_compute. exact I. Qed.

(** The wall-unit branch of [_normalize_device_info], statement by
    statement. *)
Definition wall_unit_branch : list settling :=
  [ settle_const "device_type" (VStr "wall_unit");
    settle_missing "mode"
      (fun d => VInt (DaikinSkyport._wall_unit_mode K d));
    settle_either "wallUnitFanModeValue"
      (fun d => is_True (get d "iduOnOff")
                && py_in (get d "iduOperatingMode")
                     (WALL_UNIT_FAN_MODE_VALUES K))
      (fun d => get d "iduOperatingMode")
      (VInt (WALL_UNIT_FAN_MODE_DEFAULT K))
      ["iduOnOff"; "iduOperatingMode"]%string
      fan_mode_key_not_read fan_mode_guard_reads fan_mode_value_reads;
    settle_backfill "tempIndoor" "iduRoomTemp";
    settle_backfill "cspActive" "iduCoolSetpoint";
    settle_backfill "hspActive" "iduHeatSetpoint";
    settle_backfill "cspHome" "cspActive";
    settle_backfill "hspHome" "hspActive";
    settle_default "geofencingAway" (fun _ => VBool false);
    settle_default "schedOverride" (fun _ => VInt 0);
    settle_default "schedEnabled" (fun _ => VBool false);
    settle_default "fanCirculate" (fun _ => VInt 0);
    settle_default "fanCirculateSpeed" (fun _ => VInt 0);
    settle_default "nightModeActive" (fun _ => VBool false);
    settle_default "nightModeEnabled" (fun _ => VBool false);
    settle_default "displayLockPIN" (fun _ => VInt 0);
    settle_default "alertMediaAirFilterDays" (fun _ => VInt 0);
    settle_default "statFirmware" (fun d => get d "adptSWversion") ].

Lemma normalize_wall_unit (d : dict) :
  is_empty d = false ->
  DaikinSkyport._is_wall_unit d = true ->
  DaikinSkyport._normalize_device_info K d = run wall_unit_branch d.
Proof.
  intros He Hw. unfold DaikinSkyport._normalize_device_info.
  rewrite He, Hw.
  cbv [run wall_unit_branch fmap list_fmap st settle_const settle_missing
       settle_either settle_backfill settle_default].
  reflexivity.
Qed.

Lemma normalize_empty (d : dict) :
  is_empty d = true -> DaikinSkyport._normalize_device_info K d = d.
Proof.
  intros He. unfold DaikinSkyport._normalize_device_info. by rewrite He.
Qed.

Lemma normalize_central (d : dict) :
  DaikinSkyport._is_wall_unit d = false ->
  DaikinSkyport._normalize_device_info K d = d.
Proof.
  intros Hw. unfold DaikinSkyport._normalize_device_info. rewrite Hw.
  by destruct (is_empty d).
Qed.

Lemma wall_unit_branch_ordered : ordered wall_unit_branch = true.
Proof. vm_compute. reflexivity. Qed.

(** The keys the branch may write. *)
Definition written_keys : list string := key <$> wall_unit_branch.

Lemma normalize_lookup_other (d : dict) (k : string) :
  k ∉ written_keys ->
  DaikinSkyport._normalize_device_info K d !! k = d !! k.
Proof.
  intros Hk.
  destruct (is_empty d) eqn:He; [by rewrite normalize_empty |].
  destruct (DaikinSkyport._is_wall_unit d) eqn:Hw;
    [| by rewrite normalize_central].
  rewrite (normalize_wall_unit d He Hw).
  apply run_lookup_other. apply forallb_forall. intros x Hx.
  apply bool_decide_eq_true. intros <-. apply Hk.
  apply list_elem_of_In in Hx. unfold written_keys.
  by apply list_elem_of_fmap_2.
Qed.

Lemma is_empty_lookup (d : dict) (k : string) (v : value) :
  d !! k = Some v -> is_empty d = false.
Proof.
  intros H. unfold is_empty. apply Nat.eqb_neq. intros Hs.
  apply map_size_empty_iff in Hs. subst d. by rewrite lookup_empty in H.
Qed.

Lemma normalized_wall_unit_again (d : dict) :
  is_empty d = false ->
  DaikinSkyport._is_wall_unit d = true ->
  is_empty (run wall_unit_branch d) = false
  /\ DaikinSkyport._is_wall_unit (run wall_unit_branch d) = true.
Proof.
  intros He Hw. split.
  - pose proof (run_all_ok wall_unit_branch wall_unit_branch_ordered d) as H.
    apply Forall_cons in H as [H _]. exact (is_empty_lookup _ _ _ H).
  - unfold DaikinSkyport._is_wall_unit, get, contains in *.
    rewrite !run_lookup_other by (vm_compute; reflexivity). exact Hw.
Qed.

(** C3.  [_normalize_device_info] is idempotent: normalising a normalised
    record changes nothing. *)
Theorem normalize_idempotent (d : dict) :
  DaikinSkyport._normalize_device_info K
    (DaikinSkyport._normalize_device_info K d)
  = DaikinSkyport._normalize_device_info K d.
Proof.
  destruct (is_empty d) eqn:He.
  { by rewrite !(normalize_empty d He). }
  destruct (DaikinSkyport._is_wall_unit d) eqn:Hw.
  - rewrite (normalize_wall_unit d He Hw).
    destruct (normalized_wall_unit_again d He Hw) as [He' Hw'].
    rewrite (normalize_wall_unit _ He' Hw').
    apply run_idempotent, wall_unit_branch_ordered.
  - by rewrite !(normalize_central d Hw).
Qed.

End NormalizerFacts.


(* ===================================================================== *)
(** * Capability discovery and state resolution *)
(* ===================================================================== *)

Section ResolverFacts.
Context (K : const_py) (repr_float : Q -> string).

Import HA Climate.

(** ** Running the entity layer's computations

    The entity is kept as the list of its attributes: an attribute write
    replaces one of them, and a conditional write is pushed into the
    attributes it may change. *)

Lemma bind_modify {S B} (f : S -> S) (k : unit -> M S B) (s : S) :
  bind (modify f) k s = k tt (f s).
Proof. reflexivity. Qed.

Lemma bind_gets {S A B} (g : S -> A) (k : A -> M S B) (s : S) :
  bind (gets g) k s = k (g s) s.
Proof. reflexivity. Qed.

Lemma bind_ret {S A B} (a : A) (k : A -> M S B) (s : S) :
  bind (ret a) k s = k a s.
Proof. reflexivity. Qed.

Lemma bind_assoc {S A B C} (m : M S A) (k1 : A -> M S B) (k2 : B -> M S C)
    (s : S) :
  bind (bind m k1) k2 s = bind m (fun a => bind (k1 a) k2) s.
Proof. unfold bind. by destruct (m s) as [[a | e] s']. Qed.

Lemma if_same {A} (c : bool) (a : A) : (if c then a else a) = a.
Proof. by destruct c. Qed.

Lemma if_Thermostat (c : bool) (e1 e2 : Thermostat) :
  (if c then e1 else e2)
  = {| thermostat_index :=
         if c then thermostat_index e1 else thermostat_index e2;
       thermostat := if c then thermostat e1 else thermostat e2;
       self_is_wall_unit :=
         if c then self_is_wall_unit e1 else self_is_wall_unit e2;
       _cool_setpoint := if c then _cool_setpoint e1 else _cool_setpoint e2;
       _heat_setpoint := if c then _heat_setpoint e1 else _heat_setpoint e2;
       _target_temp := if c then _target_temp e1 else _target_temp e2;
       _hvac_mode := if c then _hvac_mode e1 else _hvac_mode e2;
       _fan_mode := if c then _fan_mode e1 else _fan_mode e2;
       _fan_speed := if c then _fan_speed e1 else _fan_speed e2;
       _preset_mode := if c then _preset_mode e1 else _preset_mode e2;
       _base_supported_features :=
         if c then _base_supported_features e1
         else _base_supported_features e2;
       _supported_features :=
         if c then _supported_features e1 else _supported_features e2;
       _attr_precision :=
         if c then _attr_precision e1 else _attr_precision e2;
       _operation_list :=
         if c then _operation_list e1 else _operation_list e2;
       _preset_modes := if c then _preset_modes e1 else _preset_modes e2;
       _fan_modes := if c then _fan_modes e1 else _fan_modes e2;
       update_without_throttle :=
         if c then update_without_throttle e1
         else update_without_throttle e2 |}.
Proof. by destruct c, e1, e2. Qed.

Lemma bind_modify_to {S B} (f : S -> S) (k : unit -> M S B) (s s' : S) :
  f s = s' -> bind (modify f) k s = k tt s'.
Proof. by intros <-. Qed.

Lemma bind_gets_to {S A B} (g : S -> A) (k : A -> M S B) (s : S) (a : A) :
  g s = a -> bind (gets g) k s = k a s.
Proof. by intros <-. Qed.

Lemma bind_when_modify_to {S B} (c : bool) (f : S -> S)
    (k : unit -> M S B) (s s' : S) :
  (if c then f s else s) = s' ->
  bind (if c then modify f else ret tt) k s = k tt s'.
Proof. intros <-. by destruct c. Qed.

Lemma modify_to {S} (f : S -> S) (s s' : S) :
  f s = s' -> modify f s = (Ret tt, s').
Proof. by intros <-. Qed.

(** The attribute functions, computed on an entity given by its
    attributes. *)
Ltac attrs :=
  cbv beta iota zeta delta
    [thermostat_index thermostat self_is_wall_unit _cool_setpoint
     _heat_setpoint _target_temp _hvac_mode _fan_mode _fan_speed
     _preset_mode _base_supported_features _supported_features
     _attr_precision _operation_list _preset_modes _fan_modes
     update_without_throttle
     upd_self_is_wall_unit upd_cool_setpoint upd_heat_setpoint
     upd_target_temp upd_hvac_mode upd_fan_mode upd_fan_speed
     upd_preset_mode upd_base_supported_features upd_supported_features
     upd_attr_precision upd_operation_list upd_preset_modes upd_fan_modes
     upd_update_without_throttle upd_thermostat
     _is_dry_mode _refresh_supported_features_for_mode _wall_unit_fan_speed
     list_truthy andb negb];
  rewrite ?if_same.

(** Solve [expression = ?e'], leaving in [?e'] the list of attributes. *)
Ltac entity_value :=
  attrs; repeat (rewrite if_Thermostat; attrs); reflexivity.

(** One statement of a computation on an entity. *)
Ltac entity_step :=
  first [ erewrite bind_modify_to by entity_value
        | erewrite bind_gets_to by entity_value
        | erewrite bind_when_modify_to by entity_value
        | erewrite modify_to by entity_value
        | rewrite bind_ret
        | rewrite bind_assoc ];
  cbv beta iota.

(** ** C2: a wall unit that is switched off *)

Lemma wall_unit_hvac_mode_off (t : dict) :
  t !! "iduOnOff" = Some (VBool false) ->
  _wall_unit_hvac_mode K t = OFF.
Proof.
  intros H. unfold _wall_unit_hvac_mode, get. rewrite H. reflexivity.
Qed.

Lemma client_wall_unit_mode_off (t : dict) :
  t !! "iduOnOff" = Some (VBool false) ->
  DaikinSkyport._wall_unit_mode K t = DAIKIN_HVAC_MODE_OFF K.
Proof.
  intros H. unfold DaikinSkyport._wall_unit_mode, get. rewrite H.
  reflexivity.
Qed.

(** For a wall unit, [resolve] returns, and the mode it stores is the one
    [_wall_unit_hvac_mode] computes. *)
Lemma resolve_wall_unit (t : dict) (e : Thermostat) :
  _is_wall_unit t = true ->
  exists e',
    resolve K repr_float t e = (Ret tt, e')
    /\ self_is_wall_unit e' = true
    /\ _hvac_mode e' = _wall_unit_hvac_mode K t
    /\ _base_supported_features e'
       = Z.lor TARGET_TEMPERATURE (Z.lor FAN_MODE PRESET_MODE)
    /\ (_wall_unit_hvac_mode K t = DRY ->
        _fan_modes e' = [] /\ _fan_mode e' = VNone
        /\ _supported_features e' = PRESET_MODE).
Proof.
  intros Hw. destruct e.
  unfold resolve, _configure_capabilities, _apply_thermostat_state.
  rewrite Hw.
  eexists. split.
  { repeat entity_step. reflexivity. }
  cbn [self_is_wall_unit _hvac_mode _base_supported_features _fan_modes
       _fan_mode _supported_features].
  do 3 (split; [reflexivity |]).
  intros Hdry. rewrite Hdry. by cbn.
Qed.

(** C2.  For every wall-unit record whose [iduOnOff] is [False], the
    resolved current mode is [OFF], whatever [mode] and [iduOperatingMode]
    hold: [_wall_unit_hvac_mode] answers [OFF], the state the entity
    resolves has that mode, and the client's [_wall_unit_mode] answers the
    vendor code for off. *)
Theorem wall_unit_switched_off_resolves_off (t : dict) (e : Thermostat) :
  _is_wall_unit t = true ->
  t !! "iduOnOff" = Some (VBool false) ->
  _wall_unit_hvac_mode K t = OFF
  /\ (exists e', resolve K repr_float t e = (Ret tt, e')
                 /\ _hvac_mode e' = OFF)
  /\ DaikinSkyport._wall_unit_mode K t = DAIKIN_HVAC_MODE_OFF K.
Proof.
  intros Hw Hoff.
  pose proof (wall_unit_hvac_mode_off t Hoff) as Hmode.
  split; [exact Hmode |]. split; [| by apply client_wall_unit_mode_off].
  destruct (resolve_wall_unit t e Hw) as (e' & Hrun & _ & He' & _).
  exists e'. split; [exact Hrun | congruence].
Qed.

(** C4.  For every wall-unit record whose resolved current mode is [DRY],
    the resolved state has the temperature-target, temperature-range and
    fan-mode features cleared, no fan-mode choices, no fan mode, and its
    target temperature is [None]. *)
Theorem wall_unit_dry_mode_features (t : dict) (e : Thermostat) :
  _is_wall_unit t = true ->
  _wall_unit_hvac_mode K t = DRY ->
  exists e',
    resolve K repr_float t e = (Ret tt, e')
    /\ _hvac_mode e' = DRY
    /\ Z.land (_supported_features e') TARGET_TEMPERATURE = 0
    /\ Z.land (_supported_features e') TARGET_TEMPERATURE_RANGE = 0
    /\ Z.land (_supported_features e') FAN_MODE = 0
    /\ _fan_modes e' = []
    /\ _fan_mode e' = VNone
    /\ target_temperature e' = VNone.
Proof.
  intros Hw Hdry.
  destruct (resolve_wall_unit t e Hw) as (e' & Hrun & Hwall & He' & _ & H).
  destruct (H Hdry) as (Hfans & Hfan & Hfeat).
  exists e'. rewrite Hfeat. repeat split; try done; try congruence.
  unfold target_temperature, _is_dry_mode. rewrite Hwall, He', Hdry.
  reflexivity.
Qed.

(** ** C5: the supported modes of a central device *)

(** The capabilities in the words of the specification.  A value is
    truthy unless it is [None], [False], zero or the empty string; a
    count is positive when it is a number above zero ([True] counts as
    one). *)
Definition falsy (v : value) : Prop :=
  match v with
  | VNone => True
  | VBool b => b = false
  | VInt n => n = 0
  | VFloat q => (q == 0)%Q
  | VStr s => s = EmptyString
  end.

Definition above_zero (v : value) : Prop :=
  match v with
  | VBool b => b = true
  | VInt n => 0 < n
  | VFloat q => (0 < q)%Q
  | VNone | VStr _ => False
  end.

Definition heat_capable (t : dict) : Prop :=
  exists v, t !! "ctSystemCapHeat" = Some v /\ ~ falsy v.

Definition cool_capable (t : dict) : Prop :=
  (exists v, t !! "ctOutdoorNoofCoolStages" = Some v /\ above_zero v)
  \/ t !! "P1P2S21CoolingCapability" = Some (VBool true).

(** The stage count is a number, when the record has one. *)
Definition stage_count_numeric (t : dict) : bool :=
  match t !! "ctOutdoorNoofCoolStages" with
  | Some v => is_number v
  | None => true
  end.

Lemma truthy_spec (v : value) : truthy v = true <-> ~ falsy v.
Proof.
  destruct v as [| b | n | q | s]; cbn [truthy falsy].
  - split; [done | intros H; exfalso; by apply H].
  - destruct b; split; try done.
  - rewrite negb_true_iff, Z.eqb_neq. done.
  - rewrite negb_true_iff. split.
    + intros H Hq. apply Qeq_bool_iff in Hq. congruence.
    + intros H. destruct (Qeq_bool q 0) eqn:E; [| done].
      apply Qeq_bool_iff in E. contradiction.
  - rewrite negb_true_iff. split.
    + intros H ->. discriminate.
    + intros H. destruct (String.eqb s EmptyString) eqn:E; [| done].
      apply String.eqb_eq in E. contradiction.
Qed.

Lemma heat_test_spec (t : dict) :
  truthy (get t "ctSystemCapHeat") = true <-> heat_capable t.
Proof.
  unfold heat_capable, get. rewrite truthy_spec.
  destruct (t !! "ctSystemCapHeat") as [v |]; cbn [default].
  - split; [eauto | by intros (v' & [= <-] & H)].
  - split; [intros H; exfalso; by apply H | by intros (v' & [=] & _)].
Qed.

Lemma py_gt0_spec (v : value) : py_gt0 v = Ret true <-> above_zero v.
Proof.
  unfold py_gt0.
  destruct v as [| b | n | q | s]; cbn [num_of above_zero]; try done.
  - destruct b; by cbn.
  - destruct (Qcompare_spec 0 (inject_Z n)) as [H | H | H];
      unfold Qeq, Qlt in H; cbn in H; split; try done; try lia;
      intros; f_equal; lia.
  - destruct (Qcompare_spec 0 q) as [H | H | H]; split; try done.
    + intros Hq. rewrite <- H in Hq. by apply Qlt_irrefl in Hq.
    + intros Hq. exfalso. apply (Qlt_irrefl q).
      exact (Qlt_trans q 0 q H Hq).
Qed.

Lemma py_gt0_number (v : value) :
  is_number v = true -> exists b, py_gt0 v = Ret b.
Proof. destruct v; try done; unfold py_gt0; simpl; eauto. Qed.

Lemma py_gt0_not_number (v : value) :
  is_number v = false -> py_gt0 v = Raise TypeError.
Proof. by destruct v. Qed.

(** The test [_configure_capabilities] makes before it appends [COOL]. *)
Definition cool_test (t : dict) : bool :=
  match t !! "ctOutdoorNoofCoolStages" with
  | Some v => match py_gt0 v with Ret b => b | Raise _ => false end
  | None => false
  end
  || (contains "P1P2S21CoolingCapability" t
      && is_True (get t "P1P2S21CoolingCapability")).

Lemma cool_test_spec (t : dict) : cool_test t = true <-> cool_capable t.
Proof.
  unfold cool_test, cool_capable, contains, get.
  rewrite orb_true_iff. split.
  - intros [H | H].
    + destruct (t !! "ctOutdoorNoofCoolStages") as [v |]; [| done].
      destruct (py_gt0 v) as [b |] eqn:E; [| done]. subst b.
      left. exists v. split; [done |]. by apply py_gt0_spec.
    + destruct (t !! "P1P2S21CoolingCapability") as [[| [] | | |] |];
        try done. by right.
  - intros [(v & Hv & Hpos) | H].
    + left. apply py_gt0_spec in Hpos. by rewrite Hv, Hpos.
    + right. by rewrite H.
Qed.

(** What the central branch leaves in [_operation_list]. *)
Definition central_operation_list (heat cool : bool) : list HVACMode :=
  (if heat && cool then [AUTO] else [])
  ++ (if heat then [HEAT] else [])
  ++ (if cool then [COOL] else [])
  ++ [OFF].

Lemma configure_central (t : dict) (e : Thermostat) :
  self_is_wall_unit e = false ->
  stage_count_numeric t = true ->
  exists e',
    _configure_capabilities K t e = (Ret tt, e')
    /\ _operation_list e'
       = central_operation_list (truthy (get t "ctSystemCapHeat"))
           (cool_test t).
Proof.
  intros Hw Hnum. destruct e. cbn in Hw. subst.
  unfold _configure_capabilities, cool_test.
  unfold stage_count_numeric in Hnum.
  destruct (t !! "ctOutdoorNoofCoolStages") as [v |] eqn:Ev.
  - destruct (py_gt0_number v Hnum) as [b Hb].
    assert (Hc : contains "ctOutdoorNoofCoolStages" t = true)
      by (apply contains_true; eauto).
    assert (Hg : get t "ctOutdoorNoofCoolStages" = v)
      by (unfold get; by rewrite Ev).
    rewrite Hc, Hg, Hb. unfold lift_outcome.
    eexists. split.
    { repeat entity_step.
      change (bind (fun s => (Ret b, s)) ?k ?s) with (k b s). cbv beta.
      repeat entity_step. reflexivity. }
    cbn [_operation_list].
    by destruct (truthy (get t "ctSystemCapHeat")), b,
      (contains "P1P2S21CoolingCapability" t),
      (is_True (get t "P1P2S21CoolingCapability")).
  - assert (Hc : contains "ctOutdoorNoofCoolStages" t = false)
      by (by apply contains_false).
    rewrite Hc.
    eexists. split.
    { repeat entity_step. reflexivity. }
    cbn [_operation_list].
    by destruct (truthy (get t "ctSystemCapHeat")),
      (contains "P1P2S21CoolingCapability" t),
      (is_True (get t "P1P2S21CoolingCapability")).
Qed.

(** A stage count that is not a number stops the discovery at the
    comparison with zero: [HEAT] may have been appended, nothing else. *)
Lemma configure_central_raises (t : dict) (e : Thermostat) :
  self_is_wall_unit e = false ->
  stage_count_numeric t = false ->
  exists e',
    _configure_capabilities K t e = (Raise TypeError, e')
    /\ _operation_list e'
       = if truthy (get t "ctSystemCapHeat") then [HEAT] else [].
Proof.
  intros Hw Hnum. destruct e. cbn in Hw. subst.
  unfold _configure_capabilities.
  unfold stage_count_numeric in Hnum.
  destruct (t !! "ctOutdoorNoofCoolStages") as [v |] eqn:Ev; [| done].
  assert (Hc : contains "ctOutdoorNoofCoolStages" t = true)
    by (apply contains_true; eauto).
  assert (Hg : get t "ctOutdoorNoofCoolStages" = v)
    by (unfold get; by rewrite Ev).
  rewrite Hc, Hg, (py_gt0_not_number v Hnum). unfold lift_outcome.
  eexists. split.
  { repeat entity_step.
    change (bind (fun s => (Raise TypeError, s)) ?k ?s)
      with (@Raise unit TypeError, s).
    reflexivity. }
  cbn [_operation_list].
  by destruct (truthy (get t "ctSystemCapHeat")).
Qed.

(** C5, as the code has it.  For a central record whose cool-stage count
    is absent or a number, [_configure_capabilities] returns and the mode
    list it builds holds [HEAT] exactly when the heating-capacity flag is
    truthy, [COOL] exactly when the cool-stage count is positive or the
    protocol cooling flag is [True], [AUTO] exactly when it holds both;
    [AUTO], when present, comes first, and [OFF] comes last.  For a
    record whose count is there and is not a number, the comparison with
    zero raises [TypeError]: the list holds [HEAT] at most, and no
    [OFF]. *)
Theorem central_supported_modes (t : dict) (e : Thermostat) :
  self_is_wall_unit e = false ->
  (stage_count_numeric t = true ->
   exists e',
     _configure_capabilities K t e = (Ret tt, e')
     /\ (HEAT ∈ _operation_list e' <-> heat_capable t)
     /\ (COOL ∈ _operation_list e' <-> cool_capable t)
     /\ (AUTO ∈ _operation_list e' <->
         HEAT ∈ _operation_list e' /\ COOL ∈ _operation_list e')
     /\ (AUTO ∈ _operation_list e' -> head (_operation_list e') = Some AUTO)
     /\ last (_operation_list e') = Some OFF)
  /\ (stage_count_numeric t = false ->
      exists e',
        _configure_capabilities K t e = (Raise TypeError, e')
        /\ (HEAT ∈ _operation_list e' <-> heat_capable t)
        /\ (COOL ∉ _operation_list e') /\ (AUTO ∉ _operation_list e')
        /\ (OFF ∉ _operation_list e')).
Proof.
  intros Hw. split; intros Hnum.
  - destruct (configure_central t e Hw Hnum) as (e' & Hrun & Hops).
    exists e'. split; [exact Hrun |]. rewrite Hops.
    rewrite <- heat_test_spec, <- cool_test_spec.
    destruct (truthy (get t "ctSystemCapHeat")), (cool_test t);
      cbn [central_operation_list andb app];
      rewrite ?elem_of_cons, ?elem_of_nil; cbn [head last];
      intuition (discriminate || congruence).
  - destruct (configure_central_raises t e Hw Hnum) as (e' & Hrun & Hops).
    exists e'. split; [exact Hrun |]. rewrite Hops.
    rewrite <- heat_test_spec.
    destruct (truthy (get t "ctSystemCapHeat"));
      rewrite ?elem_of_cons, ?elem_of_nil;
      intuition (discriminate || congruence).
Qed.

End ResolverFacts.


(* ===================================================================== *)
(** * Rounding *)
(* ===================================================================== *)

Section RoundingFacts.

(** [round] lands within one half of its argument. *)
Lemma round_half_even_bounds (n : Z) (d : positive) :
  let z := round_half_even (n # d) in
  2 * z * Z.pos d - Z.pos d <= 2 * n <= 2 * z * Z.pos d + Z.pos d.
Proof.
  unfold round_half_even. cbn [Qnum Qden].
  pose proof (Z.div_mod n (Z.pos d) ltac:(lia)) as Hdm.
  pose proof (Z.mod_pos_bound n (Z.pos d) ltac:(lia)) as Hr.
  destruct (Z.compare_spec (2 * (n mod Z.pos d)) (Z.pos d)) as [He | Hlt | Hgt];
    [destruct (Z.even (n / Z.pos d)) |..]; cbv zeta; nia.
Qed.

Lemma round_half_even_near (q : Q) :
  (Qabs (q - inject_Z (round_half_even q)) <= 1 # 2)%Q.
Proof.
  destruct q as [n d]. pose proof (round_half_even_bounds n d) as Hb.
  cbv zeta in Hb. set (z := round_half_even (n # d)) in *.
  apply Qabs_Qle_condition. unfold Qle, Qminus, Qplus, Qopp, inject_Z.
  cbn [Qnum Qden]. split; nia.
Qed.

(** [round] of a whole number is that number. *)
Lemma round_half_even_whole (q : Q) (z : Z) :
  (q == inject_Z z)%Q -> round_half_even q = z.
Proof.
  intros Hq. pose proof (round_half_even_near q) as Hn.
  remember (round_half_even q) as r eqn:Hr. clear Hr. rewrite Hq in Hn.
  apply Qabs_Qle_condition in Hn. unfold Qle, Qminus, Qplus, Qopp, inject_Z in Hn.
  cbn [Qnum Qden] in Hn. lia.
Qed.

Import DaikinSkyport.

(** [round(_, 1)] keeps a multiple of one half. *)
Lemma py_round1_half (whole : Z) :
  exists h : Q,
    py_round1 (VFloat (Qred (inject_Z whole / inject_Z 2))) = Ret (VFloat h)
    /\ (h == inject_Z whole / 2)%Q.
Proof.
  eexists. split; [reflexivity |].
  rewrite Qred_correct.
  rewrite (round_half_even_whole _ (whole * 5)).
  - rewrite inject_Z_mult. field.
  - rewrite Qred_correct, inject_Z_mult. field.
Qed.

(** The rounding of [set_wall_unit_temperature] gives the multiple of one
    half nearest to a number. *)
Lemma round_to_half_nearest (temperature : value) (t : Q) :
  num_of temperature = Some t ->
  exists (h : Q) (whole : Z),
    round_to_half temperature = Ret (VFloat h)
    /\ (h == inject_Z whole / 2)%Q
    /\ (Qabs (h - t) <= 1 # 4)%Q.
Proof.
  intros Ht. unfold round_to_half.
  destruct temperature as [| b | n | q | s]; try discriminate;
    injection Ht as <-; cbn [py_mul_int py_round py_truediv_int num_of].
  - destruct (py_round1_half (Z.b2z b * 2)) as (h & -> & Hh).
    exists h, (Z.b2z b * 2). repeat split; [done |].
    rewrite Hh, inject_Z_mult. change (inject_Z 2) with 2%Q.
    match goal with
    | |- (Qabs ?x <= _)%Q => assert (x == 0)%Q as -> by field
    end.
    done.
  - destruct (py_round1_half (n * 2)) as (h & -> & Hh).
    exists h, (n * 2). repeat split; [done |].
    rewrite Hh, inject_Z_mult. change (inject_Z 2) with 2%Q.
    match goal with
    | |- (Qabs ?x <= _)%Q => assert (x == 0)%Q as -> by field
    end.
    done.
  - destruct (py_round1_half (round_half_even (Qred (q * inject_Z 2))))
      as (h & -> & Hh).
    exists h, (round_half_even (Qred (q * inject_Z 2))).
    repeat split; [done |].
    pose proof (round_half_even_near (Qred (q * inject_Z 2))) as Hn.
    remember (round_half_even (Qred (q * inject_Z 2))) as whole eqn:Hw.
    clear Hw. rewrite Qred_correct in Hn. change (inject_Z 2) with 2%Q in Hn.
    apply Qabs_Qle_condition in Hn. rewrite Hh.
    assert (inject_Z whole / 2 == inject_Z whole * (1 # 2))%Q as -> by field.
    apply Qabs_Qle_condition. split; lra.
Qed.

End RoundingFacts.


(* ===================================================================== *)
(** * The client: requests, token refresh, polling *)
(* ===================================================================== *)

Section ClientFacts.
Context (K : const_py).

Import DaikinSkyport.

(** ** What the token calls may change

    [refresh_tokens], [request_tokens] and [write_tokens_to_file] touch the
    tokens and the stored configuration only, and the exchanges they make
    are POSTs. *)
Record token_frame (w w' : world) : Prop := {
  tf_heap : heap w' = heap w;
  tf_next : next_loc w' = next_loc w;
  tf_thermostats : thermostats (self w') = thermostats (self w);
  tf_skip : skip_next (self w') = skip_next (self w);
  tf_sent : exists posts,
      sent w' = sent w ++ posts
      /\ Forall (fun c => method c = "POST"%string) posts
}.

Lemma token_frame_refl (w : world) : token_frame w w.
Proof.
  split; try reflexivity. exists []. split; [by rewrite app_nil_r | constructor].
Qed.

Lemma token_frame_trans (w1 w2 w3 : world) :
  token_frame w1 w2 -> token_frame w2 w3 -> token_frame w1 w3.
Proof.
  intros [Hh Hn Ht Hs (p & Hp & Hpp)] [Hh' Hn' Ht' Hs' (q & Hq & Hqq)].
  split; try congruence.
  exists (p ++ q). split.
  - by rewrite Hq, Hp, app_assoc.
  - by apply Forall_app.
Qed.

Definition frames {A} (m : M world A) : Prop :=
  forall w, token_frame w (snd (m w)).

Lemma frames_ret {A} (a : A) : frames (ret a).
Proof. intros w. apply token_frame_refl. Qed.

Lemma frames_raise {A} (e : exn) : frames (@raise world A e).
Proof. intros w. apply token_frame_refl. Qed.

Lemma frames_gets {A} (f : world -> A) : frames (gets f).
Proof. intros w. apply token_frame_refl. Qed.

Lemma frames_lift_outcome {A} (o : outcome A) : frames (lift_outcome o).
Proof. intros w. apply token_frame_refl. Qed.

Lemma frames_attr {A} (name : string) (f : client -> option A) :
  frames (attr name f).
Proof.
  intros w. unfold attr. destruct (f (self w)); apply token_frame_refl.
Qed.

Lemma frames_bind {A B} (m : M world A) (k : A -> M world B) :
  frames m -> (forall a, frames (k a)) -> frames (bind m k).
Proof.
  intros Hm Hk w. unfold bind. specialize (Hm w).
  destruct (m w) as [[a | e] w1]; cbn [snd] in *; [| done].
  exact (token_frame_trans _ _ _ Hm (Hk a w1)).
Qed.

Lemma frames_set_attr (f : client -> client) :
  (forall c, thermostats (f c) = thermostats c
             /\ skip_next (f c) = skip_next c) ->
  frames (set_attr f).
Proof.
  intros Hf w. destruct (Hf (self w)) as [Ht Hs].
  split; try done. exists []. split; [by rewrite app_nil_r | constructor].
Qed.

Lemma frames_http_post (c : http_call) :
  method c = "POST"%string -> frames (http c).
Proof.
  intros Hc w. unfold http.
  destruct (net w); split; try reflexivity;
    exists [c]; split; try reflexivity; by repeat constructor.
Qed.

Ltac frames_step :=
  first
    [ apply frames_ret | apply frames_raise | apply frames_gets
    | apply frames_attr | apply frames_lift_outcome
    | apply frames_set_attr; by intros []
    | apply frames_http_post; reflexivity
    | apply frames_bind; [| intros ?]
    | match goal with
      | |- frames (if ?b then _ else _) => destruct b
      | |- frames (match ?x with _ => _ end) => destruct x
      end ].

Lemma write_tokens_to_file_frames : frames write_tokens_to_file.
Proof. unfold write_tokens_to_file. repeat frames_step. Qed.

Lemma request_tokens_frames : frames request_tokens.
Proof.
  unfold request_tokens.
  repeat first [ apply write_tokens_to_file_frames | frames_step ].
Qed.

Lemma refresh_tokens_frames : frames refresh_tokens.
Proof.
  unfold refresh_tokens.
  repeat first [ apply write_tokens_to_file_frames
               | apply request_tokens_frames | frames_step ].
Qed.

End ClientFacts.


Section RequestFacts.
Context (K : const_py).

Import DaikinSkyport.

(** ** What [make_request] does to the world

    It sets the skip flag, makes at most one PUT, carrying the body it was
    given, and whatever follows the PUT is token traffic. *)
Record request_frame (body : pyobj) (w w' : world) : Prop := {
  rf_heap : heap w' = heap w;
  rf_next : next_loc w' = next_loc w;
  rf_thermostats : thermostats (self w') = thermostats (self w);
  rf_skip : skip_next (self w') = true;
  rf_sent :
    sent w' = sent w
    \/ exists put posts,
        sent w' = sent w ++ put :: posts
        /\ method put = "PUT"%string /\ payload put = body
        /\ Forall (fun c => method c = "POST"%string) posts
}.

(** The call [make_request] makes on itself passes the body where the
    index belongs: indexing the list of thermostats with a dictionary is
    a [TypeError], raised before anything is sent. *)
Lemma make_request_retry (depth : nat) (b : dict) (second : pyobj)
    (log_msg_action : log_msg) (retry_count : Z) (w : world) :
  make_request_depth (S depth) (ODict b) second log_msg_action retry_count w
  = (Raise TypeError, with_self (with_skip_next true (self w)) w).
Proof. reflexivity. Qed.

(** The world after the first statement and after the PUT. *)
Definition flagged (w : world) : world :=
  with_self (with_skip_next true (self w)) w.

Definition after_put (put : http_call) (w : world) : world :=
  {| heap := heap w; next_loc := next_loc w; self := self (flagged w);
     net := tail (net w); sent := sent w ++ [put] |}.

Definition the_put (id tok : string) (body : pyobj) : http_call :=
  {| method := "PUT";
     url := "https://api.daikinskyport.com/deviceData/" +:+ id;
     bearer := Some ("Bearer " +:+ tok); payload := body |}.

(** [make_request] up to the reply to its PUT. *)
Lemma make_request_unfold (index body : pyobj) (log_msg_action : log_msg)
    (w : world) (l : loc) (id tok : string) :
  locate (thermostats (self w)) index = Ret l ->
  heap w l !! "id" = Some (VStr id) ->
  access_token (self w) = VStr tok ->
  make_request index body log_msg_action w
  = let w1 := after_put (the_put id tok body) w in
    match net w with
    | [] | NoReply :: _ => (Ret None, w1)
    | Reply request :: _ =>
        if status_code request =? 200 then (Ret (Some request), w1)
        else if status_code request =? 401 then
          match json_item (resp_json request) "error" with
          | Raise e => (Raise e, w1)
          | Ret error =>
              if py_eq error (VStr "authorization_expired") then
                match refresh_tokens w1 with
                | (Raise e, w2) => (Raise e, w2)
                | (Ret true, w2) =>
                    make_request_depth 1 body (OVal (VStr id))
                      log_msg_action 1 w2
                | (Ret false, w2) => (Ret None, w2)
                end
              else
                match resp_json request with
                | JInvalid => (Raise JSONDecodeError, w1)
                | _ => (Ret None, w1)
                end
          end
        else
          match resp_json request with
          | JInvalid => (Raise JSONDecodeError, w1)
          | _ => (Ret None, w1)
          end
    end.
Proof.
  intros Hl Hid Htok.
  unfold make_request, make_request_depth at 1, make_request_body.
  unfold bind at 1. cbn [set_attr modify].
  unfold bind at 1, thermostat_at. cbn [with_self self thermostats with_skip_next].
  rewrite Hl.
  unfold bind at 1, deref, gets. cbn [with_self heap].
  unfold bind at 1, lift_outcome, getitem. rewrite Hid.
  unfold bind at 1. cbn [str_add].
  unfold bind at 1. cbn [with_self self access_token with_skip_next].
  rewrite Htok.
  unfold bind at 1. cbn [str_add].
  unfold bind at 1, http. cbn [with_self net].
  destruct w as [h n c nt st]. cbn [net heap next_loc self sent].
  destruct nt as [| [request |] nt']; try reflexivity.
  cbn zeta.
  destruct (status_code request =? 200); [reflexivity |].
  destruct (status_code request =? 401); cbn [andb Z.eqb].
  - unfold bind at 1.
    destruct (json_item (resp_json request) "error") as [error | e];
      [| reflexivity].
    destruct (py_eq error (VStr "authorization_expired")).
    + unfold bind at 1. unfold after_put, flagged, the_put. cbn.
      destruct (refresh_tokens _) as [[[|] | e] w2]; reflexivity.
    + destruct (resp_json request); reflexivity.
  - destruct (resp_json request); reflexivity.
Qed.

Lemma request_frame_flagged (body : pyobj) (w : world) :
  request_frame body w (flagged w).
Proof. split; try reflexivity. by left. Qed.

Lemma request_frame_after_put (body : pyobj) (id tok : string) (w w2 : world) :
  token_frame (after_put (the_put id tok body) w) w2 ->
  request_frame body w w2.
Proof.
  intros [Hh Hn Ht Hs (posts & Hp & Hposts)].
  split; try done. right. exists (the_put id tok body), posts.
  split; [| done]. rewrite Hp. cbn. by rewrite <- app_assoc.
Qed.

Lemma request_frame_retry (body : pyobj) (id tok : string) (w w2 : world) :
  token_frame (after_put (the_put id tok body) w) w2 ->
  request_frame body w (flagged w2).
Proof.
  intros [Hh Hn Ht Hs (posts & Hp & Hposts)].
  split; try done. right. exists (the_put id tok body), posts.
  split; [| done]. cbn. rewrite Hp. cbn. by rewrite <- app_assoc.
Qed.

(** Whatever the replies, a request with a dictionary for body stays
    within the frame. *)
Lemma make_request_frame (index : pyobj) (b : dict)
    (log_msg_action : log_msg) (w : world) :
  request_frame (ODict b) w
    (snd (make_request index (ODict b) log_msg_action w)).
Proof.
  assert (Hearly : forall o : outcome (option response),
            request_frame (ODict b) w (snd (o, flagged w)))
    by (intros o; apply request_frame_flagged).
  destruct (locate (thermostats (self w)) index) as [l | e] eqn:Hl;
    [destruct (heap w l !! "id") as [[| | | | id] |] eqn:Hid;
     [| | | | destruct (access_token (self w)) as [| | | | tok] eqn:Htok |] |].
  9: { rewrite (make_request_unfold index (ODict b) log_msg_action w l id tok)
         by done.
       cbv zeta.
       assert (Hput : forall o : outcome (option response),
                 request_frame (ODict b) w
                   (snd (o, after_put (the_put id tok (ODict b)) w))).
       { intros o. apply (request_frame_after_put _ id tok).
         apply token_frame_refl. }
       destruct (net w) as [| [request |] nt];
         [apply Hput | | apply Hput].
       destruct (status_code request =? 200); [apply Hput |].
       destruct (status_code request =? 401).
       - destruct (json_item (resp_json request) "error") as [error | e];
           [| apply Hput].
         destruct (py_eq error (VStr "authorization_expired")).
         + pose proof (refresh_tokens_frames
                         (after_put (the_put id tok (ODict b)) w)) as Hr.
           destruct (refresh_tokens _) as [[[|] | e] w2]; cbn [snd] in Hr.
           * rewrite make_request_retry.
             by apply (request_frame_retry _ id tok).
           * by apply (request_frame_after_put _ id tok).
           * by apply (request_frame_after_put _ id tok).
         + destruct (resp_json request); apply Hput.
       - destruct (resp_json request); apply Hput. }
  all: unfold make_request, make_request_depth at 1, make_request_body;
    unfold bind at 1; cbn [set_attr modify];
    unfold bind at 1, thermostat_at;
    cbn [with_self self thermostats with_skip_next]; rewrite Hl;
    try apply Hearly.
  all: unfold bind at 1, deref, gets; cbn [with_self heap];
    unfold bind at 1, lift_outcome, getitem; rewrite Hid;
    try apply Hearly.
  all: unfold bind at 1; cbn [str_add]; try apply Hearly.
  all: unfold bind at 1; cbn [with_self self access_token with_skip_next];
    rewrite Htok; unfold bind at 1; cbn [str_add];
    apply Hearly.
Qed.

(** C1, at the code.  When the first attempt is answered 401 with
    ["authorization_expired"] and the token refresh succeeds, the call
    [make_request] makes on itself raises [TypeError] before it sends
    anything: one PUT and the token traffic are all that was sent, the
    request is not retried and the mutation does not return success. *)
Theorem refresh_then_retry_raises (index : pyobj) (b : dict)
    (log_msg_action : log_msg) (w w2 : world) (l : loc) (id tok : string)
    (request : response) (replies : list http_reply) (error : value) :
  locate (thermostats (self w)) index = Ret l ->
  heap w l !! "id" = Some (VStr id) ->
  access_token (self w) = VStr tok ->
  net w = Reply request :: replies ->
  status_code request = 401 ->
  json_item (resp_json request) "error" = Ret error ->
  py_eq error (VStr "authorization_expired") = true ->
  refresh_tokens (after_put (the_put id tok (ODict b)) w) = (Ret true, w2) ->
  make_request index (ODict b) log_msg_action w
  = (Raise TypeError, flagged w2)
  /\ exists posts,
      sent (flagged w2) = sent w ++ the_put id tok (ODict b) :: posts
      /\ Forall (fun c => method c = "POST"%string) posts.
Proof.
  intros Hl Hid Htok Hnet Hst Herr Hexp Href.
  rewrite (make_request_unfold index (ODict b) log_msg_action w l id tok)
    by done.
  cbv zeta. rewrite Hnet, Hst, Herr, Hexp, Href. cbn [Z.eqb Pos.eqb].
  rewrite make_request_retry. split; [reflexivity |].
  pose proof (refresh_tokens_frames (after_put (the_put id tok (ODict b)) w))
    as Hr.
  rewrite Href in Hr. destruct Hr as [_ _ _ _ (posts & Hp & Hposts)].
  exists posts. split; [| done]. cbn in *. rewrite Hp. by rewrite <- app_assoc.
Qed.

End RequestFacts.


Section MutationFacts.
Context (K : const_py).

Import DaikinSkyport.

(** ** Where a mutation call ends

    A mutation call works on the cached record and then either stops
    (it returns [None] or raises) or hands a body to [make_request]. *)

(** The mutation calls that write what they send into the cached
    record. *)
Definition shadows (m : mutation) : bool :=
  match m with
  | SetHvacMode _ _ | SetFanMode _ _ | SetFanSpeed _ _
  | SetTempHold _ _ _ _ | SetPermanentHold _ _ _ | SetAway _ _ _ _
  | SetEconoMode _ _ | SetBoostMode _ _ | SetWallUnitMode _ _
  | SetWallUnitFanSpeed _ _ _ | SetWallUnitTemperature _ _ _ => true
  | SetThermostatSchedule _ _ _ _ _ _ _ | SetFanClean _ _
  | SetDualFuelEfficiency _ _ | ResumeProgram _ | SetFanSchedule _ _ _ _ _
  | SetNightMode _ _ _ _ | SetHumidity _ _ _ => false
  end.

(** [set_wall_unit_temperature] sends the cached boost flag back, as a
    boolean, without writing it. *)
Definition echoes (m : mutation) (k : string) : Prop :=
  match m with
  | SetWallUnitTemperature _ _ _ => k = "oduPowerfulOperationRequest"%string
  | _ => False
  end.

(** Every field of the body is in the cached record with the same value
    (or is the echoed flag). *)
Definition covered (m : mutation) (b d : dict) : Prop :=
  forall k v, b !! k = Some v ->
    d !! k = Some v
    \/ (echoes m k /\ exists v', d !! k = Some v' /\ v = VBool (truthy v')).

Definition same_but_heap (w w' : world) : Prop :=
  next_loc w' = next_loc w /\ self w' = self w /\ net w' = net w
  /\ sent w' = sent w.

(** Before the request a call touches the cached records at most, and
    only a shadowing call does that. *)
Definition prepared (m : mutation) (w w' : world) : Prop :=
  same_but_heap w w' /\ (shadows m = false -> heap w' = heap w).

Inductive reached (m : mutation) (w : world)
  : outcome (option response) * world -> Prop :=
| reached_stop (o : outcome (option response)) (w' : world) :
    prepared m w w' ->
    heap w' = heap w ->
    (forall r, o <> Ret (Some r)) ->
    reached m w (o, w')
| reached_request (w1 : world) (b : dict) (log_msg_action : log_msg) :
    prepared m w w1 ->
    (shadows m = true ->
     forall l, locate (thermostats (self w)) (OVal (index_of m)) = Ret l ->
               covered m b (heap w1 l)) ->
    reached m w
      (make_request (OVal (index_of m)) (ODict b) log_msg_action w1).

(** Running the part of a mutation call that precedes the request. *)
Ltac exec :=
  cbv beta iota zeta delta
    [bind ret raise gets modify lift_outcome thermostat_setitem
     thermostat_item thermostat_dict thermostat_at deref store getitem];
  cbn [heap next_loc self net sent with_heap fst snd].

Ltac same_world :=
  split; [by repeat split | intros ?; first [discriminate | reflexivity]].

Ltac stop := apply reached_stop; [same_world | reflexivity | by intros ?].

(** A body built by insertions is covered by a record that received the
    same insertions. *)
Ltac cover :=
  let l' := fresh "l'" in
  let Hl' := fresh "Hl'" in
  let k := fresh "k" in
  let v := fresh "v" in
  let Hb := fresh "Hb" in
  intros _ l' Hl'; cbn [heap with_heap]; cbn [index_of] in Hl';
  match goal with
  | Hl : locate _ _ = Ret ?l |- _ =>
      rewrite Hl in Hl'; injection Hl' as <-
  end;
  repeat (cbv beta; rewrite Nat.eqb_refl);
  unfold get_or;
  intros k v Hb; left; revert Hb;
  rewrite ?lookup_insert, ?lookup_singleton;
  repeat case_decide; subst; try done; rewrite ?lookup_empty; try done;
  congruence.

(** A read that follows a successful membership test does not fail. *)
Ltac absurd_lookup :=
  exfalso;
  match goal with
  | Hn : ?d !! ?k = None, Hc : contains ?k ?d = true |- _ =>
      unfold contains in Hc; rewrite Hn in Hc; discriminate
  end.

Ltac finish :=
  first [ stop
        | absurd_lookup
        | apply reached_request; [same_world | first [ done | cover ]] ].

(** Decide the innermost test the call still branches on. *)
Ltac inner_match :=
  match goal with
  | |- context [match ?x with _ => _ end] =>
      lazymatch x with
      | context [match _ with _ => _ end] => fail
      | _ => destruct x eqn:?
      end
  end.

Ltac known_index :=
  match goal with
  | Hl : locate ?ths ?i = _ |- context [locate ?ths ?i] => rewrite Hl
  end.

(** A call that works on the record before it builds the request. *)
Ltac run_mutation :=
  repeat first [ finish | progress exec | known_index
               | rewrite Nat.eqb_refl | inner_match ].

Lemma set_hvac_mode_reached (index hvac_mode : value) (w : world) :
  reached (SetHvacMode index hvac_mode) w (set_hvac_mode index hvac_mode w).
Proof. unfold set_hvac_mode. run_mutation. Qed.

Lemma set_thermostat_schedule_reached (index : value) (prefix : string)
    (start enable label heating cooling : value) (w : world) :
  reached (SetThermostatSchedule index prefix start enable label heating
             cooling) w
    (set_thermostat_schedule index prefix start enable label heating
       cooling w).
Proof. unfold set_thermostat_schedule. finish. Qed.

Lemma set_fan_mode_reached (index fan_mode : value) (w : world) :
  reached (SetFanMode index fan_mode) w (set_fan_mode index fan_mode w).
Proof. unfold set_fan_mode. run_mutation. Qed.

Lemma set_fan_speed_reached (index fan_speed : value) (w : world) :
  reached (SetFanSpeed index fan_speed) w (set_fan_speed index fan_speed w).
Proof. unfold set_fan_speed. run_mutation. Qed.

Lemma set_fan_clean_reached (index active : value) (w : world) :
  reached (SetFanClean index active) w (set_fan_clean index active w).
Proof. unfold set_fan_clean. finish. Qed.

Lemma set_dual_fuel_efficiency_reached (index active : value) (w : world) :
  reached (SetDualFuelEfficiency index active) w
    (set_dual_fuel_efficiency index active w).
Proof. unfold set_dual_fuel_efficiency. finish. Qed.

Lemma set_temp_hold_reached (index cool_temp heat_temp hold_duration : value)
    (w : world) :
  reached (SetTempHold index cool_temp heat_temp hold_duration) w
    (set_temp_hold index cool_temp heat_temp hold_duration w).
Proof. unfold set_temp_hold. run_mutation. Qed.

Lemma set_permanent_hold_reached (index cool_temp heat_temp : value)
    (w : world) :
  reached (SetPermanentHold index cool_temp heat_temp) w
    (set_permanent_hold index cool_temp heat_temp w).
Proof. unfold set_permanent_hold. run_mutation. Qed.

Lemma set_away_reached (index mode heat_temp cool_temp : value) (w : world) :
  reached (SetAway index mode heat_temp cool_temp) w
    (set_away index mode heat_temp cool_temp w).
Proof. unfold set_away. run_mutation. Qed.

Lemma resume_program_reached (index : value) (w : world) :
  reached (ResumeProgram index) w (resume_program index w).
Proof. unfold resume_program. finish. Qed.

Lemma set_fan_schedule_reached (index start stop interval speed : value)
    (w : world) :
  reached (SetFanSchedule index start stop interval speed) w
    (set_fan_schedule index start stop interval speed w).
Proof. unfold set_fan_schedule. finish. Qed.

Lemma set_night_mode_reached (index start stop enable : value) (w : world) :
  reached (SetNightMode index start stop enable) w
    (set_night_mode index start stop enable w).
Proof. unfold set_night_mode. finish. Qed.

Lemma set_econo_mode_reached (index active : value) (w : world) :
  reached (SetEconoMode index active) w (set_econo_mode index active w).
Proof. unfold set_econo_mode. run_mutation. Qed.

Lemma set_boost_mode_reached (index active : value) (w : world) :
  reached (SetBoostMode index active) w (set_boost_mode index active w).
Proof. unfold set_boost_mode. run_mutation. Qed.

Lemma set_humidity_reached (index humidity_low humidity_high : value)
    (w : world) :
  reached (SetHumidity index humidity_low humidity_high) w
    (set_humidity index humidity_low humidity_high w).
Proof. unfold set_humidity. run_mutation. Qed.

(** The values a literal dictionary can give are the ones written in
    it. *)
Lemma pydict_set_values {A} (k : value) (a : A) (l : list (value * A)) (x : A) :
  x ∈ (snd <$> pydict_set k a l) -> x = a \/ x ∈ (snd <$> l).
Proof.
  induction l as [| [k' a'] l IH]; cbn.
  - rewrite list_elem_of_singleton. by left.
  - destruct (py_eq k k'); cbn; rewrite !elem_of_cons; intuition.
Qed.

Lemma pydict_of_values {A} (pairs : list (value * A)) (x : A) :
  x ∈ (snd <$> pydict_of pairs) -> x ∈ (snd <$> pairs).
Proof.
  unfold pydict_of.
  assert (H : forall acc,
             x ∈ (snd <$> fold_left
                    (fun acc p => pydict_set (fst p) (snd p) acc) pairs acc) ->
             x ∈ (snd <$> acc) \/ x ∈ (snd <$> pairs)).
  { induction pairs as [| [k a] pairs IH]; intros acc Hx; cbn in *.
    - by left.
    - destruct (IH _ Hx) as [Hacc | Hp].
      + apply pydict_set_values in Hacc as [-> | Hacc].
        * right. by left.
        * by left.
      + right. by right. }
  intros Hx. destruct (H [] Hx) as [Hnil | Hp]; [| done].
  by apply elem_of_nil in Hnil.
Qed.

Lemma pydict_get_values {A} (l : list (value * A)) (k : value) (x : A) :
  pydict_get l k = Some x -> x ∈ (snd <$> l).
Proof.
  induction l as [| [k' a] l IH]; cbn; [done |].
  destruct (py_eq k k').
  - intros [= ->]. by left.
  - intros H. right. by apply IH.
Qed.

Lemma fan_speed_key_names (v : value) (s : string) :
  _wall_unit_fan_speed_key K v = Some s ->
  s ∈ [ "iduHeatFanSpeed"; "iduCoolFanSpeed"; "iduAutoFanSpeed";
        "iduDryFanSpeed"; "iduFanModeFanSpeed" ]%string.
Proof.
  intros H. apply pydict_get_values, pydict_of_values in H. exact H.
Qed.

(** Name the fan-speed key a call has looked up. *)
Ltac name_fan_key :=
  match goal with
  | H : _wall_unit_fan_speed_key K _ = Some ?s |- _ =>
      apply fan_speed_key_names in H;
      repeat (apply elem_of_cons in H as [-> | H]);
      [.. | by apply elem_of_nil in H]
  end.

Lemma set_wall_unit_fan_speed_reached (index fan_speed hvac_mode : value)
    (w : world) :
  reached (SetWallUnitFanSpeed index fan_speed hvac_mode) w
    (set_wall_unit_fan_speed K index fan_speed hvac_mode w).
Proof. unfold set_wall_unit_fan_speed. run_mutation. Qed.

Lemma set_wall_unit_mode_reached (index : value) (hvac_mode : mode_arg)
    (w : world) :
  reached (SetWallUnitMode index hvac_mode) w
    (set_wall_unit_mode K index hvac_mode w).
Proof.
  unfold set_wall_unit_mode. run_mutation.
  all: name_fan_key.
  all: repeat match goal with
         | H : _ !! _ = Some _ |- _ =>
             rewrite !lookup_insert_ne in H by done; revert H
         end; intros.
  all: finish.
Qed.

Lemma set_wall_unit_temperature_reached (index temperature hvac_mode : value)
    (w : world) :
  reached (SetWallUnitTemperature index temperature hvac_mode) w
    (set_wall_unit_temperature K index temperature hvac_mode w).
Proof.
  unfold set_wall_unit_temperature. run_mutation.
  all: apply reached_request; [same_world |].
  all: intros _ l' Hl'; cbn [heap with_heap]; cbn [index_of] in Hl'.
  all: match goal with
       | Hl : locate _ _ = Ret ?l |- _ =>
           rewrite Hl in Hl'; injection Hl' as <-
       end.
  all: repeat (cbv beta; rewrite Nat.eqb_refl).
  all: match goal with
       | H : contains _ _ = true |- _ =>
           let v' := fresh "v'" in
           let Hv' := fresh "Hv'" in
           apply contains_true in H as [v' Hv'];
           unfold get at 1; rewrite Hv'; cbn [default id];
           intros k v Hb;
           destruct (decide (k = "oduPowerfulOperationRequest"%string))
             as [-> | Hne];
           [ right; split; [done |]; exists v';
             rewrite ?lookup_insert_ne by done; split; [done |];
             rewrite ?lookup_insert_ne in Hb by done;
             rewrite ?lookup_insert_eq in Hb; congruence
           | left; revert Hb; rewrite ?lookup_insert;
             repeat case_decide; subst; try done; rewrite ?lookup_empty;
             try done; congruence ]
       end.
Qed.

(** ** Setting the temperature of a wall unit *)

(** The mode [set_wall_unit_temperature] goes by: the one it is given,
    the cached one when it is given none. *)
Definition mode_in_force (hvac_mode : value) (record : dict) : value :=
  if is_None hvac_mode then get record "mode" else hvac_mode.

(** The setpoint field of each mode that has one. *)
Definition setpoint_fields : list (Z * string) :=
  [(DAIKIN_HVAC_MODE_COOL K, "iduCoolSetpoint"%string);
   (DAIKIN_HVAC_MODE_HEAT K, "iduHeatSetpoint"%string);
   (DAIKIN_HVAC_MODE_AUTO K, "iduAutoSetpoint"%string)].

Definition setpoint_modes : list Z :=
  [DAIKIN_HVAC_MODE_COOL K; DAIKIN_HVAC_MODE_HEAT K; DAIKIN_HVAC_MODE_AUTO K;
   DAIKIN_HVAC_MODE_DRY K].

Lemma py_eq_int_other (v : value) (a b : Z) :
  py_eq v (VInt a) = true -> a <> b -> py_eq v (VInt b) = false.
Proof.
  unfold py_eq. cbn [num_of].
  destruct (num_of v) as [x |]; [| by destruct v].
  intros Ha Hab. apply Qeq_bool_iff in Ha.
  destruct (Qeq_bool x (inject_Z b)) eqn:Hb; [| done].
  apply Qeq_bool_iff in Hb. rewrite Ha in Hb.
  apply (proj1 (inject_Z_injective a b)) in Hb. contradiction.
Qed.

Lemma set_wall_unit_temperature_setpoint (index temperature hvac_mode : value)
    (w : world) (l : loc) (rounded : value) (c : Z) (key : string) :
  is_None temperature = false ->
  round_to_half temperature = Ret rounded ->
  locate (thermostats (self w)) (OVal index) = Ret l ->
  NoDup setpoint_modes ->
  In (c, key) setpoint_fields ->
  py_eq (mode_in_force hvac_mode (heap w l)) (VInt c) = true ->
  exists b log_msg_action w1,
    set_wall_unit_temperature K index temperature hvac_mode w
    = make_request (OVal index) (ODict b) log_msg_action w1
    /\ b !! key = Some rounded
    /\ heap w1 l !! key = Some rounded
    /\ heap w1 l !! "id" = heap w l !! "id"
    /\ self w1 = self w /\ sent w1 = sent w.
Proof.
  intros Hnone Hround Hl Hdup Hin Hmode.
  unfold setpoint_modes in Hdup.
  assert (DAIKIN_HVAC_MODE_COOL K <> DAIKIN_HVAC_MODE_HEAT K
          /\ DAIKIN_HVAC_MODE_COOL K <> DAIKIN_HVAC_MODE_AUTO K
          /\ DAIKIN_HVAC_MODE_HEAT K <> DAIKIN_HVAC_MODE_AUTO K)
    as (Hch & Hca & Hha).
  { rewrite !NoDup_cons, !not_elem_of_cons in Hdup. tauto. }
  clear Hdup. unfold set_wall_unit_temperature. rewrite Hnone.
  unfold mode_in_force in Hmode.
  exec. rewrite Hround. exec.
  destruct Hin as [[= <- <-] | [[= <- <-] | [[= <- <-] | []]]];
    (destruct (is_None hvac_mode) eqn:Hm; exec; rewrite ?Hl; exec;
     (destruct (contains "oduPowerfulOperationRequest" (heap w l)); exec;
      rewrite ?Hl; exec;
      rewrite ?(py_eq_int_other _ _ (DAIKIN_HVAC_MODE_COOL K) Hmode)
        by congruence;
      rewrite ?(py_eq_int_other _ _ (DAIKIN_HVAC_MODE_HEAT K) Hmode)
        by congruence;
      rewrite Hmode; exec; rewrite ?Hl; exec;
      match goal with
      | |- context [negb (is_None ?x)] => destruct (is_None x)
      end;
      cbn [negb]; exec; rewrite ?Hl; exec;
      eexists _, _, _; (split; [reflexivity |]);
      cbn [heap with_heap self sent]; rewrite ?Nat.eqb_refl;
      rewrite ?lookup_insert_eq; rewrite ?lookup_insert_ne by done;
      rewrite ?lookup_insert_eq; repeat split;
      rewrite ?lookup_insert_ne by done; done)).
Qed.

Lemma set_wall_unit_temperature_dry (index temperature hvac_mode : value)
    (w : world) (l : loc) (rounded : value) :
  is_None temperature = false ->
  round_to_half temperature = Ret rounded ->
  locate (thermostats (self w)) (OVal index) = Ret l ->
  NoDup setpoint_modes ->
  py_eq (mode_in_force hvac_mode (heap w l))
    (VInt (DAIKIN_HVAC_MODE_DRY K)) = true ->
  set_wall_unit_temperature K index temperature hvac_mode w = (Ret None, w).
Proof.
  intros Hnone Hround Hl Hdup Hmode.
  assert (DAIKIN_HVAC_MODE_DRY K <> DAIKIN_HVAC_MODE_COOL K
          /\ DAIKIN_HVAC_MODE_DRY K <> DAIKIN_HVAC_MODE_HEAT K
          /\ DAIKIN_HVAC_MODE_DRY K <> DAIKIN_HVAC_MODE_AUTO K)
    as (Hc & Hh & Ha).
  { unfold setpoint_modes in Hdup.
    rewrite !NoDup_cons, !not_elem_of_cons in Hdup.
    repeat split; intros E; rewrite E in Hdup; tauto. }
  clear Hdup. unfold set_wall_unit_temperature. rewrite Hnone.
  unfold mode_in_force in Hmode.
  exec. rewrite Hround. exec.
  destruct (is_None hvac_mode) eqn:Hm; exec; rewrite ?Hl; exec;
    (destruct (contains "oduPowerfulOperationRequest" (heap w l)); exec;
     rewrite ?Hl; exec;
     rewrite (py_eq_int_other _ _ (DAIKIN_HVAC_MODE_COOL K) Hmode Hc);
     rewrite (py_eq_int_other _ _ (DAIKIN_HVAC_MODE_HEAT K) Hmode Hh);
     rewrite (py_eq_int_other _ _ (DAIKIN_HVAC_MODE_AUTO K) Hmode Ha);
     rewrite Hmode; reflexivity).
Qed.

End MutationFacts.


Section CallFacts.
Context (K : const_py).

Import DaikinSkyport.

(** Every mutation call ends the way [reached] describes. *)
Lemma call_reached (m : mutation) (w : world) : reached m w (call K m w).
Proof.
  destruct m; cbn [call].
  - apply set_hvac_mode_reached.
  - apply set_thermostat_schedule_reached.
  - apply set_fan_mode_reached.
  - apply set_fan_speed_reached.
  - apply set_fan_clean_reached.
  - apply set_dual_fuel_efficiency_reached.
  - apply set_temp_hold_reached.
  - apply set_permanent_hold_reached.
  - apply set_away_reached.
  - apply resume_program_reached.
  - apply set_fan_schedule_reached.
  - apply set_night_mode_reached.
  - apply set_econo_mode_reached.
  - apply set_boost_mode_reached.
  - apply set_humidity_reached.
  - apply set_wall_unit_mode_reached.
  - apply set_wall_unit_fan_speed_reached.
  - apply set_wall_unit_temperature_reached.
Qed.

End CallFacts.


Section RequestOutcome.

Import DaikinSkyport.

(** Without a cached device at the index nothing is sent. *)
Lemma make_request_no_device (index body : pyobj) (log_msg_action : log_msg)
    (w : world) (e : exn) :
  locate (thermostats (self w)) index = Raise e ->
  make_request index body log_msg_action w = (Raise e, flagged w).
Proof.
  intros Hl.
  unfold make_request, make_request_depth at 1, make_request_body.
  unfold bind at 1. cbn [set_attr modify].
  unfold bind at 1, thermostat_at.
  cbn [with_self self thermostats with_skip_next]. by rewrite Hl.
Qed.

Lemma sent_after_put (put : http_call) (w w2 : world) :
  token_frame (after_put put w) w2 ->
  exists posts,
    sent w2 = sent w ++ put :: posts
    /\ Forall (fun c => method c = "POST"%string) posts.
Proof.
  intros [_ _ _ _ (posts & Hp & Hposts)]. exists posts. split; [| done].
  rewrite Hp. cbn. by rewrite <- app_assoc.
Qed.

(** With a cached device that has an id, and a token, the PUT is made. *)
Lemma make_request_sends (index : pyobj) (b : dict) (log_msg_action : log_msg)
    (w : world) (l : loc) (id tok : string) :
  locate (thermostats (self w)) index = Ret l ->
  heap w l !! "id" = Some (VStr id) ->
  access_token (self w) = VStr tok ->
  exists posts,
    sent (snd (make_request index (ODict b) log_msg_action w))
    = sent w ++ the_put id tok (ODict b) :: posts
    /\ Forall (fun c => method c = "POST"%string) posts.
Proof.
  intros Hl Hid Htok.
  rewrite (make_request_unfold index (ODict b) log_msg_action w l id tok)
    by done.
  cbv zeta.
  assert (Hput : forall o : outcome (option response),
            exists posts,
              sent (snd (o, after_put (the_put id tok (ODict b)) w))
              = sent w ++ the_put id tok (ODict b) :: posts
              /\ Forall (fun c => method c = "POST"%string) posts).
  { intros o. apply sent_after_put, token_frame_refl. }
  destruct (net w) as [| [request |] nt]; [apply Hput | | apply Hput].
  destruct (status_code request =? 200); [apply Hput |].
  destruct (status_code request =? 401).
  - destruct (json_item (resp_json request) "error") as [error | e];
      [| apply Hput].
    destruct (py_eq error (VStr "authorization_expired")).
    + pose proof (refresh_tokens_frames
                    (after_put (the_put id tok (ODict b)) w)) as Hr.
      destruct (refresh_tokens _) as [[[|] | e] w2]; cbn [snd] in Hr.
      * rewrite make_request_retry. cbn [snd with_self sent].
        by apply sent_after_put.
      * by apply sent_after_put.
      * by apply sent_after_put.
    + destruct (resp_json request); apply Hput.
  - destruct (resp_json request); apply Hput.
Qed.

End RequestOutcome.


Section MutationClaims.
Context (K : const_py).

Import DaikinSkyport.

(** What a call sent: the exchanges logged after those of the world it
    started in. *)
Definition sent_by (w w' : world) : list http_call :=
  drop (length (sent w)) (sent w').

(** The shadow update as the specification words it: every field of
    every request body the call sent is in the cached record of the
    device, with the value sent. *)
Definition body_in_cache (m : mutation) (w : world) : Prop :=
  let w' := snd (call K m w) in
  forall put b l,
    put ∈ sent_by w w' -> method put = "PUT"%string ->
    payload put = ODict b ->
    locate (thermostats (self w)) (OVal (index_of m)) = Ret l ->
    forall k v, b !! k = Some v -> heap w' l !! k = Some v.

Lemma sent_by_request (b : dict) (w w1 w' : world) (put : http_call) :
  sent w1 = sent w ->
  request_frame (ODict b) w1 w' ->
  put ∈ sent_by w w' -> method put = "PUT"%string ->
  payload put = ODict b.
Proof.
  intros Hs [_ _ _ _ [Hsent | (put' & posts & Hsent & Hm & Hp & Hposts)]];
    unfold sent_by; rewrite Hsent, Hs.
  - rewrite drop_all. by intros ?%elem_of_nil.
  - rewrite drop_app_length. intros [-> | Hin]%elem_of_cons Hput; [done |].
    rewrite Forall_forall in Hposts. apply Hposts in Hin. congruence.
Qed.

(** C8, as the code has it.  The calls that shadow ([set_hvac_mode],
    [set_fan_mode], [set_fan_speed], [set_temp_hold], [set_permanent_hold],
    [set_away], [set_econo_mode], [set_boost_mode] and the three wall-unit
    calls) have every field of the body they send in the cached record of
    the device with the value sent, already when the request is made, save
    the boost flag that [set_wall_unit_temperature] sends back as a boolean;
    the other calls leave every cached record as it was. *)
Theorem shadowing_calls_write_what_they_send (m : mutation) (w : world) :
  let w' := snd (call K m w) in
  (shadows m = true ->
   forall put, put ∈ sent_by w w' -> method put = "PUT"%string ->
     exists l b,
       locate (thermostats (self w)) (OVal (index_of m)) = Ret l
       /\ payload put = ODict b
       /\ covered m b (heap w' l))
  /\ (shadows m = false -> heap w' = heap w).
Proof.
  cbv zeta. pose proof (call_reached K m w) as Hr.
  inversion Hr as [o w' [(Hn & Hself & Hnet & Hsent) Hheap] Hsame Ho Heq
                  | w1 b msg [(Hn & Hself & Hnet & Hsent) Hheap] Hc Heq].
  - cbn [snd]. split; [| done].
    intros _ put Hin. unfold sent_by in Hin. rewrite Hsent, drop_all in Hin.
    by apply elem_of_nil in Hin.
  - pose proof (make_request_frame (OVal (index_of m)) b msg w1) as Hf.
    split.
    + intros Hs put Hin Hput.
      destruct (locate (thermostats (self w)) (OVal (index_of m)))
        as [l | e] eqn:Hl.
      * exists l, b. split; [done |]. split.
        -- exact (sent_by_request b w w1 _ put Hsent Hf Hin Hput).
        -- rewrite (rf_heap _ _ _ Hf). by apply Hc.
      * rewrite <- Hself in Hl.
        rewrite (make_request_no_device _ _ _ _ _ Hl) in Hin.
        unfold sent_by in Hin. cbn [snd flagged with_self sent] in Hin.
        rewrite Hsent, drop_all in Hin. by apply elem_of_nil in Hin.
    + intros Hs. rewrite (rf_heap _ _ _ Hf). by apply Hheap.
Qed.

(** ** Polling after a mutation *)


Lemma update_polls (w : world) :
  skip_next (self w) = false -> update K w = get_thermostats K w.
Proof. intros Hs. unfold update, bind, gets. by rewrite Hs. Qed.




(** ** The temperature of a wall unit *)

(** C7.  [set_wall_unit_temperature] rounds a number to a multiple of one
    half at most a quarter away from it (21.3 to 21.5, 21.2 to 21.0, and
    the ties 21.25 and 21.75 to 21.0 and 22.0); in cool, heat and auto
    mode the rounded value is stored in the setpoint field of the mode
    and sent in the body of the request under the same key; in dry mode
    the call returns [None] and changes and sends nothing. *)
Theorem wall_unit_temperature_rounded_to_half
    (index temperature hvac_mode : value) (w : world) (l : loc) (t : Q)
    (id tok : string) :
  num_of temperature = Some t ->
  locate (thermostats (self w)) (OVal index) = Ret l ->
  heap w l !! "id" = Some (VStr id) ->
  access_token (self w) = VStr tok ->
  NoDup (setpoint_modes K) ->
  let mode := mode_in_force hvac_mode (heap w l) in
  let r := set_wall_unit_temperature K index temperature hvac_mode w in
  (exists (h : Q) (whole : Z),
      round_to_half temperature = Ret (VFloat h)
      /\ (h == inject_Z whole / 2)%Q
      /\ (Qabs (h - t) <= 1 # 4)%Q
      /\ forall c key,
          In (c, key) (setpoint_fields K) -> py_eq mode (VInt c) = true ->
          heap (snd r) l !! key = Some (VFloat h)
          /\ exists b posts,
              sent (snd r) = sent w ++ the_put id tok (ODict b) :: posts
              /\ b !! key = Some (VFloat h)
              /\ Forall (fun c => method c = "POST"%string) posts)
  /\ (py_eq mode (VInt (DAIKIN_HVAC_MODE_DRY K)) = true -> r = (Ret None, w))
  /\ round_to_half (VFloat (213 # 10)) = Ret (VFloat (43 # 2))
  /\ round_to_half (VFloat (212 # 10)) = Ret (VFloat (21 # 1))
  /\ round_to_half (VFloat (2125 # 100)) = Ret (VFloat (21 # 1))
  /\ round_to_half (VFloat (2175 # 100)) = Ret (VFloat (22 # 1)).
Proof.
  intros Ht Hl Hid Htok Hdup mode r.
  assert (Hnone : is_None temperature = false) by by destruct temperature.
  destruct (round_to_half_nearest temperature t Ht)
    as (h & whole & Hround & Hhalf & Hnear).
  split; [| split; [| by vm_compute]].
  - exists h, whole. split; [done |]. split; [done |]. split; [done |].
    intros c field Hin Hmode.
    destruct (set_wall_unit_temperature_setpoint K index temperature
                hvac_mode w l (VFloat h) c field)
      as (b & msg & w1 & Hcall & Hb & Hstored & Hid1 & Hself & Hsent);
      try done.
    subst r. rewrite Hcall. split.
    + by rewrite (rf_heap _ _ _ (make_request_frame _ b msg w1)).
    + destruct (make_request_sends (OVal index) b msg w1 l id tok)
        as (posts & Hposts & Hall).
      * by rewrite Hself.
      * by rewrite Hid1.
      * by rewrite Hself.
      * exists b, posts. by rewrite Hposts, Hsent.
  - intros Hdry. by apply (set_wall_unit_temperature_dry K _ _ _ _ l (VFloat h)).
Qed.

End MutationClaims.


(* ===================================================================== *)
(** * The single-setpoint hold of a central device *)
(* ===================================================================== *)

Section HoldFacts.
Context (K : const_py).

Import HA Climate.

(** The client call [set_auto_temp_hold] makes, by the preset. *)
Definition client_hold (preset : string) (index cool heat : value)
    (record : dict) : M DaikinSkyport.world (option DaikinSkyport.response) :=
  if String.eqb preset PRESET_MANUAL
  then DaikinSkyport.set_permanent_hold index cool heat
  else DaikinSkyport.set_temp_hold index cool heat (hold_preference record).

(** A given setpoint is used as it is; one that is [None] is read from
    the record. *)
Definition given_or_stored (key : string) (v : value) (record : dict) : Prop :=
  is_None v = true -> record !! key = Some v.

Lemma set_auto_temp_hold_given (heat cool : value) (w w' : DaikinSkyport.world)
    (e : Thermostat) (preset : string)
    (r : option DaikinSkyport.response) :
  given_or_stored "hspHome" heat (DaikinSkyport.heap w (thermostat e)) ->
  given_or_stored "cspHome" cool (DaikinSkyport.heap w (thermostat e)) ->
  _preset_mode e = Some preset ->
  client_hold preset (thermostat_index e) cool heat
    (DaikinSkyport.heap w (thermostat e)) w = (Ret r, w') ->
  set_auto_temp_hold heat cool (w, e)
  = (Ret tt,
     (w', upd_update_without_throttle true
            (upd_heat_setpoint heat (upd_cool_setpoint cool e)))).
Proof.
  intros Hh Hc Hp Hcall. unfold set_auto_temp_hold.
  assert (Hcool : (if negb (is_None cool) then ret cool
                   else entity_item "cspHome") (w, e) = (Ret cool, (w, e))).
  { unfold given_or_stored in Hc. destruct (is_None cool); [| done].
    cbn [negb]. unfold entity_item, DaikinSkyport.getitem. cbn [fst snd].
    by rewrite Hc by done. }
  assert (Hheat : (if negb (is_None heat) then ret heat
                   else entity_item "hspHome") (w, e) = (Ret heat, (w, e))).
  { unfold given_or_stored in Hh. destruct (is_None heat); [| done].
    cbn [negb]. unfold entity_item, DaikinSkyport.getitem. cbn [fst snd].
    by rewrite Hh by done. }
  unfold client_hold in Hcall.
  unfold bind at 1. rewrite Hcool. unfold bind at 1. rewrite Hheat.
  unfold bind at 1, on_entity.
  cbn [fst snd]. rewrite Hp. unfold bind at 1, gets. cbn [fst snd].
  unfold bind at 1.
  destruct (String.eqb preset PRESET_MANUAL).
  - unfold bind at 1, on_client. cbn [fst snd]. rewrite Hcall. reflexivity.
  - unfold bind at 1, gets. cbn [fst snd].
    unfold bind at 1, on_client. cbn [fst snd]. rewrite Hcall. reflexivity.
Qed.

(** Outside heating and cooling neither local is bound. *)
Lemma set_temp_hold_unbound (temp : value) (s : DaikinSkyport.world * Thermostat) :
  _hvac_mode (snd s) <> HEAT -> _hvac_mode (snd s) <> COOL ->
  set_temp_hold temp s = (Raise (UnboundLocalError "heat_temp"), s).
Proof.
  intros Hh Hc. unfold set_temp_hold, bind, gets.
  by destruct (_hvac_mode (snd s)).
Qed.

(** C10.  The single-setpoint path of a central device.  Unless the mode
    is [HEAT] or [COOL], [Thermostat.set_temp_hold] raises
    [UnboundLocalError] with the world and the entity as they were, so
    before any client call or shadow update, and so does
    [set_temperature] when it is given the one temperature only.  In
    [HEAT] ([COOL]) it takes the given temperature for the heating
    (cooling) setpoint and the stored [cspHome] ([hspHome]) for the other
    one, hands both to the client and, when that call returns, returns
    with the two setpoints of the entity assigned. *)
Theorem single_setpoint_hold_needs_heat_or_cool (temp : value)
    (w : DaikinSkyport.world) (e : Thermostat) :
  (_hvac_mode e <> HEAT -> _hvac_mode e <> COOL ->
   set_temp_hold temp (w, e) = (Raise (UnboundLocalError "heat_temp"), (w, e))
   /\ forall kwargs,
       self_is_wall_unit e = false ->
       is_None (get kwargs ATTR_TEMPERATURE) = false ->
       is_None (get kwargs ATTR_TARGET_TEMP_LOW) = true ->
       is_None (get kwargs ATTR_TARGET_TEMP_HIGH) = true ->
       set_temperature K kwargs (w, e)
       = (Raise (UnboundLocalError "heat_temp"), (w, e)))
  /\ (forall other preset r w',
        is_None temp = false ->
        _hvac_mode e = HEAT ->
        DaikinSkyport.heap w (thermostat e) !! "cspHome" = Some other ->
        _preset_mode e = Some preset ->
        client_hold preset (thermostat_index e) other temp
          (DaikinSkyport.heap w (thermostat e)) w = (Ret r, w') ->
        exists e',
          set_temp_hold temp (w, e) = (Ret tt, (w', e'))
          /\ _heat_setpoint e' = temp /\ _cool_setpoint e' = other)
  /\ (forall other preset r w',
        is_None temp = false ->
        _hvac_mode e = COOL ->
        DaikinSkyport.heap w (thermostat e) !! "hspHome" = Some other ->
        _preset_mode e = Some preset ->
        client_hold preset (thermostat_index e) temp other
          (DaikinSkyport.heap w (thermostat e)) w = (Ret r, w') ->
        exists e',
          set_temp_hold temp (w, e) = (Ret tt, (w', e'))
          /\ _cool_setpoint e' = temp /\ _heat_setpoint e' = other).
Proof.
  split; [| split].
  - intros Hh Hc. split; [by apply set_temp_hold_unbound |].
    intros kwargs Hwall Htemp Hlow Hhigh.
    unfold set_temperature. unfold bind at 1, gets. cbn [snd].
    rewrite Hwall. cbn [andb]. rewrite Htemp, Hlow, Hhigh.
    cbn [negb orb]. rewrite andb_false_r. unfold bind at 1.
    by rewrite set_temp_hold_unbound.
  - intros other preset r w' Htemp Hmode Hother Hpreset Hcall.
    eexists. split.
    + unfold set_temp_hold. unfold bind at 1, gets. cbn [snd].
      rewrite Hmode. cbn [HVACMode_eqb].
      unfold bind at 1. unfold bind at 1, entity_item, DaikinSkyport.getitem.
      cbn [fst snd]. rewrite Hother. cbn [ret local fst snd].
      unfold bind at 1. cbn [ret]. unfold bind at 1. cbn [ret].
      unfold bind at 1.
      rewrite (set_auto_temp_hold_given temp other w w' e preset r);
        unfold given_or_stored; first [done | congruence].
    + by cbn.
  - intros other preset r w' Htemp Hmode Hother Hpreset Hcall.
    eexists. split.
    + unfold set_temp_hold. unfold bind at 1, gets. cbn [snd].
      rewrite Hmode. cbn [HVACMode_eqb].
      unfold bind at 1. unfold bind at 1, entity_item, DaikinSkyport.getitem.
      cbn [fst snd]. rewrite Hother. cbn [ret local fst snd].
      unfold bind at 1. cbn [ret]. unfold bind at 1. cbn [ret].
      unfold bind at 1.
      rewrite (set_auto_temp_hold_given other temp w w' e preset r);
        unfold given_or_stored; first [done | congruence].
    + by cbn.
Qed.

End HoldFacts.


(* ===================================================================== *)
(** * More on the normaliser *)
(* ===================================================================== *)

Section NormalizerFrame.
Context (K : const_py).

(** A statement that leaves every field the record already has, those
    named in [except] apart. *)
Definition keeps (except : list string) (s : stmt) : Prop :=
  forall (d : dict) (k : string) (v : value),
    d !! k = Some v -> k ∉ except -> s d !! k = Some v.

Lemma keeps_assign (except : list string) (k : string) (e : dict -> value) :
  k ∈ except -> keeps except (assign k e).
Proof.
  intros Hk d k' v Hd Hne. unfold assign.
  rewrite lookup_insert_ne; [done |]. intros ->. contradiction.
Qed.

Lemma keeps_missing (except : list string) (k : string) (e : dict -> value) :
  keeps except (when (fun d => negb (contains k d)) (assign k e)).
Proof.
  intros d k' v Hd _. unfold when, assign, contains.
  destruct (d !! k) eqn:E; [done |]. cbn [negb].
  rewrite lookup_insert_ne; [done |]. intros ->. congruence.
Qed.

Lemma keeps_backfill (except : list string) (k k2 : string) :
  keeps except
    (when (fun d => negb (contains k d) && contains k2 d)
       (assign k (fun d => get d k2))).
Proof.
  intros d k' v Hd _. unfold when, assign, contains.
  destruct (d !! k) eqn:E; [done |]. cbn [negb andb].
  destruct (d !! k2); [| done].
  rewrite lookup_insert_ne; [done |]. intros ->. congruence.
Qed.

Lemma keeps_set_default (except : list string) (k : string)
    (e : dict -> value) :
  keeps except (set_default k e).
Proof.
  intros d k' v Hd _. unfold set_default, setdefault, contains.
  destruct (d !! k) eqn:E; [done |].
  rewrite lookup_insert_ne; [done |]. intros ->. congruence.
Qed.

Lemma keeps_if_else (except : list string) (c : dict -> bool) (s1 s2 : stmt) :
  keeps except s1 -> keeps except s2 -> keeps except (if_else c s1 s2).
Proof.
  intros H1 H2 d k v Hd Hk. unfold if_else.
  destruct (c d); [by apply H1 | by apply H2].
Qed.

Lemma keeps_block (except : list string) (L : list stmt) :
  Forall (keeps except) L -> keeps except (block L).
Proof.
  unfold block. induction 1 as [| s L Hs _ IH]; intros d k v Hd Hk; [done |].
  cbn [fold_left]. apply IH; [| done]. by apply Hs.
Qed.

(** The normaliser never drops or changes a field the API sent, save
    [device_type] and [wallUnitFanModeValue], which it assigns. *)
Theorem normalize_keeps_received_fields (d : dict) (k : string) (v : value) :
  d !! k = Some v ->
  k <> "device_type"%string -> k <> "wallUnitFanModeValue"%string ->
  DaikinSkyport._normalize_device_info K d !! k = Some v.
Proof.
  intros Hd Ht Hf. unfold DaikinSkyport._normalize_device_info.
  destruct (is_empty d); [done |].
  destruct (DaikinSkyport._is_wall_unit d); [| done].
  assert (Hin1 : "device_type"%string
                 ∈ ["device_type"; "wallUnitFanModeValue"]%string)
    by repeat constructor.
  assert (Hin2 : "wallUnitFanModeValue"%string
                 ∈ ["device_type"; "wallUnitFanModeValue"]%string)
    by repeat constructor.
  apply (keeps_block ["device_type"; "wallUnitFanModeValue"]%string);
    [| done |].
  - repeat first
      [ apply Forall_nil_2
      | apply Forall_cons_2
      | apply keeps_missing
      | apply keeps_backfill
      | apply keeps_set_default
      | apply keeps_if_else
      | apply keeps_assign; assumption ].
  - intros Hin. apply elem_of_cons in Hin as [-> | Hin]; [done |].
    apply elem_of_cons in Hin as [-> | Hin]; [done |].
    by apply elem_of_nil in Hin.
Qed.

(** The fields a normalised wall-unit record is given when they are
    missing. *)
Definition wall_unit_defaults : list string :=
  ["mode"; "wallUnitFanModeValue"; "geofencingAway"; "schedOverride";
   "schedEnabled"; "fanCirculate"; "fanCirculateSpeed"; "nightModeActive";
   "nightModeEnabled"; "displayLockPIN"; "alertMediaAirFilterDays";
   "statFirmware"]%string.

Lemma wall_unit_not_empty (d : dict) :
  DaikinSkyport._is_wall_unit d = true -> is_empty d = false.
Proof.
  intros Hw. destruct (is_empty d) eqn:He; [| done].
  unfold is_empty in He. apply Nat.eqb_eq, map_size_empty_iff in He.
  by subst d.
Qed.

Lemma settled_wall_unit_is_complete (n : dict) :
  Forall (fun x => ok x n) (wall_unit_branch K) ->
  n !! "device_type" = Some (VStr "wall_unit")
  /\ Forall (fun k => is_Some (n !! k)) wall_unit_defaults.
Proof.
  intros Hok. unfold wall_unit_branch in Hok.
  repeat match type of Hok with
         | Forall _ (_ :: _) =>
             let H := fresh "Hk" in
             apply Forall_cons in Hok as [H Hok];
             cbn [ok settle_const settle_missing settle_either
                  settle_backfill settle_default] in H
         end.
  split; [assumption |]. unfold wall_unit_defaults.
  repeat (apply Forall_cons_2; [try assumption |]); [| apply Forall_nil_2].
  destruct (is_True (get n "iduOnOff") && _);
    [rewrite Hk1; by eexists | assumption].
Qed.

(** A normalised wall-unit record is marked as one and has every field the
    central code path reads. *)
Theorem normalized_wall_unit_is_complete (d : dict) :
  DaikinSkyport._is_wall_unit d = true ->
  DaikinSkyport._normalize_device_info K d !! "device_type"
  = Some (VStr "wall_unit")
  /\ Forall
       (fun k => is_Some (DaikinSkyport._normalize_device_info K d !! k))
       wall_unit_defaults.
Proof.
  intros Hw. pose proof (wall_unit_not_empty d Hw) as He.
  rewrite (normalize_wall_unit K d He Hw).
  apply settled_wall_unit_is_complete.
  apply run_all_ok, wall_unit_branch_ordered.
Qed.

End NormalizerFrame.


(* ===================================================================== *)
(** * More on tokens and requests *)
(* ===================================================================== *)

Section TokenFacts.

Import DaikinSkyport.

(** The three token calls leave the cached records, the list of devices
    and the skip flag as they were, and every exchange they make is a
    POST. *)
Theorem token_calls_touch_tokens_only (w : world) :
  token_frame w (snd (refresh_tokens w))
  /\ token_frame w (snd (request_tokens w))
  /\ token_frame w (snd (write_tokens_to_file w)).
Proof.
  split; [apply refresh_tokens_frames |].
  split; [apply request_tokens_frames | apply write_tokens_to_file_frames].
Qed.

(** [refresh_tokens] answers [True] whenever [request_tokens] did not
    return [None]: with the refresh rejected and the login rejected as
    well, it still answers [True], and both tokens are the old ones. *)
Theorem refresh_tokens_true_after_rejected_login (w : world)
    (email password : value) (refused rejected : response)
    (replies : list http_reply) :
  user_email (self w) = Some email ->
  user_password (self w) = Some password ->
  net w = Reply refused :: Reply rejected :: replies ->
  status_code refused <> 200 -> status_code rejected <> 200 ->
  exists w',
    refresh_tokens w = (Ret true, w')
    /\ access_token (self w') = access_token (self w)
    /\ refresh_token (self w') = refresh_token (self w)
    /\ net w' = replies
    /\ map method (sent w') = map method (sent w) ++ ["POST"; "POST"]%string.
Proof.
  intros He Hp Hnet H1 H2.
  apply Z.eqb_neq in H1, H2.
  eexists. split.
  - unfold refresh_tokens.
    unfold bind at 1, attr. rewrite He.
    unfold bind at 1, gets. unfold bind at 1, http. rewrite Hnet.
    rewrite H1. unfold bind at 1, request_tokens.
    unfold bind at 1, attr. cbn [self]. rewrite He.
    unfold bind at 1. cbn [self]. rewrite Hp.
    unfold bind at 1, http. cbn [net]. rewrite H2. reflexivity.
  - cbn [self sent net]. repeat split; try reflexivity.
    by rewrite !map_app, <- app_assoc.
Qed.

(** [refresh_tokens] answers [False] in one case only: the refresh was
    rejected and the login that followed was accepted without a refresh
    token. *)
Theorem refresh_tokens_false_only_without_refresh_token (w w' : world) :
  refresh_tokens w = (Ret false, w') ->
  refresh_token (self w') = VNone
  /\ exists refused accepted replies,
      net w = Reply refused :: Reply accepted :: replies
      /\ status_code refused <> 200 /\ status_code accepted = 200.
Proof.
  unfold refresh_tokens.
  unfold bind at 1, attr.
  destruct (user_email (self w)) as [email |] eqn:He; [| discriminate].
  unfold bind at 1, gets. unfold bind at 1, http.
  destruct (net w) as [| [refused |] nt] eqn:Hnet; try discriminate.
  destruct (status_code refused =? 200) eqn:H1.
  { unfold bind at 1.
    destruct (lift_outcome _ _) as [[a | e] w1]; [| discriminate].
    unfold bind at 1, set_attr, modify. unfold bind at 1, gets.
    unfold bind at 1.
    destruct (file_based_config _);
      [destruct (write_tokens_to_file _) as [[[] | e] w2] |];
      discriminate. }
  apply Z.eqb_neq in H1.
  unfold bind at 1, request_tokens.
  unfold bind at 1, attr. cbn [self].
  rewrite He. unfold bind at 1. cbn [self].
  destruct (user_password (self w)) as [password |]; [| discriminate].
  unfold bind at 1, http. cbn [net].
  destruct nt as [| [accepted |] replies]; try discriminate.
  destruct (status_code accepted =? 200) eqn:H2; [| discriminate].
  apply Z.eqb_eq in H2.
  destruct (resp_json accepted) as [| json_data | l]; try discriminate.
  unfold bind at 1, lift_outcome.
  destruct (getitem json_data "accessToken") as [a | e]; [| discriminate].
  unfold bind at 1, set_attr, modify.
  unfold bind at 1.
  destruct (getitem json_data "refreshToken") as [r | e]; [| discriminate].
  unfold bind at 1.
  destruct (is_None r) eqn:Hr.
  - intros [= <-]. cbn. split; [by destruct r | eauto 10].
  - unfold bind at 1, gets. unfold bind at 1.
    destruct (file_based_config _);
      [destruct (write_tokens_to_file _) as [[[] | e] w2] |];
      discriminate.
Qed.

End TokenFacts.


Section RequestMore.
Context (K : const_py).

Import DaikinSkyport.

(** A request answered 200 returns the response; one PUT went to the
    device's URL with the bearer token and the body, one reply was
    consumed, and the cached records are as they were. *)
Theorem make_request_returns_the_response (index body : pyobj)
    (log_msg_action : log_msg) (w : world) (l : loc) (id tok : string)
    (request : response) (replies : list http_reply) :
  locate (thermostats (self w)) index = Ret l ->
  heap w l !! "id" = Some (VStr id) ->
  access_token (self w) = VStr tok ->
  net w = Reply request :: replies ->
  status_code request = 200 ->
  exists w',
    make_request index body log_msg_action w = (Ret (Some request), w')
    /\ sent w' = sent w ++ [the_put id tok body]
    /\ net w' = replies /\ heap w' = heap w
    /\ skip_next (self w') = true.
Proof.
  intros Hl Hid Htok Hnet Hst.
  rewrite (make_request_unfold index body log_msg_action w l id tok) by done.
  cbv zeta. rewrite Hnet, Hst. cbn [Z.eqb Pos.eqb].
  eexists. split; [reflexivity |]. cbn. by rewrite Hnet.
Qed.

(** A 401 whose body has no [error] field is not handled: reading the
    field raises [KeyError], after the one PUT and before any refresh. *)
Theorem make_request_401_without_error_field (index body : pyobj)
    (log_msg_action : log_msg) (w : world) (l : loc) (id tok : string)
    (request : response) (replies : list http_reply) (fields : dict) :
  locate (thermostats (self w)) index = Ret l ->
  heap w l !! "id" = Some (VStr id) ->
  access_token (self w) = VStr tok ->
  net w = Reply request :: replies ->
  status_code request = 401 ->
  resp_json request = JObj fields -> fields !! "error" = None ->
  exists w',
    make_request index body log_msg_action w = (Raise (KeyError "error"), w')
    /\ sent w' = sent w ++ [the_put id tok body].
Proof.
  intros Hl Hid Htok Hnet Hst Hjson Herr.
  rewrite (make_request_unfold index body log_msg_action w l id tok) by done.
  cbv zeta. rewrite Hnet, Hst, Hjson. cbn [Z.eqb Pos.eqb json_item].
  unfold getitem. rewrite Herr.
  eexists. split; reflexivity.
Qed.

(** A reply that is neither 200 nor 401 gives [None] when its body is
    JSON; the log line decodes the body, so a body that is not JSON
    raises instead. *)
Theorem make_request_other_status (index body : pyobj)
    (log_msg_action : log_msg) (w : world) (l : loc) (id tok : string)
    (request : response) (replies : list http_reply) :
  locate (thermostats (self w)) index = Ret l ->
  heap w l !! "id" = Some (VStr id) ->
  access_token (self w) = VStr tok ->
  net w = Reply request :: replies ->
  status_code request <> 200 -> status_code request <> 401 ->
  fst (make_request index body log_msg_action w)
  = match resp_json request with
    | JInvalid => Raise JSONDecodeError
    | _ => Ret None
    end.
Proof.
  intros Hl Hid Htok Hnet H200 H401.
  apply Z.eqb_neq in H200, H401.
  rewrite (make_request_unfold index body log_msg_action w l id tok) by done.
  cbv zeta. rewrite Hnet, H200, H401.
  by destruct (resp_json request).
Qed.

(** An index that names no cached device raises before anything is sent;
    the skip flag is set all the same. *)
Theorem make_request_without_device (index body : pyobj)
    (log_msg_action : log_msg) (w : world) (e : exn) :
  locate (thermostats (self w)) index = Raise e ->
  exists w',
    make_request index body log_msg_action w = (Raise e, w')
    /\ sent w' = sent w /\ net w' = net w /\ heap w' = heap w
    /\ skip_next (self w') = true.
Proof.
  intros Hl. rewrite (make_request_no_device index body log_msg_action w e Hl).
  eexists. split; [reflexivity |]. by cbn.
Qed.

(** Whatever the replies, a mutation call neither adds nor removes a
    cached device, and what it sends is nothing, or one PUT followed by
    token POSTs. *)
Theorem mutation_call_keeps_the_devices (m : mutation) (w : world) :
  thermostats (self (snd (call K m w))) = thermostats (self w)
  /\ next_loc (snd (call K m w)) = next_loc w
  /\ (sent (snd (call K m w)) = sent w
      \/ exists put posts,
          sent (snd (call K m w)) = sent w ++ put :: posts
          /\ method put = "PUT"%string
          /\ Forall (fun c => method c = "POST"%string) posts).
Proof.
  pose proof (call_reached K m w) as Hr.
  inversion Hr as [o w' [(Hn & Hself & Hnet & Hsent) Hheap] Hsame Ho Heq
                  | w1 b msg [(Hn & Hself & Hnet & Hsent) Hheap] Hc Heq].
  - cbn [snd]. rewrite Hself, Hn, Hsent. split; [done |]. split; [done |].
    by left.
  - destruct (make_request_frame (OVal (index_of m)) b msg w1)
      as [_ Hnext Hths _ Hs].
    rewrite Hths, Hnext, Hself, Hn. split; [done |]. split; [done |].
    destruct Hs as [Hs | (put & posts & Hs & Hm & _ & Hposts)];
      rewrite Hs, Hsent; [by left |].
    right. by exists put, posts.
Qed.

(** A poll that is answered with another status than 200 raises
    [ExpiredTokenError] and marks the client as not authenticated; the
    cached devices are as they were. *)
Theorem get_thermostats_rejected (w : world) (tok : string)
    (request : response) (replies : list http_reply) :
  access_token (self w) = VStr tok ->
  net w = Reply request :: replies ->
  status_code request <> 200 ->
  exists w',
    get_thermostats K w = (Raise ExpiredTokenError, w')
    /\ authenticated (self w') = false
    /\ thermostats (self w') = thermostats (self w)
    /\ heap w' = heap w
    /\ map method (sent w') = map method (sent w) ++ ["GET"%string].
Proof.
  intros Htok Hnet Hst. apply Z.eqb_neq in Hst.
  eexists. split.
  - unfold get_thermostats. unfold bind at 1, gets. rewrite Htok.
    unfold bind at 1, lift_outcome. cbn [str_add].
    unfold bind at 1, http. rewrite Hnet, Hst. reflexivity.
  - cbn. repeat split; try reflexivity. by rewrite map_app.
Qed.

(** A poll that gets no reply returns [None]; nothing of the client
    changes. *)
Theorem get_thermostats_unanswered (w : world) (tok : string)
    (replies : list http_reply) :
  access_token (self w) = VStr tok ->
  net w = NoReply :: replies ->
  exists w',
    get_thermostats K w = (Ret None, w')
    /\ self w' = self w /\ heap w' = heap w.
Proof.
  intros Htok Hnet.
  eexists. split.
  - unfold get_thermostats. unfold bind at 1, gets. rewrite Htok.
    unfold bind at 1, lift_outcome. cbn [str_add].
    unfold bind at 1, http. rewrite Hnet. reflexivity.
  - by cbn.
Qed.

End RequestMore.


(* ===================================================================== *)
(** * What a poll may change *)
(* ===================================================================== *)

Section PollFacts.
Context (K : const_py).

Import DaikinSkyport.

(** A poll allocates new record objects and rebinds entries of the list
    of devices to them: the objects that existed keep their contents, the
    list never gets shorter, the skip flag and the tokens stay, and every
    exchange is a GET. *)
Record poll_frame (w w' : world) : Prop := {
  pf_next : (next_loc w <= next_loc w')%nat;
  pf_heap : forall l, (l < next_loc w)%nat -> heap w' l = heap w l;
  pf_length :
    (length (thermostats (self w)) <= length (thermostats (self w')))%nat;
  pf_skip : skip_next (self w') = skip_next (self w);
  pf_access : access_token (self w') = access_token (self w);
  pf_refresh : refresh_token (self w') = refresh_token (self w);
  pf_sent : exists calls,
      sent w' = sent w ++ calls
      /\ Forall (fun c => method c = "GET"%string) calls
}.

Lemma poll_frame_refl (w : world) : poll_frame w w.
Proof.
  split; try done. exists []. split; [by rewrite app_nil_r | constructor].
Qed.

Lemma poll_frame_trans (w1 w2 w3 : world) :
  poll_frame w1 w2 -> poll_frame w2 w3 -> poll_frame w1 w3.
Proof.
  intros [Hn Hh Hl Hs Ha Hr (p & Hp & Hpp)]
         [Hn' Hh' Hl' Hs' Ha' Hr' (q & Hq & Hqq)].
  split; try congruence; try lia.
  - intros l Hlt. rewrite Hh' by lia. by apply Hh.
  - exists (p ++ q). split; [by rewrite Hq, Hp, app_assoc | by apply Forall_app].
Qed.

Definition polls {A} (m : M world A) : Prop :=
  forall w, poll_frame w (snd (m w)).

Lemma polls_read {A} (m : M world A) :
  (forall w, snd (m w) = w) -> polls m.
Proof. intros H w. rewrite H. apply poll_frame_refl. Qed.

Lemma polls_bind {A B} (m : M world A) (k : A -> M world B) :
  polls m -> (forall a, polls (k a)) -> polls (bind m k).
Proof.
  intros Hm Hk w. unfold bind. specialize (Hm w).
  destruct (m w) as [[a | e] w1]; cbn [snd] in *; [| done].
  eapply poll_frame_trans; [exact Hm | apply Hk].
Qed.

Lemma polls_set_attr (f : client -> client) :
  (forall c, (length (thermostats c) <= length (thermostats (f c)))%nat
             /\ skip_next (f c) = skip_next c
             /\ access_token (f c) = access_token c
             /\ refresh_token (f c) = refresh_token c) ->
  polls (set_attr f).
Proof.
  intros Hf w. destruct (Hf (self w)) as (Hl & Hs & Ha & Hr).
  split; try done. exists []. split; [by rewrite app_nil_r | constructor].
Qed.

Lemma polls_http_get (c : http_call) :
  method c = "GET"%string -> polls (http c).
Proof.
  intros Hc w. unfold http.
  destruct (net w); split; try done;
    exists [c]; split; try reflexivity; by repeat constructor.
Qed.

Lemma polls_alloc (d : dict) : polls (alloc d).
Proof.
  intros w. split; cbn; try done; try lia.
  - intros l Hl. destruct (Nat.eqb_spec l (next_loc w)); [lia | done].
  - exists []. split; [by rewrite app_nil_r | constructor].
Qed.

Ltac polls_step :=
  first
    [ apply polls_read; reflexivity
    | apply polls_alloc
    | apply polls_http_get; reflexivity
    | apply polls_set_attr; intros ?; cbn;
      rewrite ?length_insert, ?length_app; repeat split; lia
    | apply polls_bind; [| intros ?]
    | match goal with
      | |- polls (if ?b then _ else _) => destruct b
      | |- polls (match ?x with _ => _ end) => destruct x
      end ].

Lemma polls_thermostat_dict (index : value) : polls (thermostat_dict index).
Proof.
  apply polls_read. intros w. unfold thermostat_dict, bind, thermostat_at.
  by destruct (locate _ _).
Qed.

Lemma get_thermostat_info_polls (deviceid : value) :
  polls (get_thermostat_info K deviceid).
Proof. unfold get_thermostat_info. cbv zeta. repeat polls_step. Qed.

Lemma overwrite_matching_polls (id : value) (info : loc) (indices : list nat) :
  forall overwrite, polls (overwrite_matching id info indices overwrite).
Proof.
  induction indices as [| index rest IH]; intros overwrite;
    cbn [overwrite_matching]; [by apply polls_read |].
  repeat first [ apply polls_thermostat_dict | apply IH | polls_step ].
Qed.

Lemma get_thermostats_step_polls (thermostat : dict) :
  polls (get_thermostats_step K thermostat).
Proof.
  unfold get_thermostats_step.
  repeat first [ apply get_thermostat_info_polls
               | apply overwrite_matching_polls | polls_step ].
Qed.

Lemma for_each_polls {A} (l : list A) (f : A -> M world unit) :
  (forall a, polls (f a)) -> polls (for_each l f).
Proof.
  intros Hf. induction l as [| a r IH]; cbn [for_each];
    [by apply polls_read |].
  apply polls_bind; [apply Hf | intros _; apply IH].
Qed.

Lemma get_thermostats_polls : polls (get_thermostats K).
Proof.
  unfold get_thermostats.
  repeat first [ apply for_each_polls; intros ?
               | apply get_thermostats_step_polls | polls_step ].
Qed.

(** [get_thermostats] stays within the frame of a poll: in particular a
    record object an entity holds is never written by it, and a device
    once cached stays in the list. *)
Theorem get_thermostats_keeps_old_records (w : world) :
  poll_frame w (snd (get_thermostats K w)).
Proof. apply get_thermostats_polls. Qed.

(** [update] either skips (and only clears the flag) or polls: the
    record objects that exist keep their contents either way. *)
Theorem update_keeps_old_records (w : world) (l : loc) :
  (l < next_loc w)%nat -> heap (snd (update K w)) l = heap w l.
Proof.
  intros Hl. unfold update. unfold bind at 1, gets.
  destruct (skip_next (self w)); [reflexivity |].
  by apply (pf_heap _ _ (get_thermostats_polls w)).
Qed.

End PollFacts.


(* ===================================================================== *)
(** * More on modes *)
(* ===================================================================== *)

Section ModeFacts.
Context (K : const_py).

Import HA.

(** The keys of a literal dictionary are keys written in it. *)
Lemma pydict_set_keys {A} (k : value) (a : A) (l : list (value * A))
    (x : value) :
  x ∈ (fst <$> pydict_set k a l) -> x = k \/ x ∈ (fst <$> l).
Proof.
  induction l as [| [k' a'] l IH]; cbn.
  - rewrite list_elem_of_singleton. by left.
  - destruct (py_eq k k'); cbn; rewrite !elem_of_cons; intuition.
Qed.

Lemma pydict_of_keys {A} (pairs : list (value * A)) (x : value) :
  x ∈ (fst <$> pydict_of pairs) -> x ∈ (fst <$> pairs).
Proof.
  unfold pydict_of.
  assert (H : forall acc,
             x ∈ (fst <$> fold_left
                    (fun acc p => pydict_set (fst p) (snd p) acc) pairs acc) ->
             x ∈ (fst <$> acc) \/ x ∈ (fst <$> pairs)).
  { induction pairs as [| [k a] pairs IH]; intros acc Hx; cbn in *.
    - by left.
    - destruct (IH _ Hx) as [Hacc | Hp].
      + apply pydict_set_keys in Hacc as [-> | Hacc].
        * right. by left.
        * by left.
      + right. by right. }
  intros Hx. destruct (H [] Hx) as [Hnil | Hp]; [| done].
  by apply elem_of_nil in Hnil.
Qed.

(** The vendor codes of the modes. *)
Definition mode_codes : list Z :=
  [DAIKIN_HVAC_MODE_OFF K; DAIKIN_HVAC_MODE_HEAT K; DAIKIN_HVAC_MODE_COOL K;
   DAIKIN_HVAC_MODE_AUTO K; DAIKIN_HVAC_MODE_DRY K].

(** The client's [_wall_unit_mode] answers a mode code or the fan-only
    default, whatever the record holds. *)
Theorem client_wall_unit_mode_is_a_code (d : dict) :
  DaikinSkyport._wall_unit_mode K d
  ∈ WALL_UNIT_FAN_MODE_DEFAULT K :: mode_codes.
Proof.
  unfold DaikinSkyport._wall_unit_mode, mode_codes. cbv zeta.
  destruct (_ || _); [set_solver |].
  destruct (py_in _ _); [set_solver |].
  destruct (pydict_get _ _) as [c |] eqn:Hc; cbn [default]; [| set_solver].
  apply pydict_get_values, pydict_of_values in Hc. cbn in Hc. set_solver.
Qed.

Lemma daikin_mode_from_hass_unlisted (h : HVACMode) :
  h ∉ (snd <$> Climate.DAIKIN_HVAC_TO_HASS K) ->
  Climate._daikin_mode_from_hass K h = VInt (DAIKIN_HVAC_MODE_OFF K).
Proof.
  intros Hh. unfold Climate._daikin_mode_from_hass.
  destruct (filter _ _) as [| [k v] r] eqn:Hf; [done |].
  assert (Hin : (k, v) ∈ filter
            (fun kv => HVACMode_eqb (snd kv) h = true)
            (Climate.DAIKIN_HVAC_TO_HASS K)) by (rewrite Hf; by left).
  apply list_elem_of_filter in Hin as [Hv Hin]. cbn in Hv.
  exfalso. apply Hh. apply list_elem_of_fmap. exists (k, v). split; [| done].
  cbn. by destruct v, h.
Qed.

Lemma daikin_mode_from_hass_code (hvac_mode : HVACMode) :
  exists c,
    Climate._daikin_mode_from_hass K hvac_mode = VInt c
    /\ c ∈ DAIKIN_HVAC_MODE_AUXHEAT K :: mode_codes.
Proof.
  unfold Climate._daikin_mode_from_hass, mode_codes.
  destruct (filter _ _) as [| [k v] r] eqn:Hf;
    [eexists; split; [done |]; set_solver |].
  assert (Hin : (k, v) ∈ filter
            (fun kv => HVACMode_eqb (snd kv) hvac_mode = true)
            (Climate.DAIKIN_HVAC_TO_HASS K)) by (rewrite Hf; by left).
  apply list_elem_of_filter in Hin as [_ Hin].
  assert (Hk : k ∈ (fst <$> Climate.DAIKIN_HVAC_TO_HASS K)).
  { apply list_elem_of_fmap. by exists (k, v). }
  apply pydict_of_keys in Hk. cbn in Hk.
  rewrite !elem_of_cons, elem_of_nil in Hk.
  destruct Hk as [-> | [-> | [-> | [-> | [-> | [-> | []]]]]]];
    eexists; (split; [reflexivity |]); set_solver.
Qed.

Lemma daikin_mode_from_hass_total (hvac_mode : HVACMode) :
  exists c, Climate._daikin_mode_from_hass K hvac_mode = VInt c.
Proof. destruct (daikin_mode_from_hass_code hvac_mode) as (c & Hc & _). eauto. Qed.

(** [_daikin_mode_from_hass] always answers a vendor code: a mode that
    has none ([FAN_ONLY], [HEAT_COOL]) is answered with the code of
    [OFF], never with [None]. *)
Theorem daikin_mode_from_hass_is_a_code (hvac_mode : HVACMode) :
  (exists c,
      Climate._daikin_mode_from_hass K hvac_mode = VInt c
      /\ c ∈ DAIKIN_HVAC_MODE_AUXHEAT K :: mode_codes)
  /\ Climate._daikin_mode_from_hass K FAN_ONLY
     = VInt (DAIKIN_HVAC_MODE_OFF K)
  /\ Climate._daikin_mode_from_hass K HEAT_COOL
     = VInt (DAIKIN_HVAC_MODE_OFF K).
Proof.
  assert (Hvals : forall h,
             h ∈ (snd <$> Climate.DAIKIN_HVAC_TO_HASS K) ->
             h ∈ [HEAT; COOL; AUTO; DRY; OFF; HEAT]).
  { intros h Hh. by apply pydict_of_values in Hh. }
  split; [apply daikin_mode_from_hass_code |].
  split; apply daikin_mode_from_hass_unlisted; intros Hh;
    apply Hvals in Hh; set_solver.
Qed.

(** The mode list of a wall unit ends with [OFF], lists no mode twice,
    and has [AUTO] exactly when the record has an auto setpoint, then in
    front. *)
Theorem wall_unit_operation_list_shape (t : dict) :
  last (Climate._build_wall_unit_operation_list K t) = Some OFF
  /\ NoDup (Climate._build_wall_unit_operation_list K t)
  /\ (AUTO ∈ Climate._build_wall_unit_operation_list K t <->
      is_Some (t !! "iduAutoSetpoint"))
  /\ (AUTO ∈ Climate._build_wall_unit_operation_list K t ->
      head (Climate._build_wall_unit_operation_list K t) = Some AUTO).
Proof.
  unfold Climate._build_wall_unit_operation_list. cbv zeta.
  rewrite <- (contains_true t "iduAutoSetpoint").
  destruct (contains "iduHeatSetpoint" t), (contains "iduCoolSetpoint" t),
    (contains "iduAutoSetpoint" t), (_ || _), (_ || _);
    cbn [app existsb HVACMode_eqb orb negb last head];
    (split; [reflexivity |]);
    (split; [repeat constructor; rewrite ?elem_of_cons, ?elem_of_nil;
             intuition discriminate |]);
    rewrite ?elem_of_cons, ?elem_of_nil; intuition discriminate.
Qed.

End ModeFacts.


(* ===================================================================== *)
(** * More on the commands of the entity *)
(* ===================================================================== *)

Module Commands.

Section Entity.
Context (K : const_py).

Import HA DaikinSkyport Climate.

(** [Thermostat.set_hvac_mode].  The answer of the client is dropped; the
    early [return] of the central branch skips the two assignments. *)
Definition set_hvac_mode (hvac_mode : HVACMode)
  : M (world * Thermostat) unit :=
  let! e := gets snd in
  let! returned :=
    (if self_is_wall_unit e then
       let! r := on_client (set_wall_unit_mode K (thermostat_index e)
                              (ModeEnum hvac_mode)) in
       ret false
     else
       let daikin_value := _daikin_mode_from_hass K hvac_mode in
       if is_None daikin_value then ret true
       else
         let! r := on_client (DaikinSkyport.set_hvac_mode (thermostat_index e)
                                daikin_value) in
         ret false) in
  if returned then ret tt
  else
    do! on_entity (modify (upd_hvac_mode hvac_mode)) in
    on_entity (modify (upd_update_without_throttle true)).

End Entity.

End Commands.

Section CommandFacts.
Context (K : const_py).

Import HA Climate.

(** In [HEAT] the single-setpoint hold runs through. *)
Lemma set_temp_hold_heat (temp other : value) (w w' : DaikinSkyport.world)
    (e : Thermostat) (preset : string) (r : option DaikinSkyport.response) :
  is_None temp = false ->
  _hvac_mode e = HEAT ->
  DaikinSkyport.heap w (thermostat e) !! "cspHome" = Some other ->
  _preset_mode e = Some preset ->
  client_hold preset (thermostat_index e) other temp
    (DaikinSkyport.heap w (thermostat e)) w = (Ret r, w') ->
  set_temp_hold temp (w, e)
  = (Ret tt,
     (w', upd_heat_setpoint temp
            (upd_cool_setpoint other
               (upd_update_without_throttle true
                  (upd_heat_setpoint temp (upd_cool_setpoint other e)))))).
Proof.
  intros Htemp Hmode Hother Hpreset Hcall.
  unfold set_temp_hold. unfold bind at 1, gets. cbn [snd].
  rewrite Hmode. cbn [HVACMode_eqb].
  unfold bind at 1. unfold bind at 1, entity_item, DaikinSkyport.getitem.
  cbn [fst snd]. rewrite Hother. cbn [ret local fst snd].
  unfold bind at 1. cbn [ret]. unfold bind at 1. cbn [ret].
  unfold bind at 1.
  rewrite (set_auto_temp_hold_given temp other w w' e preset r);
    unfold given_or_stored; first [done | congruence].
Qed.

(** A central device in [HEAT] that is given one temperature: the hold
    is sent, and then [set_temperature] assigns the two absent range
    arguments to the setpoints, so the entity holds no target temperature
    until the next refresh. *)
Theorem set_temperature_clears_the_setpoints (kwargs : dict)
    (w w' : DaikinSkyport.world) (e : Thermostat) (temp other : value)
    (preset : string) (r : option DaikinSkyport.response) :
  self_is_wall_unit e = false ->
  _hvac_mode e = HEAT ->
  kwargs !! ATTR_TEMPERATURE = Some temp -> is_None temp = false ->
  kwargs !! ATTR_TARGET_TEMP_LOW = None ->
  kwargs !! ATTR_TARGET_TEMP_HIGH = None ->
  DaikinSkyport.heap w (thermostat e) !! "cspHome" = Some other ->
  _preset_mode e = Some preset ->
  client_hold preset (thermostat_index e) other temp
    (DaikinSkyport.heap w (thermostat e)) w = (Ret r, w') ->
  exists e',
    set_temperature K kwargs (w, e) = (Ret tt, (w', e'))
    /\ _heat_setpoint e' = VNone /\ _cool_setpoint e' = VNone
    /\ target_temperature e' = VNone
    /\ _hvac_mode e' = HEAT.
Proof.
  intros Hwall Hmode Htemp Hnone Hlow Hhigh Hother Hpreset Hcall.
  eexists. split.
  - unfold set_temperature. unfold bind at 1, gets. cbn [snd].
    rewrite Hwall. cbn [andb]. unfold get. rewrite Htemp, Hlow, Hhigh.
    cbn [default id]. rewrite Hnone. cbn [is_None negb orb].
    rewrite andb_false_r.
    unfold bind at 1.
    rewrite (set_temp_hold_heat temp other w w' e preset r) by done.
    reflexivity.
  - cbn. unfold target_temperature. cbn. rewrite Hwall, Hmode. by cbn.
Qed.

(** On a central device [Thermostat.set_hvac_mode] records the requested
    mode whenever the client call returns, whatever it returns ([None]
    for a request that failed included); a mode without a vendor code
    is sent as [OFF]. *)
Theorem entity_set_hvac_mode_records_the_mode (hvac_mode : HVACMode)
    (w w' : DaikinSkyport.world) (e : Thermostat)
    (r : option DaikinSkyport.response) :
  self_is_wall_unit e = false ->
  DaikinSkyport.set_hvac_mode (thermostat_index e)
    (_daikin_mode_from_hass K hvac_mode) w = (Ret r, w') ->
  Commands.set_hvac_mode K hvac_mode (w, e)
  = (Ret tt,
     (w', upd_update_without_throttle true (upd_hvac_mode hvac_mode e))).
Proof.
  intros Hwall Hcall. unfold Commands.set_hvac_mode.
  unfold bind at 1, gets. cbn [snd]. rewrite Hwall.
  destruct (daikin_mode_from_hass_total K hvac_mode) as (c & Hc).
  rewrite Hc in *. cbn [is_None].
  unfold bind at 1. unfold bind at 1, on_client. cbn [fst snd].
  rewrite Hcall. reflexivity.
Qed.

End CommandFacts.


(* ===================================================================== *)
(** * Switching a wall unit off *)
(* ===================================================================== *)

Section SwitchOff.
Context (K : const_py).

Import DaikinSkyport.

Lemma py_eq_int_refl (n : Z) : py_eq (VInt n) (VInt n) = true.
Proof. unfold py_eq. cbn [num_of]. apply Qeq_bool_iff. reflexivity. Qed.

(** Up to the request, switching off writes [iduOnOff] and [mode] and
    builds the body [{"iduOnOff": False}]. *)
Lemma set_wall_unit_mode_off (index : value) (hvac_mode : mode_arg)
    (w : world) (l : loc) :
  locate (thermostats (self w)) (OVal index) = Ret l ->
  hvac_mode = ModeEnum HA.OFF
  \/ hvac_mode = ModeVal (VInt (DAIKIN_HVAC_MODE_OFF K)) ->
  exists w1,
    set_wall_unit_mode K index hvac_mode w
    = make_request (OVal index) (ODict {[ "iduOnOff" := VBool false ]})
        (Msg "set wall unit mode") w1
    /\ heap w1 l !! "iduOnOff" = Some (VBool false)
    /\ heap w1 l !! "mode" = Some (VInt (DAIKIN_HVAC_MODE_OFF K))
    /\ sent w1 = sent w.
Proof.
  intros Hl Harg. unfold set_wall_unit_mode. cbv zeta.
  assert (Hoff : py_eq
            match hvac_mode with
            | ModeEnum m => VStr (HA.hvac_value m)
            | ModeVal v => v
            end (VInt (DAIKIN_HVAC_MODE_OFF K))
          || py_eq
               match hvac_mode with
               | ModeEnum m => VStr (HA.hvac_value m)
               | ModeVal v => v
               end (VStr "off") = true).
  { destruct Harg as [-> | ->]; [reflexivity |].
    by rewrite py_eq_int_refl. }
  rewrite Hoff.
  cbv beta iota zeta delta
    [bind ret thermostat_setitem thermostat_at thermostat_dict deref store
     modify gets get_or].
  cbn [heap self with_heap]. rewrite Hl.
  cbn [heap self with_heap]. rewrite Hl.
  cbn [heap self with_heap]. rewrite Hl.
  rewrite !Nat.eqb_refl.
  eexists. split; [reflexivity |].
  cbn [heap with_heap sent]. rewrite !Nat.eqb_refl.
  rewrite lookup_insert_eq. cbn [default].
  rewrite lookup_insert_ne, lookup_insert_eq by done.
  rewrite lookup_insert_eq.
  rewrite (client_wall_unit_mode_off K _ (lookup_insert_eq _ _ _)).
  done.
Qed.

(** After [set_wall_unit_mode] with the mode off, the cached record has
    [iduOnOff] false and the code of off for [mode], so the entity
    resolves it to [OFF]; the body of the request is
    [{"iduOnOff": False}] alone. *)
Theorem switched_off_wall_unit_resolves_off (index : value)
    (hvac_mode : mode_arg) (w : world) (l : loc) :
  locate (thermostats (self w)) (OVal index) = Ret l ->
  hvac_mode = ModeEnum HA.OFF
  \/ hvac_mode = ModeVal (VInt (DAIKIN_HVAC_MODE_OFF K)) ->
  heap (snd (set_wall_unit_mode K index hvac_mode w)) l !! "iduOnOff"
  = Some (VBool false)
  /\ heap (snd (set_wall_unit_mode K index hvac_mode w)) l !! "mode"
     = Some (VInt (DAIKIN_HVAC_MODE_OFF K))
  /\ Climate._wall_unit_hvac_mode K
       (heap (snd (set_wall_unit_mode K index hvac_mode w)) l) = HA.OFF
  /\ forall put,
      put ∈ sent_by w (snd (set_wall_unit_mode K index hvac_mode w)) ->
      method put = "PUT"%string ->
      payload put = ODict {[ "iduOnOff" := VBool false ]}.
Proof.
  intros Hl Harg.
  destruct (set_wall_unit_mode_off index hvac_mode w l Hl Harg)
    as (w1 & -> & Hon & Hmode & Hsent).
  pose proof (make_request_frame (OVal index)
                {[ "iduOnOff" := VBool false ]}
                (Msg "set wall unit mode") w1) as Hf.
  rewrite (rf_heap _ _ _ Hf).
  split; [done |]. split; [done |].
  split; [by apply wall_unit_hvac_mode_off |].
  intros put Hin Hput.
  exact (sent_by_request _ w w1 _ put Hsent Hf Hin Hput).
Qed.

End SwitchOff.


(* ===================================================================== *)
(** * The constructor and the stored configuration *)
(* ===================================================================== *)

Module Constructor.

Import DaikinSkyport.

(** [DaikinSkyport.__init__] called with a [config] dictionary (the path
    that reads no file).  An attribute the constructor does not assign
    does not exist. *)
Definition __init__ (config : dict) : client :=
  {| thermostats := []; thermostatlist := JList [];
     authenticated := false; skip_next := false;
     file_based_config := false;
     user_email := config !! "EMAIL";
     user_password := config !! "PASSWORD";
     access_token := get_or config "ACCESS_TOKEN" (VStr EmptyString);
     refresh_token := get_or config "REFRESH_TOKEN" (VStr EmptyString);
     config_filename := None; config := None |}.

End Constructor.

Section ConfigFacts.
Context (K : const_py).

Import DaikinSkyport Constructor.

(** Round trip of the stored configuration: what [write_tokens_to_file]
    stores (without a file) gives, passed to the constructor, a client
    with the same tokens and email, and without a password. *)
Theorem stored_config_restores_tokens (w : world) (email : value) :
  file_based_config (self w) = false ->
  user_email (self w) = Some email ->
  exists stored,
    config (self (snd (write_tokens_to_file w))) = Some stored
    /\ fst (write_tokens_to_file w) = Ret tt
    /\ access_token (__init__ stored) = access_token (self w)
    /\ refresh_token (__init__ stored) = refresh_token (self w)
    /\ user_email (__init__ stored) = Some email
    /\ user_password (__init__ stored) = None.
Proof.
  intros Hfb He.
  assert (Hrun : write_tokens_to_file w
                 = (Ret tt,
                    with_self
                      (with_config
                         (Some (<["EMAIL" := email]>
                                  (<["REFRESH_TOKEN" := refresh_token (self w)]>
                                     (<["ACCESS_TOKEN" := access_token (self w)]>
                                        ∅))))
                         (self w)) w)).
  { unfold write_tokens_to_file.
    unfold bind at 1, gets. unfold bind at 1. unfold bind at 1, attr.
    rewrite He. unfold bind at 1. by rewrite Hfb. }
  rewrite Hrun. eexists. split; [reflexivity |]. split; [reflexivity |].
  cbn [__init__ access_token refresh_token user_email user_password].
  unfold get_or.
  rewrite !lookup_insert_ne by done. rewrite !lookup_insert_eq.
  rewrite !lookup_insert_ne by done. rewrite !lookup_insert_eq.
  rewrite !lookup_insert_ne by done. rewrite lookup_empty.
  done.
Qed.

(** In file-based mode [write_tokens_to_file] reads [self.config_filename],
    which no code assigns: it raises [AttributeError], and so does a
    refresh that was accepted, after it has taken the new access token. *)
Theorem file_based_refresh_raises (w : world) (email a : value)
    (accepted : response) (replies : list http_reply) :
  file_based_config (self w) = true ->
  config_filename (self w) = None ->
  user_email (self w) = Some email ->
  net w = Reply accepted :: replies ->
  status_code accepted = 200 ->
  json_item (resp_json accepted) "accessToken" = Ret a ->
  fst (write_tokens_to_file w) = Raise (AttributeError "config_filename")
  /\ exists w',
      refresh_tokens w = (Raise (AttributeError "config_filename"), w')
      /\ access_token (self w') = a.
Proof.
  intros Hfb Hcf He Hnet Hst Ha. split.
  - unfold write_tokens_to_file.
    unfold bind at 1, gets. unfold bind at 1. unfold bind at 1, attr.
    rewrite He. unfold bind at 1. rewrite Hfb.
    unfold bind at 1. by rewrite Hcf.
  - eexists. split.
    + unfold refresh_tokens. unfold bind at 1, attr. rewrite He.
      unfold bind at 1, gets. unfold bind at 1, http. rewrite Hnet, Hst.
      cbn [Z.eqb Pos.eqb]. unfold bind at 1, lift_outcome. rewrite Ha.
      unfold bind at 1, set_attr, modify. unfold bind at 1, gets.
      cbn [self with_self with_access_token file_based_config].
      rewrite Hfb. unfold bind at 1.
      unfold write_tokens_to_file.
      unfold bind at 1, gets. unfold bind at 1. unfold bind at 1, attr.
      cbn [self with_self with_access_token user_email]. rewrite He.
      unfold bind at 1.
      cbn [self with_self with_access_token file_based_config]. rewrite Hfb.
      unfold bind at 1.
      cbn [self with_self with_access_token config_filename]. rewrite Hcf.
      reflexivity.
    + reflexivity.
Qed.

(** A client made from a configuration without [PASSWORD] has no
    [user_password] attribute: when its refresh is rejected, the login
    that follows raises [AttributeError], after the one POST. *)
Theorem refresh_without_password_raises (cfg : dict) (w : world)
    (email : value) (refused : response) (replies : list http_reply) :
  self w = __init__ cfg ->
  cfg !! "EMAIL" = Some email -> cfg !! "PASSWORD" = None ->
  net w = Reply refused :: replies ->
  status_code refused <> 200 ->
  exists w',
    refresh_tokens w = (Raise (AttributeError "user_password"), w')
    /\ map method (sent w') = map method (sent w) ++ ["POST"%string].
Proof.
  intros Hself He Hp Hnet Hst. apply Z.eqb_neq in Hst.
  eexists. split.
  - unfold refresh_tokens. unfold bind at 1, attr. rewrite Hself.
    cbn [__init__ user_email]. rewrite He.
    unfold bind at 1, gets. unfold bind at 1, http. rewrite Hnet, Hst.
    unfold bind at 1, request_tokens. unfold bind at 1, attr.
    cbn [self __init__ user_email]. rewrite ?Hself.
    cbn [self __init__ user_email]. rewrite He.
    unfold bind at 1. cbn [self __init__ user_password]. rewrite ?Hself.
    cbn [self __init__ user_password]. rewrite Hp. reflexivity.
  - cbn. by rewrite map_app.
Qed.

(** A device that answers 400: with the message
    [DeviceOfflineException] it is skipped ([get_thermostat_info] returns
    [None] and the client counts as authenticated), with any other
    message the call raises [ExpiredTokenError] and the client counts as
    not authenticated.  The cached devices are as they were. *)
Theorem get_thermostat_info_offline (deviceid tok : string) (w : world)
    (request : response) (replies : list http_reply) (fields : dict) :
  access_token (self w) = VStr tok ->
  net w = Reply request :: replies ->
  status_code request = 400 ->
  resp_json request = JObj fields ->
  exists w',
    get_thermostat_info K (VStr deviceid) w
    = ((if py_eq (get fields "message") (VStr "DeviceOfflineException")
        then Ret None else Raise ExpiredTokenError), w')
    /\ authenticated (self w')
       = py_eq (get fields "message") (VStr "DeviceOfflineException")
    /\ heap w' = heap w /\ thermostats (self w') = thermostats (self w).
Proof.
  intros Htok Hnet Hst Hjson.
  unfold get_thermostat_info. unfold bind at 1, lift_outcome.
  cbn [str_add]. unfold bind at 1, gets. rewrite Htok.
  unfold bind at 1. cbn [str_add lift_outcome].
  unfold bind at 1, http. rewrite Hnet. cbv zeta. rewrite Hst, Hjson.
  cbn [Z.leb Z.ltb Z.eqb Z.compare Pos.compare Pos.compare_cont Pos.eqb andb].
  unfold bind at 1, ret.
  destruct (py_eq (get fields "message") (VStr "DeviceOfflineException"));
    eexists; (split; [reflexivity |]); done.
Qed.

End ConfigFacts.


(* ===================================================================== *)
(** * Concrete runs *)
(* ===================================================================== *)

Section ConcreteRuns.

Import DaikinSkyport Example.

(** C1, on a run: the PUT of [set_hvac_mode(0, 1)] is answered 401
    ["authorization_expired"], the token POST is answered with a new
    token, and the call raises [TypeError]; one PUT and one POST were
    sent. *)
Lemma refresh_then_retry_raises_witness :
  set_hvac_mode (VInt 0) (VInt 1) expired_world
  = (Raise TypeError,
     flagged (snd (refresh_tokens
                     (after_put (the_put "dev1" "tok" (ODict heat_body))
                        (snd (thermostat_setitem (VInt 0) "mode" (VInt 1)
                                expired_world))))))
  /\ length (sent (snd (set_hvac_mode (VInt 0) (VInt 1) expired_world)))
     = 2%nat.
Proof.
  pose proof (refresh_then_retry_raises (OVal (VInt 0)) heat_body
                (Msg "set HVAC mode")
                (snd (thermostat_setitem (VInt 0) "mode" (VInt 1)
                        expired_world))
                (snd (refresh_tokens
                        (after_put (the_put "dev1" "tok" (ODict heat_body))
                           (snd (thermostat_setitem (VInt 0) "mode" (VInt 1)
                                   expired_world)))))
                0%nat "dev1" "tok"
                {| status_code := 401;
                   resp_json :=
                     JObj {[ "error" := VStr "authorization_expired" ]} |}
                [token_reply] (VStr "authorization_expired")
                eq_refl eq_refl eq_refl eq_refl eq_refl eq_refl eq_refl
                eq_refl) as [Hcall _].
  split; [exact Hcall | reflexivity].
Defined.

(** C8, as stated, fails: [resume_program] is answered 200, its body went
    out with [schedEnabled], [schedOverride] and [geofencingAway], and the
    cached record of the device holds none of the three. *)
Lemma resume_program_sends_unshadowed_fields :
  exists put b,
    sent (snd (call example_const resume answered_world)) = [put]
    /\ method put = "PUT"%string /\ payload put = ODict b
    /\ b !! "schedEnabled" = Some (VBool true)
    /\ heap (snd (call example_const resume answered_world)) 0%nat
       !! "schedEnabled" = None.
Proof. eexists _, _. by vm_compute. Qed.

(** C8 on a run: the body of [set_hvac_mode(0, 1)] is in the cached
    record when the call returns. *)
Lemma shadowing_calls_write_what_they_send_witness :
  shadows set_heat = true
  /\ forall put,
    put ∈ sent_by answered_world (snd (call example_const set_heat
                                         answered_world)) ->
    method put = "PUT"%string ->
    exists l b,
      locate (thermostats (self answered_world)) (OVal (index_of set_heat))
      = Ret l
      /\ payload put = ODict b
      /\ covered set_heat b
           (heap (snd (call example_const set_heat answered_world)) l).
Proof.
  split; [reflexivity |].
  exact (proj1 (shadowing_calls_write_what_they_send example_const set_heat
                  answered_world) eq_refl).
Defined.

(** A call that stops before the request: in dry mode
    [set_wall_unit_temperature] writes and sends nothing, the skip flag
    stays clear and the next [update] polls. *)
Lemma dry_temperature_call_is_idle :
  skip_next (self (snd (call example_const set_dry_temperature
                          answered_world))) = false
  /\ heap (snd (call example_const set_dry_temperature answered_world)) 0%nat
     = cooling_record
  /\ map method
       (sent (snd (update example_const
                     (snd (call example_const set_dry_temperature
                             answered_world)))))
     = ["GET"%string].
Proof. by vm_compute. Qed.


(** C7 on a run: 21.3 on a cooling wall unit is stored and sent as 21.5
    under [iduCoolSetpoint]. *)
Lemma wall_unit_temperature_rounded_to_half_witness :
  heap (snd (set_wall_unit_temperature example_const (VInt 0)
               (VFloat (213 # 10)) VNone answered_world)) 0%nat
  !! "iduCoolSetpoint" = Some (VFloat (43 # 2))
  /\ exists b posts,
      sent (snd (set_wall_unit_temperature example_const (VInt 0)
                   (VFloat (213 # 10)) VNone answered_world))
      = sent answered_world ++ the_put "dev1" "tok" (ODict b) :: posts
      /\ b !! "iduCoolSetpoint" = Some (VFloat (43 # 2))
      /\ Forall (fun c => method c = "POST"%string) posts.
Proof.
  assert (Hdup : NoDup (setpoint_modes example_const)).
  { apply (bool_decide_unpack _). by vm_compute. }
  destruct (wall_unit_temperature_rounded_to_half example_const (VInt 0)
              (VFloat (213 # 10)) VNone answered_world 0%nat (213 # 10)
              "dev1" "tok" eq_refl eq_refl eq_refl eq_refl Hdup)
    as [(h & whole & Hround & _ & _ & Hset) _].
  injection Hround as <-.
  exact (Hset 2 "iduCoolSetpoint"%string (or_introl eq_refl) eq_refl).
Defined.

(** C2 on a run: switched off, with the mode code of cooling. *)
Lemma wall_unit_switched_off_resolves_off_witness :
  Climate._is_wall_unit switched_off_record = true
  /\ switched_off_record !! "iduOnOff" = Some (VBool false)
  /\ Climate._wall_unit_hvac_mode example_const switched_off_record = HA.OFF
  /\ DaikinSkyport._wall_unit_mode example_const switched_off_record = 0.
Proof.
  destruct (wall_unit_switched_off_resolves_off example_const
              example_repr_float switched_off_record
              (Climate.new_Thermostat (VInt 0) 0%nat switched_off_record)
              eq_refl eq_refl) as (Hmode & _ & Hclient).
  exact (conj eq_refl (conj eq_refl (conj Hmode Hclient))).
Defined.

(** C4 on a run: the dry record of the specification. *)
Lemma wall_unit_dry_mode_features_witness :
  Climate._is_wall_unit dry_record = true
  /\ Climate._wall_unit_hvac_mode example_const dry_record = HA.DRY
  /\ exists e',
      Climate.resolve example_const example_repr_float dry_record
        (Climate.new_Thermostat (VInt 0) 0%nat dry_record) = (Ret tt, e')
      /\ Climate._hvac_mode e' = HA.DRY
      /\ Climate._fan_modes e' = []
      /\ Climate.target_temperature e' = VNone.
Proof.
  destruct (wall_unit_dry_mode_features example_const example_repr_float
              dry_record (Climate.new_Thermostat (VInt 0) 0%nat dry_record)
              eq_refl eq_refl)
    as (e' & Hrun & Hmode & _ & _ & _ & Hfans & _ & Htarget).
  split; [reflexivity |]. split; [reflexivity |].
  exists e'. exact (conj Hrun (conj Hmode (conj Hfans Htarget))).
Defined.

(** C5, as stated, fails: with a null stage count and the protocol flag
    [True] the record can cool in the words of the claim, and the
    discovery raises [TypeError] with [HEAT] alone in the list. *)
Lemma null_stage_count_raises :
  cool_capable null_count_record
  /\ heat_capable null_count_record
  /\ fst (Climate._configure_capabilities example_const null_count_record
            (central_entity HA.OFF)) = Raise TypeError
  /\ Climate._operation_list
       (snd (Climate._configure_capabilities example_const null_count_record
               (central_entity HA.OFF))) = [HA.HEAT].
Proof.
  split; [by right |]. split; [| by vm_compute].
  exists (VBool true). split; [reflexivity |]. by intros [=].
Qed.

(** C5 on two runs: a central record that heats and cools, and the one
    with the null stage count. *)
Lemma central_supported_modes_witness :
  Climate.self_is_wall_unit (central_entity HA.OFF) = false
  /\ (exists e',
        Climate._configure_capabilities example_const central_record
          (central_entity HA.OFF) = (Ret tt, e')
        /\ (HA.AUTO ∈ Climate._operation_list e' <->
            HA.HEAT ∈ Climate._operation_list e'
            /\ HA.COOL ∈ Climate._operation_list e')
        /\ last (Climate._operation_list e') = Some HA.OFF)
  /\ (exists e',
        Climate._configure_capabilities example_const null_count_record
          (central_entity HA.OFF) = (Raise TypeError, e')
        /\ (HA.OFF ∉ Climate._operation_list e')).
Proof.
  destruct (proj1 (central_supported_modes example_const central_record
                     (central_entity HA.OFF) eq_refl) eq_refl)
    as (e' & Hrun & _ & _ & Hauto & _ & Hlast).
  destruct (proj2 (central_supported_modes example_const null_count_record
                     (central_entity HA.OFF) eq_refl) eq_refl)
    as (e2 & Hrun2 & _ & _ & _ & Hoff).
  split; [reflexivity |]. split.
  - exists e'. exact (conj Hrun (conj Hauto Hlast)).
  - exists e2. exact (conj Hrun2 Hoff).
Defined.

(** C10 on a run: in [AUTO] the call raises with nothing changed; in
    [HEAT] it returns with both setpoints assigned. *)
Lemma single_setpoint_hold_needs_heat_or_cool_witness :
  Climate.set_temp_hold (VFloat (21 # 1)) (central_world, central_entity HA.AUTO)
  = (Raise (UnboundLocalError "heat_temp"),
     (central_world, central_entity HA.AUTO))
  /\ exists w' e',
      Climate.set_temp_hold (VFloat (21 # 1))
        (central_world, central_entity HA.HEAT) = (Ret tt, (w', e'))
      /\ Climate._heat_setpoint e' = VFloat (21 # 1)
      /\ Climate._cool_setpoint e' = VFloat (25 # 1).
Proof.
  split.
  - refine (proj1 (proj1 (single_setpoint_hold_needs_heat_or_cool
                            example_const (VFloat (21 # 1)) central_world
                            (central_entity HA.AUTO)) _ _));
      discriminate.
  - assert (Hcall : client_hold Climate.PRESET_MANUAL (VInt 0)
                      (VFloat (25 # 1)) (VFloat (21 # 1)) central_record
                      central_world
                    = (Ret (Some {| status_code := 200; resp_json := JObj ∅ |}),
                       snd (client_hold Climate.PRESET_MANUAL (VInt 0)
                              (VFloat (25 # 1)) (VFloat (21 # 1))
                              central_record central_world)))
      by (vm_compute; reflexivity).
    destruct (proj1 (proj2 (single_setpoint_hold_needs_heat_or_cool
                              example_const (VFloat (21 # 1)) central_world
                              (central_entity HA.HEAT)))
                (VFloat (25 # 1)) Climate.PRESET_MANUAL _ _
                eq_refl eq_refl eq_refl eq_refl Hcall)
      as (e' & Hrun & Hheat & Hcool).
    exact (ex_intro _ _ (ex_intro _ e' (conj Hrun (conj Hheat Hcool)))).
Defined.

End ConcreteRuns.


(* ===================================================================== *)
(** * More concrete runs *)
(* ===================================================================== *)

Module Sample.

Import DaikinSkyport Example.

Definition rejected_reply : http_reply :=
  Reply {| status_code := 403; resp_json := JObj ∅ |}.

Definition bare_401_reply : http_reply :=
  Reply {| status_code := 401; resp_json := JObj ∅ |}.

Definition broken_reply : http_reply :=
  Reply {| status_code := 500; resp_json := JInvalid |}.

Definition offline_reply : http_reply :=
  Reply {| status_code := 400;
           resp_json :=
             JObj {[ "message" := VStr "DeviceOfflineException" ]} |}.

Definition login_without_refresh_token : http_reply :=
  Reply {| status_code := 200;
           resp_json := JObj (<["accessToken" := VStr "new"]>
                                (<["refreshToken" := VNone]> ∅)) |}.

(** The example client with a password, and the one in file-based
    mode. *)
Definition password_client : client :=
  {| thermostats := [0%nat]; thermostatlist := JList [];
     authenticated := true; skip_next := false; file_based_config := false;
     user_email := Some (VStr "user@example.org");
     user_password := Some (VStr "secret");
     access_token := VStr "tok"; refresh_token := VStr "ref";
     config_filename := None; config := None |}.

Definition file_client : client :=
  {| thermostats := [0%nat]; thermostatlist := JList [];
     authenticated := true; skip_next := false; file_based_config := true;
     user_email := Some (VStr "user@example.org"); user_password := None;
     access_token := VStr "tok"; refresh_token := VStr "ref";
     config_filename := None; config := None |}.

Definition world_of (c : client) (replies : list http_reply) : world :=
  {| heap := fun l => if (l =? 0)%nat then cooling_record else ∅;
     next_loc := 1%nat; self := c; net := replies; sent := [] |}.

Definition email_only : dict := {[ "EMAIL" := VStr "user@example.org" ]}.

Definition one_temperature : dict :=
  {[ HA.ATTR_TEMPERATURE := VFloat (21 # 1) ]}.

End Sample.

Module MoreRuns.

Import DaikinSkyport Example Sample.

Lemma normalize_keeps_received_fields_witness :
  cooling_record !! "iduOnOff" = Some (VBool true)
  /\ _normalize_device_info example_const cooling_record !! "iduOnOff"
     = Some (VBool true).
Proof.
  split; [reflexivity |].
  apply (normalize_keeps_received_fields example_const cooling_record
           "iduOnOff"%string (VBool true) eq_refl); discriminate.
Defined.

Lemma normalized_wall_unit_is_complete_witness :
  _is_wall_unit dry_record = true
  /\ _normalize_device_info example_const dry_record !! "device_type"
     = Some (VStr "wall_unit").
Proof.
  split; [reflexivity |].
  exact (proj1 (normalized_wall_unit_is_complete example_const dry_record
                  eq_refl)).
Defined.

Lemma refresh_tokens_true_after_rejected_login_witness :
  exists w',
    refresh_tokens (world_of password_client [rejected_reply; rejected_reply])
    = (Ret true, w')
    /\ access_token (self w') = VStr "tok".
Proof.
  destruct (refresh_tokens_true_after_rejected_login
              (world_of password_client [rejected_reply; rejected_reply])
              (VStr "user@example.org") (VStr "secret")
              {| status_code := 403; resp_json := JObj ∅ |}
              {| status_code := 403; resp_json := JObj ∅ |} []
              eq_refl eq_refl eq_refl)
    as (w' & Hrun & Ha & _); [discriminate | discriminate |].
  exists w'. exact (conj Hrun Ha).
Defined.

Lemma refresh_tokens_false_only_without_refresh_token_witness :
  fst (refresh_tokens
         (world_of password_client
            [rejected_reply; login_without_refresh_token])) = Ret false
  /\ refresh_token
       (self (snd (refresh_tokens
                     (world_of password_client
                        [rejected_reply; login_without_refresh_token]))))
     = VNone.
Proof.
  split; [reflexivity |].
  refine (proj1 (refresh_tokens_false_only_without_refresh_token
                   (world_of password_client
                      [rejected_reply; login_without_refresh_token])
                   _ _)).
  reflexivity.
Defined.

Lemma make_request_returns_the_response_witness :
  exists w',
    make_request (OVal (VInt 0)) (ODict heat_body) (Msg "set HVAC mode")
      answered_world
    = (Ret (Some {| status_code := 200; resp_json := JObj ∅ |}), w')
    /\ sent w' = [the_put "dev1" "tok" (ODict heat_body)].
Proof.
  destruct (make_request_returns_the_response (OVal (VInt 0))
              (ODict heat_body) (Msg "set HVAC mode") answered_world 0%nat
              "dev1" "tok" {| status_code := 200; resp_json := JObj ∅ |} []
              eq_refl eq_refl eq_refl eq_refl eq_refl)
    as (w' & Hrun & Hsent & _).
  exists w'. exact (conj Hrun Hsent).
Defined.

Lemma make_request_401_without_error_field_witness :
  exists w',
    make_request (OVal (VInt 0)) (ODict heat_body) (Msg "set HVAC mode")
      (world_of example_client [bare_401_reply])
    = (Raise (KeyError "error"), w').
Proof.
  destruct (make_request_401_without_error_field (OVal (VInt 0))
              (ODict heat_body) (Msg "set HVAC mode")
              (world_of example_client [bare_401_reply]) 0%nat
              "dev1" "tok" {| status_code := 401; resp_json := JObj ∅ |} []
              ∅ eq_refl eq_refl eq_refl eq_refl eq_refl eq_refl eq_refl)
    as (w' & Hrun & _).
  exists w'. exact Hrun.
Defined.

Lemma make_request_other_status_witness :
  fst (make_request (OVal (VInt 0)) (ODict heat_body) (Msg "set HVAC mode")
         (world_of example_client [broken_reply]))
  = Raise JSONDecodeError.
Proof.
  refine (make_request_other_status (OVal (VInt 0)) (ODict heat_body)
            (Msg "set HVAC mode") (world_of example_client [broken_reply])
            0%nat "dev1" "tok"
            {| status_code := 500; resp_json := JInvalid |} []
            eq_refl eq_refl eq_refl eq_refl _ _); discriminate.
Defined.

Lemma make_request_without_device_witness :
  exists w',
    make_request (OVal (VInt 5)) (ODict heat_body) (Msg "set HVAC mode")
      answered_world = (Raise IndexError, w')
    /\ sent w' = sent answered_world.
Proof.
  destruct (make_request_without_device (OVal (VInt 5)) (ODict heat_body)
              (Msg "set HVAC mode") answered_world IndexError eq_refl)
    as (w' & Hrun & Hsent & _).
  exists w'. exact (conj Hrun Hsent).
Defined.

Lemma get_thermostats_rejected_witness :
  exists w',
    get_thermostats example_const (world_of example_client [rejected_reply])
    = (Raise ExpiredTokenError, w')
    /\ authenticated (self w') = false.
Proof.
  destruct (get_thermostats_rejected example_const
              (world_of example_client [rejected_reply]) "tok"
              {| status_code := 403; resp_json := JObj ∅ |} []
              eq_refl eq_refl)
    as (w' & Hrun & Hauth & _); [discriminate |].
  exists w'. exact (conj Hrun Hauth).
Defined.

Lemma get_thermostats_unanswered_witness :
  exists w',
    get_thermostats example_const (world_of example_client [NoReply])
    = (Ret None, w')
    /\ self w' = example_client.
Proof.
  destruct (get_thermostats_unanswered example_const
              (world_of example_client [NoReply]) "tok" [] eq_refl eq_refl)
    as (w' & Hrun & Hself & _).
  exists w'. exact (conj Hrun Hself).
Defined.

Lemma update_keeps_old_records_witness :
  heap (snd (update example_const answered_world)) 0%nat = cooling_record.
Proof.
  apply (update_keeps_old_records example_const answered_world 0%nat).
  repeat constructor.
Defined.

Lemma set_temperature_clears_the_setpoints_witness :
  exists w' e',
    Climate.set_temperature example_const one_temperature
      (central_world, central_entity HA.HEAT) = (Ret tt, (w', e'))
    /\ Climate._heat_setpoint e' = VNone
    /\ Climate.target_temperature e' = VNone.
Proof.
  assert (Hcall : client_hold Climate.PRESET_MANUAL (VInt 0)
                    (VFloat (25 # 1)) (VFloat (21 # 1)) central_record
                    central_world
                  = (Ret (Some {| status_code := 200; resp_json := JObj ∅ |}),
                     snd (client_hold Climate.PRESET_MANUAL (VInt 0)
                            (VFloat (25 # 1)) (VFloat (21 # 1))
                            central_record central_world)))
    by (vm_compute; reflexivity).
  destruct (set_temperature_clears_the_setpoints example_const
              one_temperature central_world _ (central_entity HA.HEAT)
              (VFloat (21 # 1)) (VFloat (25 # 1)) Climate.PRESET_MANUAL _
              eq_refl eq_refl eq_refl eq_refl eq_refl eq_refl eq_refl eq_refl
              Hcall)
    as (e' & Hrun & Hheat & _ & Htarget & _).
  exact (ex_intro _ _ (ex_intro _ e' (conj Hrun (conj Hheat Htarget)))).
Defined.

Lemma entity_set_hvac_mode_records_the_mode_witness :
  exists w' e',
    Commands.set_hvac_mode example_const HA.FAN_ONLY
      (central_world, central_entity HA.HEAT) = (Ret tt, (w', e'))
    /\ Climate._hvac_mode e' = HA.FAN_ONLY
    /\ heap w' 0%nat !! "mode" = Some (VInt 0).
Proof.
  assert (Hcall : set_hvac_mode (VInt 0)
                    (Climate._daikin_mode_from_hass example_const HA.FAN_ONLY)
                    central_world
                  = (Ret (Some {| status_code := 200; resp_json := JObj ∅ |}),
                     snd (set_hvac_mode (VInt 0)
                            (Climate._daikin_mode_from_hass example_const
                               HA.FAN_ONLY) central_world)))
    by (vm_compute; reflexivity).
  pose proof (entity_set_hvac_mode_records_the_mode example_const HA.FAN_ONLY
                central_world _ (central_entity HA.HEAT) _ eq_refl Hcall)
    as Hrun.
  exact (ex_intro _ _ (ex_intro _ _ (conj Hrun (conj eq_refl eq_refl)))).
Defined.

Lemma switched_off_wall_unit_resolves_off_witness :
  heap (snd (set_wall_unit_mode example_const (VInt 0) (ModeEnum HA.OFF)
               answered_world)) 0%nat !! "iduOnOff" = Some (VBool false)
  /\ Climate._wall_unit_hvac_mode example_const
       (heap (snd (set_wall_unit_mode example_const (VInt 0)
                     (ModeEnum HA.OFF) answered_world)) 0%nat) = HA.OFF.
Proof.
  destruct (switched_off_wall_unit_resolves_off example_const (VInt 0)
              (ModeEnum HA.OFF) answered_world 0%nat eq_refl
              (or_introl eq_refl))
    as (Hon & _ & Hmode & _).
  exact (conj Hon Hmode).
Defined.

Lemma stored_config_restores_tokens_witness :
  exists stored,
    config (self (snd (write_tokens_to_file answered_world))) = Some stored
    /\ access_token (Constructor.__init__ stored) = VStr "tok"
    /\ user_password (Constructor.__init__ stored) = None.
Proof.
  destruct (stored_config_restores_tokens answered_world
              (VStr "user@example.org") eq_refl eq_refl)
    as (stored & Hcfg & _ & Ha & _ & _ & Hp).
  exists stored. exact (conj Hcfg (conj Ha Hp)).
Defined.

Lemma file_based_refresh_raises_witness :
  exists w',
    refresh_tokens (world_of file_client [token_reply])
    = (Raise (AttributeError "config_filename"), w')
    /\ access_token (self w') = VStr "new".
Proof.
  exact (proj2 (file_based_refresh_raises
                  (world_of file_client [token_reply])
                  (VStr "user@example.org") (VStr "new")
                  {| status_code := 200;
                     resp_json := JObj (<["accessToken" := VStr "new"]>
                                          (<["refreshToken" := VStr "ref2"]>
                                             ∅)) |}
                  [] eq_refl eq_refl eq_refl eq_refl eq_refl eq_refl)).
Defined.

Lemma refresh_without_password_raises_witness :
  exists w',
    refresh_tokens (world_of (Constructor.__init__ email_only)
                      [rejected_reply])
    = (Raise (AttributeError "user_password"), w').
Proof.
  destruct (refresh_without_password_raises email_only
              (world_of (Constructor.__init__ email_only) [rejected_reply])
              (VStr "user@example.org")
              {| status_code := 403; resp_json := JObj ∅ |} []
              eq_refl eq_refl eq_refl eq_refl)
    as (w' & Hrun & _); [discriminate |].
  exists w'. exact Hrun.
Defined.

Lemma get_thermostat_info_offline_witness :
  exists w',
    get_thermostat_info example_const (VStr "dev1")
      (world_of example_client [offline_reply]) = (Ret None, w')
    /\ authenticated (self w') = true.
Proof.
  destruct (get_thermostat_info_offline example_const "dev1" "tok"
              (world_of example_client [offline_reply])
              {| status_code := 400;
                 resp_json :=
                   JObj {[ "message" := VStr "DeviceOfflineException" ]} |}
              [] {[ "message" := VStr "DeviceOfflineException" ]}
              eq_refl eq_refl eq_refl eq_refl)
    as (w' & Hrun & Hauth & _).
  exists w'. exact (conj Hrun Hauth).
Defined.

End MoreRuns.
